(** * Advanced-metrics derivation of [analysis/player_stats.py]

    A shallow embedding of [PlayerStatsCollector.calculate_advanced_metrics]
    and of the projection and sort done by [get_player_stats], with the
    properties of the metrics pipeline stated over it.

    Numbers.  The columns the pipeline computes with are [float64] (Python
    floats); they are modelled by Rocq's primitive binary64 floats, whose
    [+ - * /] and comparisons are the IEEE 754 ones numpy uses (division by
    zero gives an infinity or NaN, never an exception).  A column pandas keeps
    as [int64] is represented by the same numbers as floats; integer and
    float arithmetic agree on the integers below 2^53 that box scores hold.
    The formulas themselves are written once over a [Numeric] interface, so
    that they can also be read over the exact rationals. *)

From Stdlib Require Import ZArith QArith Qcanon PrimFloat Uint63 Field Ascii String.
From stdpp Require Import base option list strings sorting.

Set Default Proof Using "Type".
Local Open Scope Z_scope.

(** ** Numbers *)

Declare Scope num_scope.
Delimit Scope num_scope with num.

(** The arithmetic a dtype offers to the formulas: the four operations, the
    comparison [x > y], and the value of a decimal literal [n/d]. *)
Class Numeric (T : Type) := {
  lit : Z -> positive -> T;
  nadd : T -> T -> T;
  nsub : T -> T -> T;
  nmul : T -> T -> T;
  ndiv : T -> T -> T;
  ngt : T -> T -> bool
}.

Notation "x + y" := (nadd x y) : num_scope.
Notation "x - y" := (nsub x y) : num_scope.
Notation "x * y" := (nmul x y) : num_scope.
Notation "x / y" := (ndiv x y) : num_scope.
Notation "x >? y" := (ngt x y) (at level 70, no associativity) : num_scope.
Notation "n // d" := (lit n%Z d%positive) (at level 35, no associativity) : num_scope.

(** An integer literal of the source, such as [100] or [0]. *)
Definition int {T : Type} `{Numeric T} (n : Z) : T := lit n 1.

(** [float(n)] for a non-negative machine integer. *)
Definition float_of_Z (n : Z) : float := PrimFloat.of_uint63 (Uint63.of_Z n).

(** binary64: a literal is the correctly rounded quotient of its numerator
    and denominator, which is the double Python reads the literal as. *)
#[export] Instance float64 : Numeric float := {|
  lit n d := PrimFloat.div (float_of_Z n) (float_of_Z (Zpos d));
  nadd := PrimFloat.add;
  nsub := PrimFloat.sub;
  nmul := PrimFloat.mul;
  ndiv := PrimFloat.div;
  ngt x y := PrimFloat.ltb y x
|}.

(** Exact rational arithmetic, for the algebra the formulas obey before
    rounding. *)
#[export] Instance exact : Numeric Qc := {|
  lit n d := Q2Qc (n # d);
  nadd := Qcplus;
  nsub := Qcminus;
  nmul := Qcmult;
  ndiv := Qcdiv;
  ngt x y := match (y ?= x)%Qc with Lt => true | _ => false end
|}.

(** ** Series: element-wise column arithmetic *)

Declare Scope series_scope.
Delimit Scope series_scope with S.

(** A numeric column. *)
Abbreviation Series := list (only parsing).

Section Series.
Context {T : Type} `{Numeric T}.

Definition s_add (a b : Series T) : Series T := zip_with nadd a b.
Definition s_sub (a b : Series T) : Series T := zip_with nsub a b.
Definition s_div (a b : Series T) : Series T := zip_with ndiv a b.
(** scalar on the left: [k * s], [k - s] *)
Definition s_scale (k : T) (a : Series T) : Series T := nmul k <$> a.
Definition s_rsub (k : T) (a : Series T) : Series T := nsub k <$> a.
(** [s > k], a boolean mask *)
Definition s_gt (a : Series T) (k : T) : list bool := (fun x => ngt x k) <$> a.
(** [np.where(cond, x, y)] with an array [y], and with a scalar [y] *)
Definition np_where (c : list bool) (x y : Series T) : Series T :=
  zip_with (fun (b : bool) (xy : T * T) => if b then xy.1 else xy.2) c (zip x y).
Definition np_where_scalar (c : list bool) (x : Series T) (k : T) : Series T :=
  zip_with (fun (b : bool) (v : T) => if b then v else k) c x.
End Series.

Notation "a + b" := (s_add a b) : series_scope.
Notation "a - b" := (s_sub a b) : series_scope.
Notation "a / b" := (s_div a b) : series_scope.
Notation "k *: a" := (s_scale k%num a) (at level 40, no associativity) : series_scope.
Notation "k -: a" := (s_rsub k%num a) (at level 50, no associativity) : series_scope.
Notation "a >: k" := (s_gt a k%num) (at level 70, no associativity) : series_scope.

(** ** The metric formulas, column-wise as in the source *)

Section Formulas.
Context {T : Type} `{Numeric T}.
Local Open Scope series_scope.

Implicit Types FGM FGA FTM FTA OREB DREB AST STL BLK TOV PF PTS : Series T.
Implicit Types PLUS_MINUS MINUTES_PLAYED POSS : Series T.

(** [np.where(df['FGA'] > 0, df['FGM'] / df['FGA'], 0)] *)
Definition FG_PCT FGM FGA : Series T :=
  np_where_scalar (FGA >: int 0) (FGM / FGA) (int 0).

(** [np.where((FGA + 0.44 * FTA) > 0, PTS / (2 * (FGA + 0.44 * FTA)), 0)] *)
Definition TS_PCT PTS FGA FTA : Series T :=
  np_where_scalar ((FGA + 44//100 *: FTA) >: int 0)
                  (PTS / (int 2 *: (FGA + 44//100 *: FTA))) (int 0).

(** [np.where(MINUTES_PLAYED > 0, PTS / MINUTES_PLAYED, 0)] *)
Definition PTS_PER_MIN PTS MINUTES_PLAYED : Series T :=
  np_where_scalar (MINUTES_PLAYED >: int 0) (PTS / MINUTES_PLAYED) (int 0).

(** [df['FGA'] - df['OREB'] + df['TOV'] + 0.44 * df['FTA']] *)
Definition POSS_col FGA OREB TOV FTA : Series T :=
  FGA - OREB + TOV + 44//100 *: FTA.

(** [np.where(POSS > 0, 100 * (PTS + 1.5 * AST) / POSS, 0)] *)
Definition OFF_RATING PTS AST POSS : Series T :=
  np_where_scalar (POSS >: int 0) (int 100 *: (PTS + 15//10 *: AST) / POSS) (int 0).

(** [np.where(MINUTES_PLAYED > 0,
              100 - (5 * (STL + BLK) - PF - PLUS_MINUS) / MINUTES_PLAYED, 0)] *)
Definition DEF_RATING STL BLK PF PLUS_MINUS MINUTES_PLAYED : Series T :=
  np_where_scalar (MINUTES_PLAYED >: int 0)
    (int 100 -: ((int 5 *: (STL + BLK) - PF - PLUS_MINUS) / MINUTES_PLAYED)) (int 0).

(** [PTS + 0.4 * FGM - 0.7 * FGA - 0.4 * (FTA - FTM) + 0.7 * OREB
     + 0.3 * DREB + STL + 0.7 * AST + 0.7 * BLK - 0.4 * PF - TOV] *)
Definition GAME_SCORE PTS FGM FGA FTA FTM OREB DREB STL AST BLK PF TOV : Series T :=
  PTS + 4//10 *: FGM - 7//10 *: FGA - 4//10 *: (FTA - FTM)
  + 7//10 *: OREB + 3//10 *: DREB + STL + 7//10 *: AST
  + 7//10 *: BLK - 4//10 *: PF - TOV.

(** [100 * (df['FGA'] + 0.44 * df['FTA'] + df['TOV']) / df['POSS']] *)
Definition USG_RATE FGA FTA TOV POSS : Series T :=
  int 100 *: (FGA + 44//100 *: FTA + TOV) / POSS.

(** [np.where(df['TOV'] > 0, df['AST'] / df['TOV'], df['AST'])] *)
Definition AST_TO_RATIO AST TOV : Series T :=
  np_where (TOV >: int 0) (AST / TOV) AST.
End Formulas.

(** ** Per-record reading of the formulas

    What each column holds in one row, as a function of that row's fields. *)

Section RowFormulas.
Context {T : Type} `{Numeric T}.
Local Open Scope num_scope.

Definition fg_pct (fgm fga : T) : T :=
  if fga >? int 0 then fgm / fga else int 0.
Definition ts_pct (pts fga fta : T) : T :=
  if (fga + 44//100 * fta) >? int 0
  then pts / (int 2 * (fga + 44//100 * fta)) else int 0.
Definition pts_per_min (pts minutes : T) : T :=
  if minutes >? int 0 then pts / minutes else int 0.
Definition poss (fga oreb tov fta : T) : T :=
  ((fga - oreb) + tov) + 44//100 * fta.
Definition off_rating (pts ast possessions : T) : T :=
  if possessions >? int 0
  then (int 100 * (pts + 15//10 * ast)) / possessions else int 0.
Definition def_rating (stl blk pf plus_minus minutes : T) : T :=
  if minutes >? int 0
  then int 100 - (((int 5 * (stl + blk)) - pf) - plus_minus) / minutes
  else int 0.
Definition game_score (pts fgm fga fta ftm oreb dreb stl ast blk pf tov : T) : T :=
  ((((((((((pts + 4//10 * fgm) - 7//10 * fga) - 4//10 * (fta - ftm))
         + 7//10 * oreb) + 3//10 * dreb) + stl) + 7//10 * ast)
     + 7//10 * blk) - 4//10 * pf) - tov).
Definition usg_rate (fga fta tov possessions : T) : T :=
  (int 100 * ((fga + 44//100 * fta) + tov)) / possessions.
Definition ast_to_ratio (ast tov : T) : T :=
  if tov >? int 0 then ast / tov else ast.
End RowFormulas.

(** ** Values, frames, exceptions and the log *)

(** A cell of a raw game log: a Python [str], or a number.  A missing value
    ([None], [NaN]) is the float NaN, as pandas stores it. *)
Inductive cell :=
  | Str (s : string)
  | Num (x : float).

(** A [pd.DataFrame]: its number of rows and its columns in order, each a
    label and the cells of that column.  Labels are distinct. *)
Record DataFrame := {
  nrows : nat;
  cols : list (string * list cell)
}.

Inductive exn :=
  | KeyError (key : string)
  | TypeError
  | ValueError.

Inductive result (A : Type) :=
  | Ok (a : A)
  | Raise (e : exn).
Arguments Ok {A} a.
Arguments Raise {A} e.

(** A record handed to [logger]: level, message and, for an error, the
    exception whose [str] ends the message. *)
Inductive log_record :=
  | LogInfo (msg : string)
  | LogWarning (msg : string)
  | LogError (msg : string) (e : exn).

Module Res.
Definition bind {A B} (m : result A) (k : A -> result B) : result B :=
  match m with
  | Ok a => k a
  | Raise e => Raise e
  end.

Fixpoint mapM {A B} (f : A -> result B) (l : list A) : result (list B) :=
  match l with
  | [] => Ok []
  | x :: l' => bind (f x) (fun y => bind (mapM f l') (fun ys => Ok (y :: ys)))
  end.
End Res.

Declare Scope res_scope.
Delimit Scope res_scope with res.
Notation "x <- m ;; k" := (Res.bind m (fun x => k))
  (at level 100, m at next level, right associativity) : res_scope.

(** Code that logs and may raise: the log is threaded through, and survives
    an exception. *)
Definition M (A : Type) : Type := list log_record -> result A * list log_record.

Module Log.
Definition ret {A} (a : A) : M A := fun l => (Ok a, l).
Definition bind {A B} (m : M A) (k : A -> M B) : M B :=
  fun l => match m l with
           | (Ok a, l') => k a l'
           | (Raise e, l') => (Raise e, l')
           end.
Definition lift {A} (r : result A) : M A := fun l => (r, l).
Definition emit (r : log_record) : M unit := fun l => (Ok tt, l ++ [r]).
(** [try: m  except Exception as e: handler e] *)
Definition try_except {A} (m : M A) (handler : exn -> M A) : M A :=
  fun l => match m l with
           | (Ok a, l') => (Ok a, l')
           | (Raise e, l') => handler e l'
           end.
(** [for x in xs: s = body x s] *)
Fixpoint for_each {A S} (xs : list A) (body : A -> S -> M S) (s : S) : M S :=
  match xs with
  | [] => ret s
  | x :: xs' => bind (body x s) (for_each xs' body)
  end.
End Log.

Declare Scope log_scope.
Delimit Scope log_scope with log.
Notation "x <- m ;; k" := (Log.bind m (fun x => k))
  (at level 100, m at next level, right associativity) : log_scope.
Notation "m ;; k" := (Log.bind m (fun _ => k))
  (at level 100, right associativity) : log_scope.

(** ** Frame operations *)

Fixpoint assoc (k : string) (l : list (string * list cell)) : option (list cell) :=
  match l with
  | [] => None
  | (k', v) :: l' => if String.eqb k k' then Some v else assoc k l'
  end.

Fixpoint assoc_set (k : string) (v : list cell) (l : list (string * list cell))
  : list (string * list cell) :=
  match l with
  | [] => [(k, v)]
  | (k', v') :: l' =>
      if String.eqb k k' then (k, v) :: l' else (k', v') :: assoc_set k v l'
  end.

(** [df.columns] *)
Definition columns (df : DataFrame) : list string := (cols df).*1.

(** [col in df.columns] *)
Definition has_column (df : DataFrame) (col : string) : bool :=
  existsb (String.eqb col) (columns df).

(** [df[col]]: [KeyError] when there is no such column. *)
Definition getitem (df : DataFrame) (col : string) : result (list cell) :=
  match assoc col (cols df) with
  | Some v => Ok v
  | None => Raise (KeyError col)
  end.

(** [df[col] = v]: replaces the column in place, or appends a new one. *)
Definition setitem (df : DataFrame) (col : string) (v : list cell) : DataFrame :=
  {| nrows := nrows df; cols := assoc_set col v (cols df) |}.

(** [df[col]] as the operand of float arithmetic or of a comparison with a
    number; a [str] cell there is a [TypeError]. *)
Definition to_float (c : cell) : result float :=
  match c with
  | Num x => Ok x
  | Str _ => Raise TypeError
  end.

Definition numeric (df : DataFrame) (col : string) : result (Series float) :=
  (v <- getitem df col;; Res.mapM to_float v)%res.

(** [pd.isna] of a cell *)
Definition isna (c : cell) : bool :=
  match c with
  | Num x => PrimFloat.is_nan x
  | Str _ => false
  end.

(** [df.fillna(0)]: every missing value of every column becomes 0. *)
Definition fill_cell (c : cell) : cell := if isna c then Num 0%float else c.

Definition fillna0 (df : DataFrame) : DataFrame :=
  {| nrows := nrows df;
     cols := (fun kv : string * list cell => (kv.1, fill_cell <$> kv.2)) <$> cols df |}.

(** ** Strings: [':' in x] and [x.split(':')] *)

Fixpoint str_contains (c : ascii) (s : string) : bool :=
  match s with
  | EmptyString => false
  | String a s' => if Ascii.eqb a c then true else str_contains c s'
  end.

Fixpoint split_on (c : ascii) (s : string) : list string :=
  match s with
  | EmptyString => [EmptyString]
  | String a s' =>
      if Ascii.eqb a c then EmptyString :: split_on c s'
      else match split_on c s' with
           | [] => [String a EmptyString]
           | w :: ws => String a w :: ws
           end
  end.

(** ** The pipeline *)

Local Open Scope string_scope.

(** [numeric_cols] of [calculate_advanced_metrics] *)
Definition numeric_cols : list string :=
  ["MIN"; "FGM"; "FGA"; "FG3M"; "FG3A"; "FTM"; "FTA";
   "OREB"; "DREB"; "REB"; "AST"; "STL"; "BLK"; "TOV"; "PF"; "PTS";
   "PLUS_MINUS"].

(** [ts_columns] of [get_player_stats] *)
Definition ts_columns : list string :=
  ["GAME_DATE"; "GAME_ID";
   "FG_PCT"; "TS_PCT"; "PTS_PER_MIN";
   "PLUS_MINUS"; "OFF_RATING"; "DEF_RATING"; "GAME_SCORE";
   "USG_RATE"; "MINUTES_PLAYED"; "AST_TO_RATIO"].

(** The order of two cells of one kind, as Python's [<] on two [str] or on
    two numbers. *)
Definition cell_ltb (a b : cell) : bool :=
  match a, b with
  | Str s, Str t => String.ltb s t
  | Num x, Num y => PrimFloat.ltb x y
  | _, _ => false
  end.

(** Whether [<] is defined between all the cells: they are all [str] or all
    numbers. Python raises [TypeError] on [str < float]. *)
Definition is_str (c : cell) : bool := match c with Str _ => true | Num _ => false end.
Definition comparable (l : list cell) : bool :=
  forallb is_str l || forallb (fun c => negb (is_str c)) l.

(** [a[idx]], numpy's indexing of an array by an array of positions. *)
Definition take {A} (idx : list nat) (a : list A) : list A :=
  omap (fun i => a !! i) idx.

(** [a[mask]], numpy's selection by a boolean mask. *)
Fixpoint masked {A} (mask : list bool) (a : list A) : list A :=
  match mask, a with
  | b :: mask', x :: a' => if b then x :: masked mask' a' else masked mask' a'
  | _, _ => []
  end.

(** The rows [idx] of a frame, in that order. *)
Definition take_rows (idx : list nat) (df : DataFrame) : DataFrame :=
  {| nrows := length idx;
     cols := (fun kv : string * list cell => (kv.1, take idx kv.2)) <$> cols df |}.

Section Pipeline.
(** What the libraries do that the repository does not decide:
    - [to_numeric_str s]: the number [pd.to_numeric] reads a string as,
      [None] when it is not a number (and so coerced to NaN);
    - [py_float s]: Python's [float(s)], [None] for a [ValueError];
    - [argsort l]: the positions numpy's default ([kind='quicksort'])
      [argsort] returns for mutually comparable keys [l]. *)
Variable to_numeric_str : string -> option float.
Variable py_float : string -> option float.
Variable argsort : list cell -> list nat.

(** [pd.to_numeric(s, errors='coerce')] *)
Definition to_numeric (s : list cell) : list cell :=
  (fun c => match c with
            | Num x => Num x
            | Str t => Num (default PrimFloat.nan (to_numeric_str t))
            end) <$> s.

Definition float_of_str (s : string) : result float :=
  match py_float s with
  | Some x => Ok x
  | None => Raise ValueError
  end.

(** [lambda x: float(x.split(':')[0]) + float(x.split(':')[1])/60
               if isinstance(x, str) and ':' in x else float(x)] *)
Definition minutes_lambda (x : cell) : result float :=
  match x with
  | Str s =>
      if str_contains ":" s then
        (a <- float_of_str (nth 0 (split_on ":" s) "");;
         b <- float_of_str (nth 1 (split_on ":" s) "");;
         Ok (a + b / 60)%float)%res
      else float_of_str s
  | Num v => Ok v
  end.

(** One round of the coercion loop:
    [if col in df.columns: df[col] = pd.to_numeric(df[col], errors='coerce')
     else: logger.warning(f"Column {col} not found in game logs")] *)
Definition coerce_column (col : string) (df : DataFrame) : M DataFrame :=
  match assoc col (cols df) with
  | Some v => Log.ret (setitem df col (to_numeric v))
  | None =>
      (Log.emit (LogWarning ("Column " +:+ col +:+ " not found in game logs"));;
       Log.ret df)%log
  end.

(** The statements of the [try] block after the coercion loop and
    [fillna], from [df['MINUTES_PLAYED'] = ...] to [return df]; the columns
    are read in the order Python evaluates them. *)
Definition derive (df : DataFrame) : result DataFrame :=
  (MIN <- getitem df "MIN";;
   MINUTES_PLAYED <- Res.mapM minutes_lambda MIN;;
   let df := setitem df "MINUTES_PLAYED" (Num <$> MINUTES_PLAYED) in
   FGA <- numeric df "FGA";;
   FGM <- numeric df "FGM";;
   let df := setitem df "FG_PCT" (Num <$> FG_PCT FGM FGA) in
   FGA <- numeric df "FGA";;
   FTA <- numeric df "FTA";;
   PTS <- numeric df "PTS";;
   let df := setitem df "TS_PCT" (Num <$> TS_PCT PTS FGA FTA) in
   MINUTES_PLAYED <- numeric df "MINUTES_PLAYED";;
   PTS <- numeric df "PTS";;
   let df := setitem df "PTS_PER_MIN" (Num <$> PTS_PER_MIN PTS MINUTES_PLAYED) in
   FGA <- numeric df "FGA";;
   OREB <- numeric df "OREB";;
   TOV <- numeric df "TOV";;
   FTA <- numeric df "FTA";;
   let df := setitem df "POSS" (Num <$> POSS_col FGA OREB TOV FTA) in
   POSS <- numeric df "POSS";;
   PTS <- numeric df "PTS";;
   AST <- numeric df "AST";;
   let df := setitem df "OFF_RATING" (Num <$> OFF_RATING PTS AST POSS) in
   MINUTES_PLAYED <- numeric df "MINUTES_PLAYED";;
   STL <- numeric df "STL";;
   BLK <- numeric df "BLK";;
   PF <- numeric df "PF";;
   PLUS_MINUS <- numeric df "PLUS_MINUS";;
   let df := setitem df "DEF_RATING"
               (Num <$> DEF_RATING STL BLK PF PLUS_MINUS MINUTES_PLAYED) in
   PTS <- numeric df "PTS";;
   FGM <- numeric df "FGM";;
   FGA <- numeric df "FGA";;
   FTA <- numeric df "FTA";;
   FTM <- numeric df "FTM";;
   OREB <- numeric df "OREB";;
   DREB <- numeric df "DREB";;
   STL <- numeric df "STL";;
   AST <- numeric df "AST";;
   BLK <- numeric df "BLK";;
   PF <- numeric df "PF";;
   TOV <- numeric df "TOV";;
   let df := setitem df "GAME_SCORE"
               (Num <$> GAME_SCORE PTS FGM FGA FTA FTM OREB DREB STL AST BLK PF TOV) in
   FGA <- numeric df "FGA";;
   FTA <- numeric df "FTA";;
   TOV <- numeric df "TOV";;
   POSS <- numeric df "POSS";;
   let df := setitem df "USG_RATE" (Num <$> USG_RATE FGA FTA TOV POSS) in
   TOV <- numeric df "TOV";;
   AST <- numeric df "AST";;
   let df := setitem df "AST_TO_RATIO" (Num <$> AST_TO_RATIO AST TOV) in
   Ok df)%res.

(** The body of the [try] block. *)
Definition try_block (df : DataFrame) : M DataFrame :=
  (df <- Log.for_each numeric_cols coerce_column df;;
   let df := fillna0 df in
   Log.lift (derive df))%log.

(** [calculate_advanced_metrics(self, game_logs)].  [df = game_logs.copy()]
    is the frame the [try] block works on; values are immutable here, so
    [game_logs] itself is what the handler returns. *)
Definition calculate_advanced_metrics (game_logs : DataFrame) : M DataFrame :=
  let df := game_logs in
  Log.try_except (try_block df)
    (fun e =>
       (Log.emit (LogError "Error calculating advanced metrics: " e);;
        Log.ret game_logs)%log).

(** numpy's [argsort] of an object or float array: comparing a [str] with
    a number raises. *)
Definition np_argsort (l : list cell) : result (list nat) :=
  if comparable l then Ok (argsort l) else Raise TypeError.

(** pandas' [nargsort(items, kind='quicksort', ascending=False,
    na_position='last')]: the missing values are set aside, the others are
    reversed, sorted ascending and reversed again, and the missing ones
    come last. *)
Definition nargsort_desc (items : list cell) : result (list nat) :=
  let idx := seq 0 (length items) in
  let mask := isna <$> items in
  let non_nans := masked (negb <$> mask) items in
  let non_nan_idx := masked (negb <$> mask) idx in
  let nan_idx := masked mask idx in
  let non_nans := reverse non_nans in
  let non_nan_idx := reverse non_nan_idx in
  (a <- np_argsort non_nans;;
   let indexer := take a non_nan_idx in
   let indexer := reverse indexer in
   Ok (indexer ++ nan_idx)%list)%res.

(** [df.sort_values(by, ascending=False)] *)
Definition sort_values_desc (df : DataFrame) (by_ : string) : result DataFrame :=
  (k <- getitem df by_;;
   indexer <- nargsort_desc k;;
   Ok (take_rows indexer df))%res.

(** [df[labels]], the frame of the listed columns in the listed order. *)
Definition select (df : DataFrame) (labels : list string) : result DataFrame :=
  (cs <- Res.mapM (fun c => v <- getitem df c;; Ok (c, v)) labels;;
   Ok {| nrows := nrows df; cols := cs |})%res.

(** Lines 243-259 of [get_player_stats]: the projection on the columns of
    [ts_columns] that exist, sorted by date, most recent first. *)
Definition project (player_stats : DataFrame) : result DataFrame :=
  let available_columns := filter (fun c => Is_true (has_column player_stats c)) ts_columns in
  (selected <- select player_stats available_columns;;
   sort_values_desc selected "GAME_DATE")%res.

(** [get_player_stats(self, player_name, num_games)], given what
    [get_recent_game_logs(player_name, num_games)] returned. *)
Definition get_player_stats (player_name : string)
           (recent_game_logs : option DataFrame) : M (option DataFrame) :=
  (Log.emit (LogInfo ("Retrieving stats for player: " +:+ player_name));;
   match recent_game_logs with
   | None =>
       Log.emit (LogWarning ("No game logs found for player: " +:+ player_name));;
       Log.ret None
   | Some game_logs =>
       player_stats <- calculate_advanced_metrics game_logs;;
       filtered_stats <- Log.lift (project player_stats);;
       Log.emit (LogInfo ("Successfully retrieved stats for player: " +:+ player_name));;
       Log.ret (Some filtered_stats)
   end)%log.

(** The spec's [deriveTimeSeriesTable]: enrichment followed by projection,
    what [get_player_stats] does with the game logs it fetched. *)
Definition deriveTimeSeriesTable (rawRecords : DataFrame) : M DataFrame :=
  (player_stats <- calculate_advanced_metrics rawRecords;;
   Log.lift (project player_stats))%log.
End Pipeline.

(** ** Instances of the library parameters, for running the pipeline *)

(** A reader of short plain decimal numerals, [-]digits[.digits], for
    running the pipeline on sample game logs: on a numeral of at most
    fifteen digits it returns the double both [pd.to_numeric] and [float]
    return.  It is not those functions: it reads no longer numeral
    faithfully, and it rejects the other spellings they accept (a sign [+],
    an exponent, blanks around the numeral, [nan], [inf]). *)
Definition digit_of (a : ascii) : option Z :=
  let n := Z.of_N (N_of_ascii a) in
  if ((48 <=? n)%Z && (n <=? 57)%Z)%bool then Some (n - 48) else None.

Fixpoint scan_decimal (s : string) (acc : Z) (scale : option Z) (ndigits : nat)
  : option (Z * Z) :=
  match s with
  | EmptyString =>
      match ndigits with
      | O => None
      | S _ => Some (acc, default 1 scale)
      end
  | String a s' =>
      if Ascii.eqb a "." then
        match scale with
        | None => scan_decimal s' acc (Some 1) ndigits
        | Some _ => None
        end
      else
        match digit_of a with
        | Some d => scan_decimal s' (10 * acc + d) (Z.mul 10 <$> scale) (S ndigits)
        | None => None
        end
  end.

Definition unsigned_decimal (s : string) : option float :=
  match scan_decimal s 0 None 0 with
  | Some (n, d) => Some (float_of_Z n / float_of_Z d)%float
  | None => None
  end.

Definition decimal_literal (s : string) : option float :=
  match s with
  | String "-" s' => PrimFloat.opp <$> unsigned_decimal s'
  | _ => unsigned_decimal s
  end.

(** An argsort by insertion: it returns a sorted permutation and keeps
    equal keys in their order of appearance (a stable sort). *)
Section Argsorts.
Variable keys : list cell.

Definition key_ltb (i j : nat) : bool :=
  match keys !! i, keys !! j with
  | Some a, Some b => cell_ltb a b
  | _, _ => false
  end.

Fixpoint insert_before (i : nat) (l : list nat) : list nat :=
  match l with
  | [] => [i]
  | j :: l' => if key_ltb j i then j :: insert_before i l' else i :: j :: l'
  end.

Definition argsort_stable : list nat :=
  foldr insert_before [] (seq 0 (length keys)).
End Argsorts.

(** ** One record of a frame *)

(** The base fields of one game the formulas read, and the fields derived
    from them. *)
Record box (T : Type) := {
  b_MIN : T; b_FGM : T; b_FGA : T; b_FTM : T; b_FTA : T;
  b_OREB : T; b_DREB : T; b_AST : T; b_STL : T; b_BLK : T;
  b_TOV : T; b_PF : T; b_PTS : T; b_PLUS_MINUS : T
}.
Arguments b_MIN {T} _. Arguments b_FGM {T} _. Arguments b_FGA {T} _.
Arguments b_FTM {T} _. Arguments b_FTA {T} _. Arguments b_OREB {T} _.
Arguments b_DREB {T} _. Arguments b_AST {T} _. Arguments b_STL {T} _.
Arguments b_BLK {T} _. Arguments b_TOV {T} _. Arguments b_PF {T} _.
Arguments b_PTS {T} _. Arguments b_PLUS_MINUS {T} _.

Record derived (T : Type) := {
  d_MINUTES_PLAYED : T; d_FG_PCT : T; d_TS_PCT : T; d_PTS_PER_MIN : T;
  d_POSS : T; d_OFF_RATING : T; d_DEF_RATING : T; d_GAME_SCORE : T;
  d_USG_RATE : T; d_AST_TO_RATIO : T
}.
Arguments d_MINUTES_PLAYED {T} _. Arguments d_FG_PCT {T} _.
Arguments d_TS_PCT {T} _. Arguments d_PTS_PER_MIN {T} _.
Arguments d_POSS {T} _. Arguments d_OFF_RATING {T} _.
Arguments d_DEF_RATING {T} _. Arguments d_GAME_SCORE {T} _.
Arguments d_USG_RATE {T} _. Arguments d_AST_TO_RATIO {T} _.

(** The derived fields of a record with numeric base fields. *)
Definition metrics {T : Type} `{Numeric T} (b : box T) : derived T :=
  let p := poss (b_FGA b) (b_OREB b) (b_TOV b) (b_FTA b) in
  {| d_MINUTES_PLAYED := b_MIN b;
     d_FG_PCT := fg_pct (b_FGM b) (b_FGA b);
     d_TS_PCT := ts_pct (b_PTS b) (b_FGA b) (b_FTA b);
     d_PTS_PER_MIN := pts_per_min (b_PTS b) (b_MIN b);
     d_POSS := p;
     d_OFF_RATING := off_rating (b_PTS b) (b_AST b) p;
     d_DEF_RATING := def_rating (b_STL b) (b_BLK b) (b_PF b) (b_PLUS_MINUS b) (b_MIN b);
     d_GAME_SCORE := game_score (b_PTS b) (b_FGM b) (b_FGA b) (b_FTA b) (b_FTM b)
                       (b_OREB b) (b_DREB b) (b_STL b) (b_AST b) (b_BLK b)
                       (b_PF b) (b_TOV b);
     d_USG_RATE := usg_rate (b_FGA b) (b_FTA b) (b_TOV b) p;
     d_AST_TO_RATIO := ast_to_ratio (b_AST b) (b_TOV b) |}.

(** The number in row [i] of column [col], when the column is numeric. *)
Definition field (df : DataFrame) (col : string) (i : nat) : option float :=
  match numeric df col with
  | Ok v => v !! i
  | Raise _ => None
  end.

(** Row [i] of a frame as a [box], and its derived fields. *)
Definition box_of (df : DataFrame) (i : nat) : option (box float) :=
  m ← field df "MIN" i; fgm ← field df "FGM" i; fga ← field df "FGA" i;
  ftm ← field df "FTM" i; fta ← field df "FTA" i; oreb ← field df "OREB" i;
  dreb ← field df "DREB" i; ast ← field df "AST" i; stl ← field df "STL" i;
  blk ← field df "BLK" i; tov ← field df "TOV" i; pf ← field df "PF" i;
  pts ← field df "PTS" i; pm ← field df "PLUS_MINUS" i;
  Some {| b_MIN := m; b_FGM := fgm; b_FGA := fga; b_FTM := ftm; b_FTA := fta;
          b_OREB := oreb; b_DREB := dreb; b_AST := ast; b_STL := stl;
          b_BLK := blk; b_TOV := tov; b_PF := pf; b_PTS := pts;
          b_PLUS_MINUS := pm |}.

Definition derived_of (df : DataFrame) (i : nat) : option (derived float) :=
  m ← field df "MINUTES_PLAYED" i; fg ← field df "FG_PCT" i;
  ts ← field df "TS_PCT" i; ppm ← field df "PTS_PER_MIN" i;
  p ← field df "POSS" i; off ← field df "OFF_RATING" i;
  def ← field df "DEF_RATING" i; gs ← field df "GAME_SCORE" i;
  usg ← field df "USG_RATE" i; atr ← field df "AST_TO_RATIO" i;
  Some {| d_MINUTES_PLAYED := m; d_FG_PCT := fg; d_TS_PCT := ts;
          d_PTS_PER_MIN := ppm; d_POSS := p; d_OFF_RATING := off;
          d_DEF_RATING := def; d_GAME_SCORE := gs; d_USG_RATE := usg;
          d_AST_TO_RATIO := atr |}.


(** The frame [derive] returns, given the columns it read: the derived
    columns are assigned in the order of the source. *)
Definition enrich (df : DataFrame)
    (MINUTES_PLAYED FGA FGM FTA PTS OREB TOV AST STL BLK PF PLUS_MINUS FTM DREB : list float)
  : DataFrame :=
  let POSS := POSS_col FGA OREB TOV FTA in
  let df := setitem df "MINUTES_PLAYED" (Num <$> MINUTES_PLAYED) in
  let df := setitem df "FG_PCT" (Num <$> FG_PCT FGM FGA) in
  let df := setitem df "TS_PCT" (Num <$> TS_PCT PTS FGA FTA) in
  let df := setitem df "PTS_PER_MIN" (Num <$> PTS_PER_MIN PTS MINUTES_PLAYED) in
  let df := setitem df "POSS" (Num <$> POSS) in
  let df := setitem df "OFF_RATING" (Num <$> OFF_RATING PTS AST POSS) in
  let df := setitem df "DEF_RATING"
              (Num <$> DEF_RATING STL BLK PF PLUS_MINUS MINUTES_PLAYED) in
  let df := setitem df "GAME_SCORE"
              (Num <$> GAME_SCORE PTS FGM FGA FTA FTM OREB DREB STL AST BLK PF TOV) in
  let df := setitem df "USG_RATE" (Num <$> USG_RATE FGA FTA TOV POSS) in
  setitem df "AST_TO_RATIO" (Num <$> AST_TO_RATIO AST TOV).


(** ** The coercion loop and [fillna] as functions

    The loop never raises; what it computes and what it logs are these. *)

Section Cleaned.
Variable to_numeric_str : string -> option float.

Definition coerce1 (col : string) (df : DataFrame) : DataFrame :=
  match assoc col (cols df) with
  | Some v => setitem df col (to_numeric to_numeric_str v)
  | None => df
  end.

Definition missing1 (col : string) (df : DataFrame) : list log_record :=
  match assoc col (cols df) with
  | Some _ => []
  | None => [LogWarning ("Column " +:+ col +:+ " not found in game logs")]
  end.

Fixpoint coerce_all (cs : list string) (df : DataFrame) : DataFrame :=
  match cs with
  | [] => df
  | c :: cs' => coerce_all cs' (coerce1 c df)
  end.

Fixpoint warnings_from (cs : list string) (df : DataFrame) : list log_record :=
  match cs with
  | [] => []
  | c :: cs' => (missing1 c df ++ warnings_from cs' (coerce1 c df))%list
  end.

(** The frame the formulas are computed on: numeric columns coerced,
    missing values zero-filled. *)
Definition cleaned (df : DataFrame) : DataFrame :=
  fillna0 (coerce_all numeric_cols df).

(** One coerced, zero-filled cell of a numeric column. *)
Definition clean_cell (c : cell) : cell :=
  fill_cell (match c with
             | Num x => Num x
             | Str t => Num (default PrimFloat.nan (to_numeric_str t))
             end).
End Cleaned.

(** ** Sample game logs *)

(** A counting stat as a cell. *)
Definition stat (n : Z) : cell := Num (float_of_Z n).

(** One game with the box score of the specification's example
    (FGM=10, FGA=20, FTA=5, FTM=4, OREB=2, DREB=6, STL=1, AST=5, BLK=1,
    PF=3, TOV=2, PTS=25), its minutes given as [minutes]. *)
Definition sample_game (minutes : cell) : DataFrame :=
  {| nrows := 1;
     cols := [("GAME_ID", [Str "0022300001"]); ("GAME_DATE", [Str "2024-01-05"]);
              ("MIN", [minutes]);
              ("FGM", [stat 10]); ("FGA", [stat 20]);
              ("FG3M", [stat 1]); ("FG3A", [stat 4]);
              ("FTM", [stat 4]); ("FTA", [stat 5]);
              ("OREB", [stat 2]); ("DREB", [stat 6]); ("REB", [stat 8]);
              ("AST", [stat 5]); ("STL", [stat 1]); ("BLK", [stat 1]);
              ("TOV", [stat 2]); ("PF", [stat 3]); ("PTS", [stat 25]);
              ("PLUS_MINUS", [stat 7])] |}.

(** A frame without one of its columns. *)
Definition without (col : string) (df : DataFrame) : DataFrame :=
  {| nrows := nrows df;
     cols := List.filter (fun kv : string * list cell => negb (String.eqb kv.1 col))
               (cols df) |}.

Definition game_no_PF : DataFrame := without "PF" (sample_game (stat 36)).
Definition game_no_date : DataFrame := without "GAME_DATE" (sample_game (stat 36)).

(** One game of a player with no offensive rebound: FGA=0, FTA=1, TOV=5. *)
Definition game_no_oreb : DataFrame :=
  {| nrows := 1;
     cols := [("GAME_ID", [Str "0022300002"]); ("GAME_DATE", [Str "2024-01-07"]);
              ("MIN", [stat 15]);
              ("FGM", [stat 0]); ("FGA", [stat 0]);
              ("FTM", [stat 0]); ("FTA", [stat 1]);
              ("OREB", [stat 0]); ("DREB", [stat 0]);
              ("AST", [stat 5]); ("STL", [stat 0]); ("BLK", [stat 0]);
              ("TOV", [stat 5]); ("PF", [stat 0]); ("PTS", [stat 0]);
              ("PLUS_MINUS", [stat 0])] |}.

(** The derived columns, and a frame that has them all. *)
Definition derived_columns : list string :=
  ["MINUTES_PLAYED"; "FG_PCT"; "TS_PCT"; "PTS_PER_MIN"; "POSS"; "OFF_RATING";
   "DEF_RATING"; "GAME_SCORE"; "USG_RATE"; "AST_TO_RATIO"].

Definition fully_enriched (df : DataFrame) : bool :=
  forallb (has_column df) derived_columns.

(** One game in which every guard fails: no shot, no free throw, no minute,
    no turnover, and five assists. *)
Definition game_idle : DataFrame :=
  {| nrows := 1;
     cols := [("GAME_ID", [Str "0022300003"]); ("GAME_DATE", [Str "2024-01-09"]);
              ("MIN", [stat 0]);
              ("FGM", [stat 0]); ("FGA", [stat 0]);
              ("FTM", [stat 0]); ("FTA", [stat 0]);
              ("OREB", [stat 0]); ("DREB", [stat 1]);
              ("AST", [stat 5]); ("STL", [stat 1]); ("BLK", [stat 0]);
              ("TOV", [stat 0]); ("PF", [stat 1]); ("PTS", [stat 0]);
              ("PLUS_MINUS", [stat 2])] |}.

(** ** Sorting: what is asked of [argsort], and what is said of the result *)

(** Every earlier element of [l] is related to every later one. *)
Fixpoint pairwise {A} (R : A -> A -> bool) (l : list A) : bool :=
  match l with
  | [] => true
  | a :: l' => forallb (R a) l' && pairwise R l'
  end.


(** [idx] holds each of the positions [0 .. n-1] once. *)
Definition is_range_permutation (idx : list nat) (n : nat) : bool :=
  Nat.eqb (length idx) n && forallb (fun i => existsb (Nat.eqb i) idx) (seq 0 n).


(** The values [nargsort] computes from the sort keys. *)
Definition present (items : list cell) : list cell :=
  masked (negb <$> (isna <$> items)) items.
Definition present_idx (items : list cell) : list nat :=
  masked (negb <$> (isna <$> items)) (seq 0 (length items)).
Definition missing_idx (items : list cell) : list nat :=
  masked (isna <$> items) (seq 0 (length items)).

Definition indexer_of (argsort : list cell -> list nat) (items : list cell)
  : list nat :=
  (reverse (take (argsort (reverse (present items))) (reverse (present_idx items)))
     ++ missing_idx items)%list.

(** The frame [player_stats[available_columns]] of [get_player_stats]. *)
Definition available_columns (player_stats : DataFrame) : list string :=
  filter (fun c => Is_true (has_column player_stats c)) ts_columns.

Definition projection (player_stats : DataFrame) : DataFrame :=
  {| nrows := nrows player_stats;
     cols := (fun c => (c, default [] (assoc c (cols player_stats))))
               <$> available_columns player_stats |}.

(** Three games, dated 2024-01-01, 2024-01-05 and 2024-01-03 in that order,
    and two games of one date. *)
Definition three_games : DataFrame :=
  {| nrows := 3;
     cols := [("GAME_ID", [Str "A"; Str "B"; Str "C"]);
              ("GAME_DATE", [Str "2024-01-01"; Str "2024-01-05"; Str "2024-01-03"]);
              ("MIN", [stat 30; stat 31; stat 32]);
              ("FGM", [stat 10; stat 8; stat 7]); ("FGA", [stat 20; stat 15; stat 16]);
              ("FTM", [stat 4; stat 2; stat 0]); ("FTA", [stat 5; stat 2; stat 1]);
              ("OREB", [stat 2; stat 1; stat 0]); ("DREB", [stat 6; stat 5; stat 4]);
              ("AST", [stat 5; stat 7; stat 3]); ("STL", [stat 1; stat 0; stat 2]);
              ("BLK", [stat 1; stat 0; stat 0]); ("TOV", [stat 2; stat 3; stat 1]);
              ("PF", [stat 3; stat 2; stat 4]); ("PTS", [stat 25; stat 19; stat 14]);
              ("PLUS_MINUS", [stat 7; stat 3; stat 1])] |}.

Definition two_games_one_date : DataFrame :=
  {| nrows := 2;
     cols := [("GAME_ID", [Str "A"; Str "B"]);
              ("GAME_DATE", [Str "2024-01-05"; Str "2024-01-05"]);
              ("MIN", [stat 30; stat 31]);
              ("FGM", [stat 10; stat 8]); ("FGA", [stat 20; stat 15]);
              ("FTM", [stat 4; stat 2]); ("FTA", [stat 5; stat 2]);
              ("OREB", [stat 2; stat 1]); ("DREB", [stat 6; stat 5]);
              ("AST", [stat 5; stat 7]); ("STL", [stat 1; stat 0]);
              ("BLK", [stat 1; stat 0]); ("TOV", [stat 2; stat 3]);
              ("PF", [stat 3; stat 2]); ("PTS", [stat 25; stat 19]);
              ("PLUS_MINUS", [stat 7; stat 3])] |}.

(** An empty game log that still has its columns. *)
Definition no_games : DataFrame :=
  {| nrows := 0;
     cols := (fun c => (c, [])) <$> ("GAME_ID" :: "GAME_DATE" :: numeric_cols) |}.

(** ** Usage rate on whole box scores *)

(** The usage rate the code computes for a player with no offensive rebound
    and the given counts of shots, free throws and turnovers. *)
Definition count (n : nat) : float := float_of_Z (Z.of_nat n).

Definition usage_of_counts (fga fta tov : nat) : float :=
  usg_rate (count fga) (count fta) (count tov)
    (poss (count fga) (int 0) (count tov) (count fta)).

(** Within 1e-13 of 100. *)
Definition near_100 (x : float) : bool :=
  (PrimFloat.ltb (lit 999999999999999 10000000000000) x
   && PrimFloat.ltb x (lit 1000000000000001 10000000000000))%bool.

Definition all_near_100 (n : nat) : bool :=
  forallb (fun fga =>
    forallb (fun fta =>
      forallb (fun tov =>
        match (fga + fta + tov)%nat with
        | O => true
        | S _ => near_100 (usage_of_counts fga fta tov)
        end) (seq 0 (S n))) (seq 0 (S n))) (seq 0 (S n)).

(** The columns the formulas read. *)
Definition base_columns : list string :=
  ["MIN"; "FGA"; "FGM"; "FTA"; "PTS"; "OREB"; "TOV"; "AST"; "STL"; "BLK";
   "PF"; "PLUS_MINUS"; "FTM"; "DREB"].

(** The number a cell of a numeric column is after coercion and
    zero-filling. *)
Definition clean_float (to_numeric_str : string -> option float) (c : cell)
  : float :=
  match clean_cell to_numeric_str c with
  | Num x => x
  | Str _ => 0%float
  end.

(** * The rest of the collector *)

From Stdlib Require Import DecimalString.

(** ** What the coercion loop logs *)

(** The warning of the loop for a column that is not there. *)
Definition not_found (col : string) : log_record :=
  LogWarning ("Column " +:+ col +:+ " not found in game logs").

(** The columns of [numeric_cols] a frame lacks, in the order of that list. *)
Definition absent_numeric_cols (df : DataFrame) : list string :=
  List.filter (fun c => negb (has_column df c)) numeric_cols.

(** A cell that is a number other than NaN. *)
Definition is_number (c : cell) : bool := negb (is_str c) && negb (isna c).

(** ** Stable sorts *)

(** What a stable [argsort] (numpy's [kind='stable']) adds to [argsort_ok]:
    of two positions, the one listed first has the smaller key, or a key
    that is not greater and the smaller position. *)
Definition stable_ascending (keys : list cell) (idx : list nat) : bool :=
  pairwise (fun i j => key_ltb keys i j || (negb (key_ltb keys j i) && Nat.ltb i j)) idx.

Definition argsort_stable_ok (keys : list cell) (idx : list nat) : bool :=
  is_range_permutation idx (length keys) && stable_ascending keys idx.

(** Rows listed most recent first, the rows of one date in the order they
    had in the input. *)
Definition stable_descending (keys : list cell) (idx : list nat) : bool :=
  pairwise (fun i j => key_ltb keys j i || (negb (key_ltb keys i j) && Nat.ltb i j)) idx.

(** Positions listed in increasing order. *)
Definition increasing (idx : list nat) : bool := pairwise Nat.ltb idx.

(** ** Python strings and numbers *)

(** [str(n)] of an [int] *)
Definition py_str (n : Z) : string := NilZero.string_of_int (Z.to_int n).

(** [int(s)] of a string of decimal digits; any other string is a
    [ValueError].  (The one call of the source reads what precedes the first
    ['-'] of a season label, which holds no sign and no blank.) *)
Definition py_int (s : string) : option Z := Z.of_uint <$> NilZero.uint_of_string s.

(** [s[-2:]] *)
Definition last2 (s : string) : string :=
  String.substring (String.length s - 2) 2 s.

(** [f"{n:02d}"] *)
Definition fmt_02d (n : Z) : string :=
  if ((0 <=? n) && (n <? 10))%Z then "0" +:+ py_str n else py_str n.

(** [needle in hay] *)
Fixpoint contains (needle hay : string) : bool :=
  String.prefix needle hay
  || match hay with
     | EmptyString => false
     | String _ hay' => contains needle hay'
     end.

(** A [dict] with [str] keys whose values are a [str] or [None]: a row of
    the database, a player of a lineup. *)
Definition value : Type := option string.
Definition dict : Type := list (string * value).

Fixpoint dict_lookup (k : string) (d : dict) : option value :=
  match d with
  | [] => None
  | (k', v) :: d' => if String.eqb k k' then Some v else dict_lookup k d'
  end.

(** [d.get(k)] *)
Definition get (d : dict) (k : string) : value := default None (dict_lookup k d).

(** The truth value of a [str] or [None]. *)
Definition truthy (v : value) : bool :=
  match v with
  | Some (String _ _) => true
  | _ => false
  end.

(** [f"{v}"] *)
Definition show (v : value) : string := default "None" v.

(** [d[k] = v] on a [dict] in insertion order: the value of a key that is
    there is replaced where it stands. *)
Fixpoint dict_set {K V} (eqb : K -> K -> bool) (k : K) (v : V) (d : list (K * V))
  : list (K * V) :=
  match d with
  | [] => [(k, v)]
  | (k', v') :: d' =>
      if eqb k k' then (k', v) :: d' else (k', v') :: dict_set eqb k v d'
  end.

(** ** Frames: [len], [empty], [head], [pd.concat] *)

(** [df.empty]: an axis of length 0. *)
Definition empty (df : DataFrame) : bool :=
  Nat.eqb (nrows df) 0 || Nat.eqb (length (cols df)) 0.

(** [df.head(n)]: the first [n] rows, or all but the last [-n] when [n] is
    negative. *)
Definition head (n : Z) (df : DataFrame) : DataFrame :=
  let k := if (0 <=? n)%Z then Z.to_nat n else (nrows df - Z.to_nat (- n))%nat in
  {| nrows := Nat.min k (nrows df);
     cols := (fun kv : string * list cell => (kv.1, firstn k kv.2)) <$> cols df |}.

(** A column of a frame as [pd.concat] sees it: NaN in every row when the
    frame has no such column. *)
Definition column_or_nan (df : DataFrame) (c : string) : list cell :=
  default (replicate (nrows df) (Num PrimFloat.nan)) (assoc c (cols df)).

(** [pd.concat([a, b])]: the rows of [a] then those of [b], over the columns
    of [a] followed by the columns only [b] has. *)
Definition concat (a b : DataFrame) : DataFrame :=
  let labels :=
    (columns a ++ List.filter (fun c => negb (has_column a c)) (columns b))%list in
  {| nrows := nrows a + nrows b;
     cols := (fun c => (c, (column_or_nan a c ++ column_or_nan b c)%list)) <$> labels |}.

(** ** Column labels *)

(** The labels of a frame after [df[k] = ...]: [k] stays where it is, or
    comes last. *)
Definition add_label (k : string) (cs : list string) : list string :=
  if existsb (String.eqb k) cs then cs else (cs ++ [k])%list.

(** ** Usage rate on whole box scores, offensive rebounds included *)





(** ** Exceptions, the log and the outside world *)

(** The exceptions of the methods around the pipeline: those of the frame
    code, the [IndexError] of [split()[-1]], the [AttributeError] of a method
    an object does not have, and whatever the stats provider or the database
    raises. *)
Inductive error :=
  | Py (e : exn)
  | IndexError
  | AttributeError (attr : string)
  | Failure (msg : string).

Inductive outcome (A : Type) :=
  | Return (a : A)
  | Throw (e : error).
Arguments Return {A} a.
Arguments Throw {A} e.

(** What [logger] is handed: a record of the pipeline, an error message that
    ends with the [str] of a caught exception, or a plain error message. *)
Inductive event :=
  | Logged (r : log_record)
  | Caught (msg : string) (e : error)
  | Reported (msg : string).

(** One entry of [nba_api]'s static list of players. *)
Record player_info := { p_id : Z; p_full_name : string }.

(** What the collector does not decide.  [World] is the state of what lies
    outside it (the provider's servers, the clock, the database); a call
    that reaches it may change it.
    - [split], [lower]: Python's [str.split()] and [str.lower()];
    - [to_numeric_str], [py_float], [argsort]: as in the pipeline;
    - [find_players_by_full_name], [find_players_by_last_name]: the searches
      of [nba_api.stats.static.players], which read a list kept in the
      package;
    - [PlayerGameLog player_id season]:
      [playergamelog.PlayerGameLog(player_id=..., season=...).get_data_frames()[0]];
    - [now]: [datetime.now()], its year and its month. *)
Record environment (World : Type) := {
  split : string -> list string;
  lower : string -> string;
  to_numeric_str : string -> option float;
  py_float : string -> option float;
  argsort : list cell -> list nat;
  find_players_by_full_name : string -> outcome (list player_info);
  find_players_by_last_name : string -> outcome (list player_info);
  PlayerGameLog : Z -> string -> World -> outcome DataFrame * World;
  now : World -> (Z * Z) * World
}.
Arguments split {World} _. Arguments lower {World} _.
Arguments to_numeric_str {World} _. Arguments py_float {World} _.
Arguments argsort {World} _.
Arguments find_players_by_full_name {World} _.
Arguments find_players_by_last_name {World} _.
Arguments PlayerGameLog {World} _. Arguments now {World} _.

(** The object behind [self.db], by the methods the collector calls on it;
    [None] where the object has no such method. *)
Record database (World : Type) := {
  get_game : option (value -> World -> outcome (option dict) * World);
  get_players_for_game : option (value -> World -> outcome (list dict) * World);
  get_todays_games : option (World -> outcome (list dict) * World);
  store_player_stats : option (string -> DataFrame -> World -> outcome bool * World)
}.
Arguments get_game {World} _. Arguments get_players_for_game {World} _.
Arguments get_todays_games {World} _. Arguments store_player_stats {World} _.

(** The class [Database] of [src/data/database.py].  Of the four methods it
    defines [get_game] alone (its other methods are [get_connection],
    [connect], [disconnect], [initialize_database], [insert_game],
    [update_game], [get_upcoming_games], [insert_player],
    [update_player_status], [get_players_by_team], [insert_reddit_post],
    [insert_reddit_comment], [get_reddit_posts_by_team],
    [insert_sentiment_analysis], [get_team_sentiment], [insert_prediction],
    [get_latest_prediction] and [update_prediction_results]). *)
Definition Database {World : Type}
    (get_game : value -> World -> outcome (option dict) * World) : database World :=
  {| get_game := Some get_game;
     get_players_for_game := None;
     get_todays_games := None;
     store_player_stats := None |}.

(** Code that logs, reaches the world and may raise. *)
Definition Act (World A : Type) : Type :=
  list event * World -> outcome A * (list event * World).

Module Act.
Section Act.
Context {World : Type}.

Definition ret {A} (a : A) : Act World A := fun s => (Return a, s).
Definition throw {A} (e : error) : Act World A := fun s => (Throw e, s).
Definition bind {A B} (m : Act World A) (k : A -> Act World B) : Act World B :=
  fun s => match m s with
           | (Return a, s') => k a s'
           | (Throw e, s') => (Throw e, s')
           end.
Definition emit (r : event) : Act World unit :=
  fun s => (Return tt, ((s.1 ++ [r])%list, s.2)).
(** A computation that reaches nothing. *)
Definition lift {A} (r : outcome A) : Act World A := fun s => (r, s).
(** A call that reaches the world. *)
Definition call {A} (f : World -> outcome A * World) : Act World A :=
  fun s => ((f s.2).1, (s.1, (f s.2).2)).
(** A piece of the pipeline: its records are appended to the log. *)
Definition pipeline {A} (m : M A) : Act World A :=
  fun s => (match (m []).1 with
            | Ok a => Return a
            | Raise e => Throw (Py e)
            end,
            ((s.1 ++ (Logged <$> (m []).2))%list, s.2)).
(** [try: m  except Exception as e: handler e] *)
Definition try_except {A} (m : Act World A) (handler : error -> Act World A)
  : Act World A :=
  fun s => match m s with
           | (Return a, s') => (Return a, s')
           | (Throw e, s') => handler e s'
           end.
(** [for x in xs: acc = body x acc] *)
Fixpoint for_each {A S} (xs : list A) (body : A -> S -> Act World S) (acc : S)
  : Act World S :=
  match xs with
  | [] => ret acc
  | x :: xs' => bind (body x acc) (for_each xs' body)
  end.
(** [[x for x in xs if cond x]] *)
Fixpoint comprehension {A} (xs : list A) (cond : A -> outcome bool)
  : Act World (list A) :=
  match xs with
  | [] => ret []
  | x :: xs' =>
      bind (lift (cond x)) (fun b =>
      bind (comprehension xs' cond) (fun rest =>
      ret (if b then x :: rest else rest)))
  end.
(** [obj.name]: an [AttributeError] when the object has no such method. *)
Definition attribute {A} (name : string) (method : option A) : Act World A :=
  match method with
  | Some f => ret f
  | None => throw (AttributeError name)
  end.
End Act.
End Act.

Declare Scope act_scope.
Delimit Scope act_scope with act.
Notation "x <- m ;; k" := (Act.bind m (fun x => k))
  (at level 100, m at next level, right associativity) : act_scope.
Notation "m ;; k" := (Act.bind m (fun _ => k))
  (at level 100, right associativity) : act_scope.

(** [d[k]] *)
Definition item (d : dict) (k : string) : outcome value :=
  match dict_lookup k d with
  | Some v => Return v
  | None => Throw (Py (KeyError k))
  end.

(** ** Season labels *)

(** The label of the season under way in the given month of the given year:
    [f"{current_year-1}-{str(current_year)[-2:]}"] before October,
    [f"{current_year}-{str(current_year+1)[-2:]}"] from October on. *)
Definition season_of (current_year current_month : Z) : string :=
  if (current_month <? 10)%Z
  then py_str (current_year - 1) +:+ "-" +:+ last2 (py_str current_year)
  else py_str current_year +:+ "-" +:+ last2 (py_str (current_year + 1)).

(** [f"{int(season.split('-')[0])-1}-{int(season.split('-')[0])%100:02d}"] *)
Definition prev_season_of (season : string) : outcome string :=
  match py_int (hd "" (split_on "-" season)) with
  | Some start => Return (py_str (start - 1) +:+ "-" +:+ fmt_02d (start mod 100))
  | None => Throw (Py ValueError)
  end.

(** ** The methods *)

Module Collector.
Section Collector.
Context {World : Type}.
Variable env : environment World.
Variable db : option (database World).
Local Open Scope act_scope.

(** [get_player_id(self, player_name)] *)
Definition get_player_id (player_name : string) : Act World (option Z) :=
  Act.try_except
    (player_dict <- Act.lift (find_players_by_full_name env player_name);;
     match player_dict with
     | first :: _ => Act.ret (Some (p_id first))
     | [] =>
         last_name <- match last (split env player_name) with
                      | Some w => Act.ret w
                      | None => Act.throw IndexError
                      end;;
         player_dict <- Act.lift (find_players_by_last_name env last_name);;
         match player_dict with
         | first :: _ =>
             match List.find (fun player =>
                                contains (lower env player_name)
                                  (lower env (p_full_name player))) player_dict with
             | Some player => Act.ret (Some (p_id player))
             | None => Act.ret (Some (p_id first))
             end
         | [] =>
             Act.emit (Logged (LogWarning
               ("Could not find player ID for: " +:+ player_name)));;
             Act.ret None
         end
     end)
    (fun e =>
       Act.emit (Caught ("Error getting player ID for " +:+ player_name +:+ ": ") e);;
       Act.ret None).

(** Lines 85-122 of [get_recent_game_logs], what it does once it has a
    [player_id]; the clock is read twice, once for the year and once for the
    month. *)
Definition fetch_game_logs (player_name : string) (num_games : Z) (player_id : Z)
  : Act World (option DataFrame) :=
  current_year <- Act.call (fun w => (Return (now env w).1.1, (now env w).2));;
  current_month <- Act.call (fun w => (Return (now env w).1.2, (now env w).2));;
  let season := season_of current_year current_month in
  df <- Act.call (PlayerGameLog env player_id season);;
  df <- (if (Z.of_nat (nrows df) <? num_games)%Z
         then
           prev_season <- Act.lift (prev_season_of season);;
           prev_df <- Act.call (PlayerGameLog env player_id prev_season);;
           Act.ret (concat df prev_df)
         else Act.ret df);;
  let df := head num_games df in
  if Nat.eqb (nrows df) 0
  then
    Act.emit (Logged (LogWarning
      ("No game logs found for player: " +:+ player_name)));;
    Act.ret None
  else Act.ret (Some df).

(** [get_recent_game_logs(self, player_name, num_games)].  [not player_id]
    holds of [None] and of the id 0. *)
Definition get_recent_game_logs (player_name : string) (num_games : Z)
  : Act World (option DataFrame) :=
  Act.try_except
    (player_id <- get_player_id player_name;;
     match player_id with
     | None | Some 0%Z => Act.ret None
     | Some player_id => fetch_game_logs player_name num_games player_id
     end)
    (fun e =>
       Act.emit (Caught ("Error retrieving game logs for " +:+ player_name +:+ ": ") e);;
       Act.ret None).

(** [get_player_stats(self, player_name, num_games)]; lines 243-259 are
    [project]. *)
Definition get_player_stats (player_name : string) (num_games : Z)
  : Act World (option DataFrame) :=
  Act.emit (Logged (LogInfo ("Retrieving stats for player: " +:+ player_name)));;
  game_logs <- get_recent_game_logs player_name num_games;;
  match game_logs with
  | None =>
      Act.emit (Logged (LogWarning
        ("No game logs found for player: " +:+ player_name)));;
      Act.ret None
  | Some game_logs =>
      player_stats <- Act.pipeline
        (calculate_advanced_metrics (to_numeric_str env) (py_float env) game_logs);;
      filtered_stats <- Act.pipeline (Log.lift (project (argsort env) player_stats));;
      Act.emit (Logged (LogInfo
        ("Successfully retrieved stats for player: " +:+ player_name)));;
      Act.ret (Some filtered_stats)
  end.

(** One round of the loop of [get_team_players_stats]; [continue] leaves
    [team_stats] as it is. *)
Definition team_player (player : dict) (team_stats : list (string * DataFrame))
  : Act World (list (string * DataFrame)) :=
  match get player "name" with
  | Some ((String _ _) as player_name) =>
      let status := get player "status" in
      if truthy status && negb (bool_decide (status = Some "active"))
      then
        Act.emit (Logged (LogInfo
          ("Skipping injured player: " +:+ player_name
             +:+ " (" +:+ show status +:+ ")")));;
        Act.ret team_stats
      else
        player_stats <- get_player_stats player_name 30;;
        match player_stats with
        | Some player_stats =>
            if negb (empty player_stats)
            then Act.ret (dict_set String.eqb player_name player_stats team_stats)
            else Act.ret team_stats
        | None => Act.ret team_stats
        end
  | _ => Act.ret team_stats
  end.

(** [get_team_players_stats(self, team_name, lineup)] *)
Definition get_team_players_stats (team_name : value) (lineup : list dict)
  : Act World (list (string * DataFrame)) :=
  team_stats <- Act.for_each lineup team_player [];;
  Act.emit (Logged (LogInfo
    ("Retrieved stats for " +:+ py_str (Z.of_nat (length team_stats))
       +:+ " players from " +:+ show team_name)));;
  Act.ret team_stats.

(** [get_game_players_stats(self, game_id)].  [not game] holds of [None] and
    of the empty [dict]. *)
Definition get_game_players_stats (game_id : value)
  : Act World (list (value * list (string * DataFrame))) :=
  match db with
  | None =>
      Act.emit (Reported "Database connection not available");;
      Act.ret []
  | Some db =>
      let game_stats := [] in
      Act.try_except
        (get_game <- Act.attribute "get_game" (get_game db);;
         game <- Act.call (get_game game_id);;
         match game with
         | Some ((_ :: _) as game) =>
             get_players_for_game <-
               Act.attribute "get_players_for_game" (get_players_for_game db);;
             players <- Act.call (get_players_for_game game_id);;
             home_players <- Act.comprehension players (fun p =>
               match item p "team", item game "home_team" with
               | Return t, Return h => Return (bool_decide (t = h))
               | Throw e, _ | Return _, Throw e => Throw e
               end);;
             away_players <- Act.comprehension players (fun p =>
               match item p "team", item game "away_team" with
               | Return t, Return a => Return (bool_decide (t = a))
               | Throw e, _ | Return _, Throw e => Throw e
               end);;
             home_team <- Act.lift (item game "home_team");;
             home_stats <- get_team_players_stats home_team home_players;;
             let game_stats :=
               dict_set (fun a b : value => bool_decide (a = b))
                 home_team home_stats game_stats in
             away_team <- Act.lift (item game "away_team");;
             away_stats <- get_team_players_stats away_team away_players;;
             let game_stats :=
               dict_set (fun a b : value => bool_decide (a = b))
                 away_team away_stats game_stats in
             Act.ret game_stats
         | _ =>
             Act.emit (Reported ("Game not found: " +:+ show game_id));;
             Act.ret []
         end)
        (fun e =>
           Act.emit (Caught
             ("Error getting game players stats for " +:+ show game_id +:+ ": ") e);;
           Act.ret [])
  end.

(** The inner loops of [collect_stats_for_todays_games]: every table of
    every team is handed to [self.db.store_player_stats]. *)
Definition store_player (db : database World) (entry : string * DataFrame) (_ : unit)
  : Act World unit :=
  store_player_stats <- Act.attribute "store_player_stats" (store_player_stats db);;
  stored <- Act.call (store_player_stats entry.1 entry.2);;
  if stored : bool
  then Act.emit (Logged (LogInfo ("Stored historical stats for " +:+ entry.1)))
  else Act.ret tt.

Definition store_team (db : database World)
    (entry : value * list (string * DataFrame)) (_ : unit) : Act World unit :=
  Act.for_each entry.2 (store_player db) tt.

(** The body of its outer loop, up to [processed_count += 1]; the value is
    [game_id]. *)
Definition todays_game (db : database World) (game : dict) : Act World value :=
  game_id <- Act.lift (item game "game_id");;
  game_stats <- get_game_players_stats game_id;;
  Act.for_each game_stats (store_team db) tt;;
  Act.ret game_id.

(** The handler of [collect_stats_for_todays_games]: it returns the count
    the loop had reached. *)
Definition collect_handler (processed_count : Z) (e : error) : Act World Z :=
  Act.emit (Caught "Error collecting stats for today's games: " e);;
  Act.ret processed_count.

(** Its loop inside the [try]: [processed_count] is the local variable the
    handler reads when a round raises. *)
Fixpoint collect_loop (db : database World) (todays_games : list dict)
    (processed_count : Z) : Act World Z :=
  match todays_games with
  | [] => Act.ret processed_count
  | game :: rest =>
      fun s =>
        match todays_game db game s with
        | (Return game_id, s') =>
            let processed_count := processed_count + 1 in
            (Act.emit (Logged (LogInfo
               ("Processed stats for game: " +:+ show game_id)));;
             collect_loop db rest processed_count) s'
        | (Throw e, s') => collect_handler processed_count e s'
        end
  end.

(** [collect_stats_for_todays_games(self)] *)
Definition collect_stats_for_todays_games : Act World Z :=
  match db with
  | None =>
      Act.emit (Reported "Database connection not available");;
      Act.ret 0
  | Some db =>
      let processed_count := 0 in
      fun s =>
        match (get_todays_games <-
                 Act.attribute "get_todays_games" (get_todays_games db);;
               Act.call get_todays_games) s with
        | (Return todays_games, s') => collect_loop db todays_games processed_count s'
        | (Throw e, s') => collect_handler processed_count e s'
        end
  end.
End Collector.
End Collector.

(** ** A provider and a database to run the collector on *)

(** [str.split()] and [str.lower()] on ASCII text. *)
Definition is_space (a : ascii) : bool :=
  let n := N_of_ascii a in
  ((9 <=? n) && (n <=? 13) || (28 <=? n) && (n <=? 32))%N.

Fixpoint ascii_split_from (word : string) (s : string) : list string :=
  match s with
  | EmptyString => match word with EmptyString => [] | _ => [word] end
  | String a s' =>
      if is_space a
      then match word with
           | EmptyString => ascii_split_from EmptyString s'
           | _ => word :: ascii_split_from EmptyString s'
           end
      else ascii_split_from (word +:+ String a EmptyString) s'
  end.
Definition ascii_split (s : string) : list string := ascii_split_from EmptyString s.

Definition ascii_lower_char (a : ascii) : ascii :=
  let n := N_of_ascii a in
  if ((65 <=? n) && (n <=? 90))%N then ascii_of_N (n + 32) else a.
Fixpoint ascii_lower (s : string) : string :=
  match s with
  | EmptyString => EmptyString
  | String a s' => String (ascii_lower_char a) (ascii_lower s')
  end.

(** A list of three players and the two searches over it. *)
Definition three_players : list player_info :=
  [ {| p_id := 2544; p_full_name := "LeBron James" |};
    {| p_id := 203552; p_full_name := "Seth Curry" |};
    {| p_id := 201939; p_full_name := "Stephen Curry" |} ].

Definition by_full_name (name : string) : outcome (list player_info) :=
  Return (List.filter (fun p => String.eqb (ascii_lower (p_full_name p)) (ascii_lower name))
            three_players).
Definition by_last_name (name : string) : outcome (list player_info) :=
  Return (List.filter (fun p =>
                         bool_decide (last (ascii_split (ascii_lower (p_full_name p)))
                                      = Some (ascii_lower name)))
            three_players).

(** A provider that has [three_games] for the season 2024-25 and
    [two_games_one_date] for every other season; its world is the list of
    the seasons asked for, and its clock shows November 2024. *)
Definition sample_env : environment (list string) :=
  {| split := ascii_split;
     lower := ascii_lower;
     to_numeric_str := decimal_literal;
     py_float := decimal_literal;
     argsort := argsort_stable;
     find_players_by_full_name := by_full_name;
     find_players_by_last_name := by_last_name;
     PlayerGameLog := fun _ season asked =>
       (Return (if String.eqb season "2024-25" then three_games else two_games_one_date),
        (asked ++ [season])%list);
     now := fun asked => ((2024, 11), asked) |}.

(** A game, Lakers against Warriors, and four players. *)
Definition sample_game_row : dict :=
  [("game_id", Some "G1"); ("home_team", Some "Lakers"); ("away_team", Some "Warriors")].

Definition sample_lineup : list dict :=
  [ [("name", Some "LeBron James"); ("team", Some "Lakers"); ("status", Some "active")];
    [("name", Some "Stephen Curry"); ("team", Some "Warriors"); ("status", Some "injured")];
    [("name", Some "Seth Curry"); ("team", Some "Warriors"); ("status", None)];
    [("team", Some "Warriors")] ].

Definition sample_get_game (game_id : value) (w : list string)
  : outcome (option dict) * list string :=
  (Return (if bool_decide (game_id = Some "G1") then Some sample_game_row else None), w).

(** ** Checks of the season labels over the years of [datetime] *)

(** The label before the label of a season is the label of the season a
    year earlier, in the months before October and in the others. *)
Definition season_chain_ok (year : Z) : bool :=
  forallb (fun month =>
             match prev_season_of (season_of year month) with
             | Return s => String.eqb s (season_of (year - 1) month)
             | Throw _ => false
             end) [1; 10].

(** A label reads [YYYY-YY], the second year being the one after the
    first. *)
Definition season_shape_ok (year : Z) : bool :=
  forallb (fun month =>
             let start := if (month <? 10)%Z then year - 1 else year in
             String.eqb (season_of year month)
               (py_str start +:+ "-" +:+ fmt_02d ((start + 1) mod 100))
             && Nat.eqb (String.length (season_of year month)) 7) [1; 10].

(** ** Who is asked for *)

(** A player the loop of [get_team_players_stats] asks the stats of: the
    name is a string that is not empty, and the status is missing, empty or
    ['active']. *)
Definition asked_for (player : dict) : bool :=
  truthy (get player "name")
  && negb (truthy (get player "status")
           && negb (bool_decide (get player "status" = Some "active"))).

(** A database that has the methods the collector calls: one game, its
    four players, and a store that notes the names it is handed. *)
Definition sample_db : database (list string) :=
  {| get_game := Some sample_get_game;
     get_players_for_game := Some (fun _ w => (Return sample_lineup, w));
     get_todays_games := Some (fun w => (Return [sample_game_row], w));
     store_player_stats :=
       Some (fun name _ w => (Return true, (w ++ ["stored " +:+ name])%list)) |}.

(** A provider whose game logs have no GAME_DATE column, and a database
    that lists two games for today but cannot tell their players. *)
Definition undated_env : environment (list string) :=
  {| split := ascii_split;
     lower := ascii_lower;
     to_numeric_str := decimal_literal;
     py_float := decimal_literal;
     argsort := argsort_stable;
     find_players_by_full_name := by_full_name;
     find_players_by_last_name := by_last_name;
     PlayerGameLog := fun _ season asked =>
       (Return game_no_date, (asked ++ [season])%list);
     now := fun asked => ((2024, 11), asked) |}.

Definition listing_db : database (list string) :=
  {| get_game := Some sample_get_game;
     get_players_for_game := None;
     get_todays_games := Some (fun w => (Return [sample_game_row; sample_game_row], w));
     store_player_stats := None |}.



(** * Properties *)

#[local] Set Warnings "-inexact-float".

(** Row [i] of a formula column is the per-record formula of row [i] of its
    argument columns. *)
Section RowLookup.
Context {T : Type} `{Numeric T}.

Lemma lookup_s_add (a b : Series T) i x y :
  a !! i = Some x -> b !! i = Some y -> (a + b)%S !! i = Some (x + y)%num.
Proof. intros Ha Hb. unfold s_add. rewrite lookup_zip_with, Ha, Hb. reflexivity. Qed.

Lemma lookup_s_sub (a b : Series T) i x y :
  a !! i = Some x -> b !! i = Some y -> (a - b)%S !! i = Some (x - y)%num.
Proof. intros Ha Hb. unfold s_sub. rewrite lookup_zip_with, Ha, Hb. reflexivity. Qed.

Lemma lookup_s_div (a b : Series T) i x y :
  a !! i = Some x -> b !! i = Some y -> (a / b)%S !! i = Some (x / y)%num.
Proof. intros Ha Hb. unfold s_div. rewrite lookup_zip_with, Ha, Hb. reflexivity. Qed.

Lemma lookup_s_scale k (a : Series T) i x :
  a !! i = Some x -> (k *: a)%S !! i = Some (k * x)%num.
Proof. intros Ha. unfold s_scale. rewrite list_lookup_fmap, Ha. reflexivity. Qed.

Lemma lookup_s_rsub k (a : Series T) i x :
  a !! i = Some x -> (k -: a)%S !! i = Some (k - x)%num.
Proof. intros Ha. unfold s_rsub. rewrite list_lookup_fmap, Ha. reflexivity. Qed.

Lemma lookup_s_gt (a : Series T) k i x :
  a !! i = Some x -> (a >: k)%S !! i = Some (x >? k)%num.
Proof. intros Ha. unfold s_gt. rewrite list_lookup_fmap, Ha. reflexivity. Qed.

Lemma lookup_np_where c (a b : Series T) i (g : bool) x y :
  c !! i = Some g -> a !! i = Some x -> b !! i = Some y ->
  np_where c a b !! i = Some (if g then x else y).
Proof.
  intros Hc Ha Hb. unfold np_where.
  rewrite lookup_zip_with, Hc. simpl.
  rewrite lookup_zip_with, Ha. simpl. rewrite Hb. reflexivity.
Qed.

Lemma lookup_np_where_scalar c (a : Series T) k i (g : bool) x :
  c !! i = Some g -> a !! i = Some x ->
  np_where_scalar c a k !! i = Some (if g then x else k).
Proof.
  intros Hc Ha. unfold np_where_scalar.
  rewrite lookup_zip_with, Hc. simpl. rewrite Ha. reflexivity.
Qed.
End RowLookup.

Ltac series_lookup :=
  repeat first
    [ eassumption
    | eapply lookup_np_where_scalar
    | eapply lookup_np_where
    | eapply lookup_s_gt
    | eapply lookup_s_add
    | eapply lookup_s_sub
    | eapply lookup_s_div
    | eapply lookup_s_scale
    | eapply lookup_s_rsub ].

Section RowOfColumn.
Context {T : Type} `{Numeric T}.
Implicit Types FGM FGA FTM FTA OREB DREB AST STL BLK TOV PF PTS : Series T.
Implicit Types PLUS_MINUS MINUTES_PLAYED POSS : Series T.

Lemma FG_PCT_row FGM FGA i fgm fga :
  FGM !! i = Some fgm -> FGA !! i = Some fga ->
  FG_PCT FGM FGA !! i = Some (fg_pct fgm fga).
Proof. intros. unfold FG_PCT, fg_pct. series_lookup. Qed.

Lemma TS_PCT_row PTS FGA FTA i pts fga fta :
  PTS !! i = Some pts -> FGA !! i = Some fga -> FTA !! i = Some fta ->
  TS_PCT PTS FGA FTA !! i = Some (ts_pct pts fga fta).
Proof. intros. unfold TS_PCT, ts_pct. series_lookup. Qed.

Lemma PTS_PER_MIN_row PTS MINUTES_PLAYED i pts minutes :
  PTS !! i = Some pts -> MINUTES_PLAYED !! i = Some minutes ->
  PTS_PER_MIN PTS MINUTES_PLAYED !! i = Some (pts_per_min pts minutes).
Proof. intros. unfold PTS_PER_MIN, pts_per_min. series_lookup. Qed.

Lemma POSS_row FGA OREB TOV FTA i fga oreb tov fta :
  FGA !! i = Some fga -> OREB !! i = Some oreb -> TOV !! i = Some tov ->
  FTA !! i = Some fta ->
  POSS_col FGA OREB TOV FTA !! i = Some (poss fga oreb tov fta).
Proof. intros. unfold POSS_col, poss. series_lookup. Qed.

Lemma OFF_RATING_row PTS AST POSS i pts ast p :
  PTS !! i = Some pts -> AST !! i = Some ast -> POSS !! i = Some p ->
  OFF_RATING PTS AST POSS !! i = Some (off_rating pts ast p).
Proof. intros. unfold OFF_RATING, off_rating. series_lookup. Qed.

Lemma DEF_RATING_row STL BLK PF PLUS_MINUS MINUTES_PLAYED i stl blk pf pm minutes :
  STL !! i = Some stl -> BLK !! i = Some blk -> PF !! i = Some pf ->
  PLUS_MINUS !! i = Some pm -> MINUTES_PLAYED !! i = Some minutes ->
  DEF_RATING STL BLK PF PLUS_MINUS MINUTES_PLAYED !! i
  = Some (def_rating stl blk pf pm minutes).
Proof. intros. unfold DEF_RATING, def_rating. series_lookup. Qed.

Lemma GAME_SCORE_row PTS FGM FGA FTA FTM OREB DREB STL AST BLK PF TOV i
      pts fgm fga fta ftm oreb dreb stl ast blk pf tov :
  PTS !! i = Some pts -> FGM !! i = Some fgm -> FGA !! i = Some fga ->
  FTA !! i = Some fta -> FTM !! i = Some ftm -> OREB !! i = Some oreb ->
  DREB !! i = Some dreb -> STL !! i = Some stl -> AST !! i = Some ast ->
  BLK !! i = Some blk -> PF !! i = Some pf -> TOV !! i = Some tov ->
  GAME_SCORE PTS FGM FGA FTA FTM OREB DREB STL AST BLK PF TOV !! i
  = Some (game_score pts fgm fga fta ftm oreb dreb stl ast blk pf tov).
Proof. intros. unfold GAME_SCORE, game_score. series_lookup. Qed.

Lemma USG_RATE_row FGA FTA TOV POSS i fga fta tov p :
  FGA !! i = Some fga -> FTA !! i = Some fta -> TOV !! i = Some tov ->
  POSS !! i = Some p ->
  USG_RATE FGA FTA TOV POSS !! i = Some (usg_rate fga fta tov p).
Proof. intros. unfold USG_RATE, usg_rate. series_lookup. Qed.

Lemma AST_TO_RATIO_row AST TOV i ast tov :
  AST !! i = Some ast -> TOV !! i = Some tov ->
  AST_TO_RATIO AST TOV !! i = Some (ast_to_ratio ast tov).
Proof. intros. unfold AST_TO_RATIO, ast_to_ratio. series_lookup. Qed.
End RowOfColumn.

(** ** Reading and writing columns *)

Lemma assoc_set_lookup k v l k' :
  assoc k' (assoc_set k v l) = if String.eqb k' k then Some v else assoc k' l.
Proof.
  induction l as [|[k0 v0] l IH]; simpl.
  - destruct (String.eqb k' k); reflexivity.
  - destruct (String.eqb k k0) eqn:E; simpl.
    + apply String.eqb_eq in E. subst k0.
      destruct (String.eqb k' k); reflexivity.
    + rewrite IH. destruct (String.eqb k' k0) eqn:E0; [|reflexivity].
      apply String.eqb_eq in E0. subst k0.
      destruct (String.eqb k' k) eqn:E1; [|reflexivity].
      apply String.eqb_eq in E1. subst k'.
      rewrite String.eqb_refl in E. discriminate.
Qed.

Lemma getitem_setitem df k v k' :
  getitem (setitem df k v) k' = if String.eqb k' k then Ok v else getitem df k'.
Proof.
  unfold getitem, setitem. simpl. rewrite assoc_set_lookup.
  destruct (String.eqb k' k); reflexivity.
Qed.

Lemma mapM_to_float_Num (v : list float) : Res.mapM to_float (Num <$> v) = Ok v.
Proof.
  induction v as [|x v IH]; [reflexivity|].
  rewrite fmap_cons. cbn [Res.mapM to_float Res.bind]. rewrite IH. reflexivity.
Qed.

Lemma numeric_setitem df k (v : list float) k' :
  numeric (setitem df k (Num <$> v)) k'
  = if String.eqb k' k then Ok v else numeric df k'.
Proof.
  unfold numeric. rewrite getitem_setitem.
  destruct (String.eqb k' k); [|reflexivity].
  simpl. apply mapM_to_float_Num.
Qed.

Lemma field_setitem df k (v : list float) k' i :
  field (setitem df k (Num <$> v)) k' i
  = if String.eqb k' k then v !! i else field df k' i.
Proof.
  unfold field. rewrite numeric_setitem.
  destruct (String.eqb k' k); reflexivity.
Qed.

Lemma numeric_getitem df k v :
  numeric df k = Ok v -> getitem df k = Ok (Num <$> v).
Proof.
  unfold numeric. destruct (getitem df k) as [cs|e]; simpl; [|discriminate].
  intros Hm. f_equal. revert v Hm.
  induction cs as [|c cs IH]; simpl; intros v Hm.
  - injection Hm as <-. reflexivity.
  - destruct c as [s|x]; simpl in Hm; [discriminate|].
    destruct (Res.mapM to_float cs) as [ys|e]; simpl in Hm; [|discriminate].
    injection Hm as <-. rewrite fmap_cons. f_equal. apply IH. reflexivity.
Qed.

(** ** What [derive] reads and what it returns *)

Lemma bind_inv {A B} (m : result A) (k : A -> result B) b :
  Res.bind m k = Ok b -> exists a, m = Ok a /\ k a = Ok b.
Proof. destruct m as [a|e]; simpl; [eauto|discriminate]. Qed.

Lemma numeric_setitem_ne df k (v : list float) k' :
  String.eqb k' k = false ->
  numeric (setitem df k (Num <$> v)) k' = numeric df k'.
Proof. intros E. rewrite numeric_setitem, E. reflexivity. Qed.

Lemma numeric_setitem_eq df k (v : list float) :
  numeric (setitem df k (Num <$> v)) k = Ok v.
Proof. rewrite numeric_setitem, String.eqb_refl. reflexivity. Qed.

Ltac simpl_read H :=
  repeat first [ rewrite numeric_setitem_eq in H
               | rewrite numeric_setitem_ne in H by reflexivity ].

Ltac read_step H :=
  let a := fresh "a" in let E := fresh "E" in
  apply bind_inv in H as (a & E & H); cbv beta zeta in H;
  simpl_read E; simpl_read H;
  lazymatch type of E with
  | Ok _ = Ok _ => injection E as <-
  | ?m = Ok _ =>
      try match goal with
          | E' : m = Ok _ |- _ =>
              lazymatch E' with E => fail | _ => idtac end;
              rewrite E' in E; injection E as <-
          end
  end.

Lemma derive_inv pf df r :
  derive pf df = Ok r ->
  exists MIN MP FGA FGM FTA PTS OREB TOV AST STL BLK PF PLUS_MINUS FTM DREB,
    getitem df "MIN" = Ok MIN /\ Res.mapM (minutes_lambda pf) MIN = Ok MP /\
    numeric df "FGA" = Ok FGA /\ numeric df "FGM" = Ok FGM /\
    numeric df "FTA" = Ok FTA /\ numeric df "PTS" = Ok PTS /\
    numeric df "OREB" = Ok OREB /\ numeric df "TOV" = Ok TOV /\
    numeric df "AST" = Ok AST /\ numeric df "STL" = Ok STL /\
    numeric df "BLK" = Ok BLK /\ numeric df "PF" = Ok PF /\
    numeric df "PLUS_MINUS" = Ok PLUS_MINUS /\ numeric df "FTM" = Ok FTM /\
    numeric df "DREB" = Ok DREB /\
    r = enrich df MP FGA FGM FTA PTS OREB TOV AST STL BLK PF PLUS_MINUS FTM DREB.
Proof.
  intros H. unfold derive in H.
  repeat read_step H.
  injection H as <-.
  do 15 eexists.
  repeat match goal with |- _ /\ _ => split; [eassumption|] end.
  reflexivity.
Qed.

Lemma bind_eq {A B} (m : result A) (k : A -> result B) a :
  m = Ok a -> Res.bind m k = k a.
Proof. intros ->. reflexivity. Qed.

Lemma derive_ok pf df MIN MP FGA FGM FTA PTS OREB TOV AST STL BLK PF PLUS_MINUS FTM DREB :
    getitem df "MIN" = Ok MIN -> Res.mapM (minutes_lambda pf) MIN = Ok MP ->
    numeric df "FGA" = Ok FGA -> numeric df "FGM" = Ok FGM ->
    numeric df "FTA" = Ok FTA -> numeric df "PTS" = Ok PTS ->
    numeric df "OREB" = Ok OREB -> numeric df "TOV" = Ok TOV ->
    numeric df "AST" = Ok AST -> numeric df "STL" = Ok STL ->
    numeric df "BLK" = Ok BLK -> numeric df "PF" = Ok PF ->
    numeric df "PLUS_MINUS" = Ok PLUS_MINUS -> numeric df "FTM" = Ok FTM ->
    numeric df "DREB" = Ok DREB ->
    derive pf df = Ok (enrich df MP FGA FGM FTA PTS OREB TOV AST STL BLK PF PLUS_MINUS FTM DREB).
Proof.
  intros. unfold derive.
  repeat (cbv beta zeta;
          repeat rewrite numeric_setitem_ne by reflexivity;
          first [ erewrite bind_eq by eassumption
                | erewrite bind_eq by apply numeric_setitem_eq ]).
  reflexivity.
Qed.

Lemma mapM_minutes_Num pf (v : list float) :
  Res.mapM (minutes_lambda pf) (Num <$> v) = Ok v.
Proof.
  induction v as [|x v IH]; [reflexivity|].
  rewrite fmap_cons. cbn [Res.mapM minutes_lambda Res.bind]. rewrite IH. reflexivity.
Qed.

Lemma field_setitem_ne df k (v : list float) k' i :
  String.eqb k' k = false -> field (setitem df k (Num <$> v)) k' i = field df k' i.
Proof. intros E. rewrite field_setitem, E. reflexivity. Qed.

Lemma field_setitem_eq df k (v : list float) i :
  field (setitem df k (Num <$> v)) k i = v !! i.
Proof. rewrite field_setitem, String.eqb_refl. reflexivity. Qed.

Lemma field_numeric df k v i : numeric df k = Ok v -> field df k i = v !! i.
Proof. unfold field. intros ->. reflexivity. Qed.

Ltac simpl_field :=
  repeat first [ rewrite field_setitem_eq
               | rewrite field_setitem_ne by reflexivity ].

(** Row [i] of the frame [derive] returns holds the per-record metrics of
    row [i] of the frame it was given. *)
Lemma derive_row pf df r i b :
  derive pf df = Ok r -> box_of df i = Some b -> derived_of r i = Some (metrics b).
Proof.
  intros Hd Hb.
  apply derive_inv in Hd
    as (MIN & MP & FGA & FGM & FTA & PTS & OREB & TOV & AST & STL & BLK & PF
        & PM & FTM & DREB & HMIN & HMP & HFGA & HFGM & HFTA & HPTS & HOREB
        & HTOV & HAST & HSTL & HBLK & HPF & HPM & HFTM & HDREB & ->).
  unfold box_of in Hb.
  rewrite (field_numeric _ _ _ _ HFGA), (field_numeric _ _ _ _ HFGM),
    (field_numeric _ _ _ _ HFTA), (field_numeric _ _ _ _ HPTS),
    (field_numeric _ _ _ _ HOREB), (field_numeric _ _ _ _ HTOV),
    (field_numeric _ _ _ _ HAST), (field_numeric _ _ _ _ HSTL),
    (field_numeric _ _ _ _ HBLK), (field_numeric _ _ _ _ HPF),
    (field_numeric _ _ _ _ HPM), (field_numeric _ _ _ _ HFTM),
    (field_numeric _ _ _ _ HDREB) in Hb.
  unfold field in Hb at 1.
  destruct (numeric df "MIN") as [M|] eqn:HM; [|discriminate].
  apply numeric_getitem in HM. rewrite HM in HMIN. injection HMIN as <-.
  rewrite mapM_minutes_Num in HMP. injection HMP as <-.
  destruct (M !! i) as [m|] eqn:Em; [|discriminate]. cbn [mbind option_bind] in Hb.
  destruct (FGM !! i) as [fgm|] eqn:Efgm; [|discriminate]. cbn [mbind option_bind] in Hb.
  destruct (FGA !! i) as [fga|] eqn:Efga; [|discriminate]. cbn [mbind option_bind] in Hb.
  destruct (FTM !! i) as [ftm|] eqn:Eftm; [|discriminate]. cbn [mbind option_bind] in Hb.
  destruct (FTA !! i) as [fta|] eqn:Efta; [|discriminate]. cbn [mbind option_bind] in Hb.
  destruct (OREB !! i) as [oreb|] eqn:Eoreb; [|discriminate]. cbn [mbind option_bind] in Hb.
  destruct (DREB !! i) as [dreb|] eqn:Edreb; [|discriminate]. cbn [mbind option_bind] in Hb.
  destruct (AST !! i) as [ast|] eqn:East; [|discriminate]. cbn [mbind option_bind] in Hb.
  destruct (STL !! i) as [stl|] eqn:Estl; [|discriminate]. cbn [mbind option_bind] in Hb.
  destruct (BLK !! i) as [blk|] eqn:Eblk; [|discriminate]. cbn [mbind option_bind] in Hb.
  destruct (TOV !! i) as [tov|] eqn:Etov; [|discriminate]. cbn [mbind option_bind] in Hb.
  destruct (PF !! i) as [pf_|] eqn:Epf; [|discriminate]. cbn [mbind option_bind] in Hb.
  destruct (PTS !! i) as [pts|] eqn:Epts; [|discriminate]. cbn [mbind option_bind] in Hb.
  destruct (PM !! i) as [pm|] eqn:Epm; [|discriminate]. cbn [mbind option_bind] in Hb.
  injection Hb as <-.
  assert (Hposs : POSS_col FGA OREB TOV FTA !! i = Some (poss fga oreb tov fta))
    by (apply POSS_row; assumption).
  unfold derived_of, enrich. cbv zeta. simpl_field.
  rewrite Em, Hposs.
  rewrite (FG_PCT_row _ _ _ _ _ Efgm Efga).
  rewrite (TS_PCT_row _ _ _ _ _ _ _ Epts Efga Efta).
  rewrite (PTS_PER_MIN_row _ _ _ _ _ Epts Em).
  rewrite (OFF_RATING_row _ _ _ _ _ _ _ Epts East Hposs).
  rewrite (DEF_RATING_row _ _ _ _ _ _ _ _ _ _ _ Estl Eblk Epf Epm Em).
  rewrite (GAME_SCORE_row _ _ _ _ _ _ _ _ _ _ _ _ _ _ _ _ _ _ _ _ _ _ _ _ _
             Epts Efgm Efga Efta Eftm Eoreb Edreb Estl East Eblk Epf Etov).
  rewrite (USG_RATE_row _ _ _ _ _ _ _ _ _ Efga Efta Etov Hposs).
  rewrite (AST_TO_RATIO_row _ _ _ _ _ East Etov).
  reflexivity.
Qed.

(** ** The coercion loop, [fillna] and the [try] block *)

Section CleanedFacts.
Variable to_numeric_str : string -> option float.
Variable py_float : string -> option float.
Local Abbreviation tn := to_numeric_str.

Lemma for_each_coerce cs df log :
  Log.for_each cs (coerce_column tn) df log
  = (Ok (coerce_all tn cs df), (log ++ warnings_from tn cs df)%list).
Proof.
  revert df log. induction cs as [|c cs IH]; intros df log; simpl.
  - unfold Log.ret. rewrite app_nil_r. reflexivity.
  - unfold Log.bind, coerce_column, coerce1, missing1.
    destruct (assoc c (cols df)) as [v|]; simpl.
    + unfold Log.ret. apply IH.
    + unfold Log.bind, Log.emit, Log.ret. simpl.
      rewrite IH, <- app_assoc. reflexivity.
Qed.

Lemma try_block_eq df log :
  try_block tn py_float df log
  = (derive py_float (cleaned tn df),
     (log ++ warnings_from tn numeric_cols df)%list).
Proof.
  unfold try_block, Log.bind. rewrite for_each_coerce. reflexivity.
Qed.

(** [calculate_advanced_metrics] in one equation: the enriched frame when
    [derive] returns, the argument itself and one more log record when it
    raises. *)
Lemma calculate_advanced_metrics_eq df log :
  calculate_advanced_metrics tn py_float df log
  = match derive py_float (cleaned tn df) with
    | Ok r => (Ok r, (log ++ warnings_from tn numeric_cols df)%list)
    | Raise e =>
        (Ok df,
         ((log ++ warnings_from tn numeric_cols df)
            ++ [LogError "Error calculating advanced metrics: " e])%list)
    end.
Proof.
  unfold calculate_advanced_metrics, Log.try_except. rewrite try_block_eq.
  destruct (derive py_float (cleaned tn df)); reflexivity.
Qed.

Lemma to_numeric_idem v : to_numeric tn (to_numeric tn v) = to_numeric tn v.
Proof.
  unfold to_numeric. rewrite <- list_fmap_compose. apply list_fmap_ext.
  intros _ [s|x] _; reflexivity.
Qed.

Lemma assoc_coerce1 c df k :
  assoc k (cols (coerce1 tn c df))
  = if String.eqb k c then to_numeric tn <$> assoc k (cols df)
    else assoc k (cols df).
Proof.
  unfold coerce1. destruct (assoc c (cols df)) as [v|] eqn:E.
  - simpl. rewrite assoc_set_lookup.
    destruct (String.eqb k c) eqn:Ek; [|reflexivity].
    apply String.eqb_eq in Ek. subst k. rewrite E. reflexivity.
  - destruct (String.eqb k c) eqn:Ek; [|reflexivity].
    apply String.eqb_eq in Ek. subst k. rewrite E. reflexivity.
Qed.

Lemma assoc_coerce_all cs df k :
  assoc k (cols (coerce_all tn cs df))
  = if existsb (String.eqb k) cs then to_numeric tn <$> assoc k (cols df)
    else assoc k (cols df).
Proof.
  revert df. induction cs as [|c cs IH]; intros df; simpl; [reflexivity|].
  rewrite IH, assoc_coerce1.
  destruct (String.eqb k c), (existsb (String.eqb k) cs); simpl; try reflexivity.
  destruct (assoc k (cols df)); simpl; [|reflexivity].
  rewrite to_numeric_idem. reflexivity.
Qed.

Lemma assoc_fillna0 df k :
  assoc k (cols (fillna0 df)) = fmap (M:=list) fill_cell <$> assoc k (cols df).
Proof.
  unfold fillna0. simpl. induction (cols df) as [|[k0 v0] l IH]; simpl; [reflexivity|].
  destruct (String.eqb k k0); [reflexivity|apply IH].
Qed.

(** A column of the cleaned frame: the column of the argument, its cells
    coerced when it is one of [numeric_cols], and zero-filled. *)
Lemma assoc_cleaned df k :
  assoc k (cols (cleaned tn df))
  = if existsb (String.eqb k) numeric_cols
    then fmap (M:=list) (clean_cell tn) <$> assoc k (cols df)
    else fmap (M:=list) fill_cell <$> assoc k (cols df).
Proof.
  unfold cleaned. rewrite assoc_fillna0, assoc_coerce_all.
  destruct (existsb (String.eqb k) numeric_cols); [|reflexivity].
  destruct (assoc k (cols df)) as [v|]; [|reflexivity]. simpl. f_equal.
  unfold to_numeric. rewrite <- list_fmap_compose. apply list_fmap_ext.
  intros _ [s|x] _; reflexivity.
Qed.

Lemma getitem_cleaned_absent df k :
  assoc k (cols df) = None -> getitem (cleaned tn df) k = Raise (KeyError k).
Proof.
  intros E. unfold getitem. rewrite assoc_cleaned, E.
  destruct (existsb (String.eqb k) numeric_cols); reflexivity.
Qed.
End CleanedFacts.

Lemma has_column_assoc df k :
  has_column df k = match assoc k (cols df) with Some _ => true | None => false end.
Proof.
  unfold has_column, columns. induction (cols df) as [|[k0 v0] l IH]; simpl; [reflexivity|].
  destruct (String.eqb k k0); [reflexivity|apply IH].
Qed.

Lemma has_column_false df k : has_column df k = false -> assoc k (cols df) = None.
Proof. rewrite has_column_assoc. destruct (assoc k (cols df)); [discriminate|reflexivity]. Qed.

Lemma numeric_absent df k : assoc k (cols df) = None -> numeric df k = Raise (KeyError k).
Proof. intros E. unfold numeric, getitem. rewrite E. reflexivity. Qed.

(** ** Failure of the whole batch *)

(** C8: an exception raised anywhere in the [try] block of
    [calculate_advanced_metrics] does not leave the function: it is caught,
    one error record is appended to the log, and the value returned is the
    argument [game_logs] itself, with none of the coerced or derived columns.
    In no case does the function raise. *)
Theorem calculate_advanced_metrics_catches tn pf (game_logs : DataFrame) log :
  (exists r log', calculate_advanced_metrics tn pf game_logs log = (Ok r, log')) /\
  (forall e log',
      try_block tn pf game_logs log = (Raise e, log') ->
      calculate_advanced_metrics tn pf game_logs log
      = (Ok game_logs,
         (log' ++ [LogError "Error calculating advanced metrics: " e])%list)).
Proof.
  split.
  - rewrite calculate_advanced_metrics_eq.
    destruct (derive pf (cleaned tn game_logs)); eauto.
  - intros e log' H. unfold calculate_advanced_metrics, Log.try_except.
    rewrite H. reflexivity.
Qed.

Lemma calculate_advanced_metrics_catches_witness :
  try_block decimal_literal decimal_literal game_no_PF []
  = (Raise (KeyError "PF"),
     [LogWarning "Column PF not found in game logs"]) /\
  calculate_advanced_metrics decimal_literal decimal_literal game_no_PF []
  = (Ok game_no_PF,
     [LogWarning "Column PF not found in game logs";
      LogError "Error calculating advanced metrics: " (KeyError "PF")]).
Proof.
  split.
  - vm_compute. reflexivity.
  - apply (proj2 (calculate_advanced_metrics_catches
                    decimal_literal decimal_literal game_no_PF [])
                 (KeyError "PF") [LogWarning "Column PF not found in game logs"]).
    vm_compute. reflexivity.
Defined.

(** C3 as stated fails: a game log with every column but [PF] comes back
    as it was given, without a single derived column. *)
Lemma missing_PF_not_enriched :
  has_column game_no_PF "PF" = false /\
  ~ exists r log',
      calculate_advanced_metrics decimal_literal decimal_literal game_no_PF []
      = (Ok r, log') /\ fully_enriched r = true.
Proof.
  split; [reflexivity|].
  intros (r & log' & H & Hr).
  vm_compute in H. injection H as <- _.
  vm_compute in Hr. discriminate.
Qed.

(** ** The metrics of one record *)

Lemma derived_row pf df r i b d :
  derive pf df = Ok r -> box_of df i = Some b -> derived_of r i = Some d ->
  d = metrics b.
Proof.
  intros Hd Hb Hr. rewrite (derive_row pf df r i b Hd Hb) in Hr.
  injection Hr as <-. reflexivity.
Qed.

(** C5: in every record with numeric base fields, a guarded metric whose
    guard fails is exactly its fallback: [FG_PCT], [TS_PCT], [PTS_PER_MIN],
    [OFF_RATING] and [DEF_RATING] are the finite number 0.0 (so [FGA = 0]
    gives [FG_PCT = 0.0], not NaN or an infinity), and [AST_TO_RATIO] is
    [AST] when [TOV > 0] fails (so [TOV = 0] gives [AST]). *)
Theorem guard_failure_fallbacks pf df r i b d :
  derive pf df = Ok r -> box_of df i = Some b -> derived_of r i = Some d ->
  ((0 <? b_FGA b)%float = false -> d_FG_PCT d = 0%float) /\
  ((0 <? b_FGA b + 0.44 * b_FTA b)%float = false -> d_TS_PCT d = 0%float) /\
  ((0 <? b_MIN b)%float = false ->
   d_PTS_PER_MIN d = 0%float /\ d_DEF_RATING d = 0%float) /\
  ((0 <? d_POSS d)%float = false -> d_OFF_RATING d = 0%float) /\
  ((0 <? b_TOV b)%float = false -> d_AST_TO_RATIO d = b_AST b) /\
  (b_FGA b = 0%float -> d_FG_PCT d = 0%float) /\
  (b_TOV b = 0%float -> d_AST_TO_RATIO d = b_AST b) /\
  PrimFloat.is_finite 0 = true.
Proof.
  intros Hd Hb Hr. rewrite (derived_row pf df r i b d Hd Hb Hr).
  unfold metrics. cbn [d_FG_PCT d_TS_PCT d_PTS_PER_MIN d_DEF_RATING d_POSS
                       d_OFF_RATING d_AST_TO_RATIO].
  assert (HFG : (0 <? b_FGA b)%float = false ->
                fg_pct (b_FGM b) (b_FGA b) = 0%float).
  { intros G. unfold fg_pct.
    change (b_FGA b >? int 0)%num with (0 <? b_FGA b)%float. rewrite G. reflexivity. }
  assert (HAT : (0 <? b_TOV b)%float = false ->
                ast_to_ratio (b_AST b) (b_TOV b) = b_AST b).
  { intros G. unfold ast_to_ratio.
    change (b_TOV b >? int 0)%num with (0 <? b_TOV b)%float. rewrite G. reflexivity. }
  repeat split.
  - exact HFG.
  - intros G. unfold ts_pct.
    change (b_FGA b + 44 // 100 * b_FTA b >? int 0)%num
      with (0 <? b_FGA b + 0.44 * b_FTA b)%float.
    rewrite G. reflexivity.
  - unfold pts_per_min.
    change (b_MIN b >? int 0)%num with (0 <? b_MIN b)%float. rewrite H. reflexivity.
  - unfold def_rating.
    change (b_MIN b >? int 0)%num with (0 <? b_MIN b)%float. rewrite H. reflexivity.
  - intros G. unfold off_rating.
    change (poss (b_FGA b) (b_OREB b) (b_TOV b) (b_FTA b) >? int 0)%num
      with (0 <? poss (b_FGA b) (b_OREB b) (b_TOV b) (b_FTA b))%float.
    rewrite G. reflexivity.
  - exact HAT.
  - intros E. apply HFG. rewrite E. reflexivity.
  - intros E. apply HAT. rewrite E. reflexivity.
Qed.

Lemma guard_failure_fallbacks_witness :
  exists r b d,
    derive decimal_literal game_idle = Ok r /\
    box_of game_idle 0 = Some b /\
    derived_of r 0 = Some d /\
    b_FGA b = 0%float /\ b_TOV b = 0%float /\ b_AST b = 5%float /\
    d_FG_PCT d = 0%float /\ d_TS_PCT d = 0%float /\ d_PTS_PER_MIN d = 0%float /\
    d_DEF_RATING d = 0%float /\ d_OFF_RATING d = 0%float /\
    d_AST_TO_RATIO d = 5%float.
Proof.
  eexists _, _, _.
  split; [vm_compute; reflexivity|].
  split; [vm_compute; reflexivity|].
  split; [vm_compute; reflexivity|].
  split; [reflexivity|]. split; [reflexivity|]. split; [reflexivity|].
  edestruct guard_failure_fallbacks
    with (pf := decimal_literal) (df := game_idle) (i := 0%nat)
    as (H1 & H2 & H3 & H4 & H5 & _);
    [vm_compute; reflexivity | vm_compute; reflexivity | vm_compute; reflexivity |].
  split; [apply H1; reflexivity|].
  split; [apply H2; reflexivity|].
  split; [apply H3; reflexivity|].
  split; [apply H3; reflexivity|].
  split; [apply H4; reflexivity|].
  apply H5. reflexivity.
Defined.

(** C6: [USG_RATE] is [100 * (FGA + 0.44 * FTA + TOV) / POSS] in every
    record, with [POSS = FGA - OREB + TOV + 0.44 * FTA]; neither is guarded:
    the equations hold whatever the sign of [POSS], and the float division
    is done as it stands. *)
Theorem usage_rate_unguarded pf df r i b d :
  derive pf df = Ok r -> box_of df i = Some b -> derived_of r i = Some d ->
  d_POSS d = (b_FGA b - b_OREB b + b_TOV b + 0.44 * b_FTA b)%float /\
  d_USG_RATE d = (100 * (b_FGA b + 0.44 * b_FTA b + b_TOV b) / d_POSS d)%float.
Proof.
  intros Hd Hb Hr. rewrite (derived_row pf df r i b d Hd Hb Hr).
  split; reflexivity.
Qed.

Lemma usage_rate_unguarded_witness :
  exists r b d,
    derive decimal_literal game_idle = Ok r /\
    box_of game_idle 0 = Some b /\
    derived_of r 0 = Some d /\
    d_POSS d = 0%float /\
    d_USG_RATE d = (100 * (b_FGA b + 0.44 * b_FTA b + b_TOV b) / 0)%float /\
    d_USG_RATE d = PrimFloat.nan.
Proof.
  eexists _, _, _.
  split; [vm_compute; reflexivity|].
  split; [vm_compute; reflexivity|].
  split; [vm_compute; reflexivity|].
  edestruct usage_rate_unguarded
    with (pf := decimal_literal) (df := game_idle) (i := 0%nat) as (H1 & H2);
    [vm_compute; reflexivity | vm_compute; reflexivity | vm_compute; reflexivity |].
  split; [rewrite H1; reflexivity|].
  split; [rewrite H2; reflexivity|].
  rewrite H2. reflexivity.
Defined.

(** With no possession the division is 0/0 or x/0, and with more offensive
    rebounds than shots and turnovers the rate is negative. *)
Lemma usage_rate_degenerate :
  (usg_rate 0 0 0 (poss 0 0 0 0) = PrimFloat.nan)%float /\
  (usg_rate 1 0 0 (poss 1 1 0 0) = PrimFloat.infinity)%float /\
  (usg_rate 1 0 0 (poss 1 3 0 0) = -50)%float.
Proof. repeat split; reflexivity. Qed.

(** C9 as the code has it: [GAME_SCORE] is the unguarded linear form with
    the stated coefficients in every record; at PTS=25, FGM=10, FGA=20,
    FTA=5, FTM=4, OREB=2, DREB=6, STL=1, AST=5, BLK=1, PF=3, TOV=2 it is
    19.8. *)
Theorem game_score_linear pf df r i b d :
  derive pf df = Ok r -> box_of df i = Some b -> derived_of r i = Some d ->
  d_GAME_SCORE d
  = (b_PTS b + 0.4 * b_FGM b - 0.7 * b_FGA b - 0.4 * (b_FTA b - b_FTM b)
     + 0.7 * b_OREB b + 0.3 * b_DREB b + b_STL b + 0.7 * b_AST b
     + 0.7 * b_BLK b - 0.4 * b_PF b - b_TOV b)%float /\
  (game_score 25 10 20 5 4 2 6 1 5 1 3 2 = 19.8)%float.
Proof.
  intros Hd Hb Hr. rewrite (derived_row pf df r i b d Hd Hb Hr).
  split; reflexivity.
Qed.

Lemma game_score_linear_witness :
  exists r b d,
    derive decimal_literal (sample_game (stat 36)) = Ok r /\
    box_of (sample_game (stat 36)) 0 = Some b /\
    derived_of r 0 = Some d /\
    d_GAME_SCORE d = 19.8%float.
Proof.
  eexists _, _, _.
  split; [vm_compute; reflexivity|].
  split; [vm_compute; reflexivity|].
  split; [vm_compute; reflexivity|].
  edestruct game_score_linear
    with (pf := decimal_literal) (df := sample_game (stat 36)) (i := 0%nat)
    as (H1 & _);
    [vm_compute; reflexivity | vm_compute; reflexivity | vm_compute; reflexivity |].
  rewrite H1. reflexivity.
Defined.


Ltac float_discriminate H :=
  match type of H with
  | Some ?x = Some ?y =>
      apply (f_equal (fun o => match o with
                               | Some z => PrimFloat.eqb z y
                               | None => false
                               end)) in H;
      vm_compute in H; discriminate H
  | ?x = ?y => apply (f_equal (fun z => PrimFloat.eqb z y)) in H;
               vm_compute in H; discriminate H
  end.

(** C9 as stated fails on its example: the game score of that box score is
    19.8, not 20.8. *)
Lemma game_score_example_is_not_20_8 :
  exists r,
    derive decimal_literal (sample_game (stat 36)) = Ok r /\
    field r "GAME_SCORE" 0 = Some 19.8%float /\
    field r "GAME_SCORE" 0 <> Some 20.8%float /\
    (game_score 25 10 20 5 4 2 6 1 5 1 3 2 <> 20.8)%float.
Proof.
  eexists. split; [vm_compute; reflexivity|].
  split; [vm_compute; reflexivity|].
  split.
  - vm_compute. intros H. float_discriminate H.
  - intros H. float_discriminate H.
Qed.

(** ** Usage rate without offensive rebounds *)

(** C10 as stated fails in binary64: with OREB = 0, FGA = 0, FTA = 1 and
    TOV = 5 the possessions estimate is 5.44, not 0, and the usage rate the
    code computes is 99.999999999999986, not 100. *)
Lemma usage_rate_no_oreb_not_100 :
  exists r,
    derive decimal_literal game_no_oreb = Ok r /\
    field game_no_oreb "OREB" 0 = Some 0%float /\
    field r "POSS" 0 = Some 5.44%float /\
    field r "USG_RATE" 0 = Some 99.999999999999986%float /\
    field r "USG_RATE" 0 <> Some 100%float.
Proof.
  eexists. split; [vm_compute; reflexivity|].
  split; [vm_compute; reflexivity|].
  split; [vm_compute; reflexivity|].
  split; [vm_compute; reflexivity|].
  vm_compute. intros H. float_discriminate H.
Qed.

Lemma all_near_100_spec n :
  all_near_100 n = true ->
  forall fga fta tov : nat,
    (fga <= n)%nat -> (fta <= n)%nat -> (tov <= n)%nat ->
    (0 < fga + fta + tov)%nat ->
    near_100 (usage_of_counts fga fta tov) = true.
Proof.
  unfold all_near_100. intros H fga fta tov Ha Hb Hc Hpos.
  assert (Hin : forall k, (k <= n)%nat -> In k (seq 0 (S n)))
    by (intros k Hk; apply in_seq; lia).
  rewrite forallb_forall in H. specialize (H fga (Hin fga Ha)).
  rewrite forallb_forall in H. specialize (H fta (Hin fta Hb)).
  rewrite forallb_forall in H. specialize (H tov (Hin tov Hc)).
  destruct (fga + fta + tov)%nat; [lia|exact H].
Qed.

Lemma box_scores_near_100 : all_near_100 60 = true.
Proof. vm_compute. reflexivity. Qed.

(** C10 as the formulas have it.  Read over the exact rationals, the usage
    numerator [FGA + 0.44 * FTA + TOV] is the possessions estimate
    [FGA - OREB + TOV + 0.44 * FTA] when [OREB = 0], and the usage rate is
    100 wherever that estimate is not 0.  The binary64 columns agree with
    this up to rounding: for every box score with at most 60 shots, free
    throws and turnovers, not all zero, the computed rate is within 1e-13
    of 100. *)
Theorem usage_rate_no_oreb_exact :
  (forall fga fta tov : Qc,
      poss fga (int 0) tov fta <> int 0 ->
      usg_rate fga fta tov (poss fga (int 0) tov fta) = int 100) /\
  (forall fga fta tov : nat,
      (fga <= 60)%nat -> (fta <= 60)%nat -> (tov <= 60)%nat ->
      (0 < fga + fta + tov)%nat ->
      near_100 (usage_of_counts fga fta tov) = true).
Proof.
  split.
  - intros fga fta tov.
    unfold usg_rate, poss, int. cbn [lit nadd nsub nmul ndiv exact].
    change (Q2Qc (0 # 1)) with 0%Qc.
    intros Hp.
    assert (E : (fga - 0 + tov + Q2Qc (44 # 100) * fta
                 = fga + Q2Qc (44 # 100) * fta + tov)%Qc) by ring.
    rewrite E in *. field. exact Hp.
  - exact (all_near_100_spec 60 box_scores_near_100).
Qed.

Lemma usage_rate_no_oreb_exact_witness :
  poss (T:=Qc) (int 0) (int 0) (int 5) (int 1) <> int 0 /\
  usg_rate (T:=Qc) (int 0) (int 1) (int 5) (poss (int 0) (int 0) (int 5) (int 1))
  = int 100 /\
  near_100 (usage_of_counts 0 1 5) = true.
Proof.
  assert (H : poss (T:=Qc) (int 0) (int 0) (int 5) (int 1) <> int 0).
  { intros E. apply (f_equal this) in E. vm_compute in E. discriminate E. }
  split; [exact H|]. split.
  - apply (proj1 usage_rate_no_oreb_exact (int 0) (int 1) (int 5)). exact H.
  - apply (proj2 usage_rate_no_oreb_exact 0 1 5)%nat; lia.
Defined.

(** ** Minutes *)

Lemma clean_cell_unparsable tn s : tn s = None -> clean_cell tn (Str s) = Num 0.
Proof. intros E. unfold clean_cell. rewrite E. reflexivity. Qed.

(** In the cleaned frame every cell of a numeric column is a number: the
    string branch of the minutes lambda is never taken. *)
Lemma clean_cell_is_Num tn c : exists x, clean_cell tn c = Num x.
Proof.
  unfold clean_cell, fill_cell.
  destruct c as [s|x]; simpl;
    match goal with |- context [if ?g then _ else _] => destruct g end; eauto.
Qed.

(** C1, what the code does: the lambda alone reads "32:30" as 32.5 and the
    number 15 as 15.0, but [MIN] is one of [numeric_cols], so the string
    "32:30" has been coerced to NaN and zero-filled before the lambda sees
    it, and [MINUTES_PLAYED] of that game is 0.0. *)
Theorem minutes_string_coerced_to_zero (tn pf : string -> option float) log :
  tn "32:30" = None -> pf "32" = Some 32%float -> pf "30" = Some 30%float ->
  minutes_lambda pf (Str "32:30") = Ok 32.5%float /\
  minutes_lambda pf (Num 15) = Ok 15%float /\
  exists r log',
    calculate_advanced_metrics tn pf (sample_game (Str "32:30")) log = (Ok r, log') /\
    field r "MINUTES_PLAYED" 0 = Some 0%float.
Proof.
  intros Htn H32 H30. split; [|split].
  - unfold minutes_lambda, float_of_str. simpl. rewrite H32, H30. reflexivity.
  - reflexivity.
  - rewrite calculate_advanced_metrics_eq.
    assert (Hc : cleaned tn (sample_game (Str "32:30")) = sample_game (Num 0)).
    { vm_compute. rewrite Htn. reflexivity. }
    rewrite Hc.
    assert (Hd : exists r, derive pf (sample_game (Num 0)) = Ok r
                           /\ field r "MINUTES_PLAYED" 0 = Some 0%float).
    { eexists. split; vm_compute; reflexivity. }
    destruct Hd as (r & -> & Hr). eauto.
Qed.

Lemma minutes_string_coerced_to_zero_witness :
  decimal_literal "32:30" = None /\
  exists r log',
    calculate_advanced_metrics decimal_literal decimal_literal
      (sample_game (Str "32:30")) [] = (Ok r, log') /\
    field r "MINUTES_PLAYED" 0 = Some 0%float.
Proof.
  split; [reflexivity|].
  apply (minutes_string_coerced_to_zero decimal_literal decimal_literal []);
    reflexivity.
Defined.

(** ** Projection *)

Lemma assoc_labels (f : string -> list cell) labels k :
  assoc k ((fun c => (c, f c)) <$> labels)
  = if existsb (String.eqb k) labels then Some (f k) else None.
Proof.
  induction labels as [|c labels IH]; simpl; [reflexivity|].
  destruct (String.eqb k c) eqn:E; simpl; [|exact IH].
  apply String.eqb_eq in E. subst c. reflexivity.
Qed.

(** [df[labels]] when every label is a column of [df]. *)
Lemma select_ok df labels :
  (forall c, c ∈ labels -> has_column df c = true) ->
  select df labels
  = Ok {| nrows := nrows df;
          cols := (fun c => (c, default [] (assoc c (cols df)))) <$> labels |}.
Proof.
  intros Hall. unfold select.
  assert (Hm : Res.mapM (fun c => (v <- getitem df c;; Ok (c, v))%res) labels
               = Ok ((fun c => (c, default [] (assoc c (cols df)))) <$> labels)).
  { induction labels as [|c labels IH]; [reflexivity|].
    rewrite fmap_cons. cbn [Res.mapM].
    assert (Hc : has_column df c = true) by (apply Hall; left).
    rewrite has_column_assoc in Hc. unfold getitem at 1.
    destruct (assoc c (cols df)) as [v|]; [|discriminate].
    cbn [Res.bind default]. rewrite IH; [reflexivity|].
    intros c' Hc'. apply Hall. right. exact Hc'. }
  rewrite Hm. reflexivity.
Qed.

Lemma available_columns_exist df c :
  c ∈ available_columns df -> has_column df c = true.
Proof.
  intros H. unfold available_columns in H. apply list_elem_of_filter in H as [H _].
  apply Is_true_true. exact H.
Qed.

Lemma existsb_eqb_elem (k : string) l : existsb (String.eqb k) l = true <-> k ∈ l.
Proof.
  rewrite existsb_exists. split.
  - intros (x & Hin & E). apply String.eqb_eq in E. subst x.
    apply list_elem_of_In. exact Hin.
  - intros Hin. exists k. split; [apply list_elem_of_In; exact Hin|apply String.eqb_refl].
Qed.

(** The projected frame before the sort. *)
Lemma project_eq argsort player_stats :
  project argsort player_stats
  = sort_values_desc argsort (projection player_stats) "GAME_DATE".
Proof.
  unfold project. rewrite select_ok; [reflexivity|].
  apply available_columns_exist.
Qed.

(** [sort_values('GAME_DATE')] on a frame without that column. *)
Lemma project_no_date argsort player_stats :
  has_column player_stats "GAME_DATE" = false ->
  project argsort player_stats = Raise (KeyError "GAME_DATE").
Proof.
  intros Hno. rewrite project_eq.
  unfold sort_values_desc, getitem, projection. cbn [cols].
  rewrite assoc_labels.
  destruct (existsb (String.eqb "GAME_DATE") (available_columns player_stats)) eqn:E;
    [|reflexivity].
  apply existsb_eqb_elem, available_columns_exist in E. congruence.
Qed.

Lemma assoc_enrich_date df MP FGA FGM FTA PTS OREB TOV AST STL BLK PF PM FTM DREB :
  assoc "GAME_DATE"
    (cols (enrich df MP FGA FGM FTA PTS OREB TOV AST STL BLK PF PM FTM DREB))
  = assoc "GAME_DATE" (cols df).
Proof.
  unfold enrich. cbv zeta. unfold setitem. cbn [cols].
  rewrite !assoc_set_lookup. reflexivity.
Qed.

Lemma deriveTimeSeriesTable_eq tn pf argsort df log :
  deriveTimeSeriesTable tn pf argsort df log
  = match calculate_advanced_metrics tn pf df log with
    | (Ok player_stats, log') => (project argsort player_stats, log')
    | (Raise e, log') => (Raise e, log')
    end.
Proof. reflexivity. Qed.

(** [get_player_stats] once the game logs are fetched: two more log records
    around [deriveTimeSeriesTable]. *)
Lemma get_player_stats_fetched tn pf argsort player_name game_logs log :
  get_player_stats tn pf argsort player_name (Some game_logs) log
  = match deriveTimeSeriesTable tn pf argsort game_logs
            (log ++ [LogInfo ("Retrieving stats for player: " +:+ player_name)])%list
    with
    | (Ok filtered_stats, log') =>
        (Ok (Some filtered_stats),
         (log' ++ [LogInfo ("Successfully retrieved stats for player: "
                            +:+ player_name)])%list)
    | (Raise e, log') => (Raise e, log')
    end.
Proof.
  unfold get_player_stats, deriveTimeSeriesTable, Log.bind, Log.emit, Log.lift,
    Log.ret.
  destruct (calculate_advanced_metrics tn pf game_logs
              (log ++ [LogInfo ("Retrieving stats for player: " +:+ player_name)])%list)
    as [[ps|e] log'].
  - destruct (project argsort ps); reflexivity.
  - reflexivity.
Qed.

(** C2, what the code does: the sort by ['GAME_DATE'] is outside every
    [try], and on a frame without that column its [KeyError] leaves
    [deriveTimeSeriesTable], and [get_player_stats] with it, unhandled. *)
Theorem missing_date_raises tn pf argsort (rawRecords : DataFrame) log :
  has_column rawRecords "GAME_DATE" = false ->
  (exists log',
      deriveTimeSeriesTable tn pf argsort rawRecords log
      = (Raise (KeyError "GAME_DATE"), log')) /\
  (forall player_name, exists log',
      get_player_stats tn pf argsort player_name (Some rawRecords) log
      = (Raise (KeyError "GAME_DATE"), log')).
Proof.
  intros Hno.
  assert (H : forall log0, exists log',
             deriveTimeSeriesTable tn pf argsort rawRecords log0
             = (Raise (KeyError "GAME_DATE"), log')).
  { intros log0.
    rewrite deriveTimeSeriesTable_eq, calculate_advanced_metrics_eq.
    destruct (derive pf (cleaned tn rawRecords)) as [r|e] eqn:Hd.
    - eexists. rewrite project_no_date; [reflexivity|].
      apply derive_inv in Hd
        as (MIN & MP & FGA & FGM & FTA & PTS & OREB & TOV & AST & STL & BLK & PF
            & PM & FTM & DREB & Hrest).
      do 15 (destruct Hrest as (_ & Hrest)). subst r.
      rewrite has_column_assoc, assoc_enrich_date, assoc_cleaned.
      apply has_column_false in Hno. rewrite Hno. reflexivity.
    - eexists. rewrite project_no_date; [reflexivity|exact Hno]. }
  split; [apply H|].
  intros player_name. rewrite get_player_stats_fetched.
  destruct (H (log ++ [LogInfo ("Retrieving stats for player: " +:+ player_name)])%list)
    as (log' & ->).
  eauto.
Qed.

Lemma missing_date_raises_witness :
  has_column game_no_date "GAME_DATE" = false /\
  exists log',
    deriveTimeSeriesTable decimal_literal decimal_literal argsort_stable
      game_no_date [] = (Raise (KeyError "GAME_DATE"), log').
Proof.
  split; [reflexivity|].
  apply (missing_date_raises decimal_literal decimal_literal argsort_stable
           game_no_date []).
  reflexivity.
Defined.

(** ** Sorting by date *)

Section Pairwise.
Context {A : Type}.
Implicit Types (R : A -> A -> bool) (l : list A).

Lemma pairwise_app R l1 l2 :
  pairwise R (l1 ++ l2)
  = pairwise R l1 && pairwise R l2 && forallb (fun a => forallb (R a) l2) l1.
Proof.
  induction l1 as [|a l1 IH]; simpl.
  - rewrite andb_true_r. reflexivity.
  - rewrite forallb_app, IH.
    destruct (forallb (R a) l1), (forallb (R a) l2), (pairwise R l1),
      (pairwise R l2); reflexivity.
Qed.

Lemma pairwise_snoc R l a :
  pairwise R (l ++ [a]) = pairwise R l && forallb (fun b => R b a) l.
Proof.
  induction l as [|b l IH]; [reflexivity|].
  cbn [app pairwise forallb]. rewrite forallb_app, IH. cbn [forallb].
  rewrite andb_true_r.
  destruct (forallb (R b) l), (R b a), (pairwise R l); reflexivity.
Qed.

Lemma forallb_reverse (f : A -> bool) l : forallb f (reverse l) = forallb f l.
Proof.
  induction l as [|b l IH]; [reflexivity|].
  rewrite reverse_cons, forallb_app, IH. cbn [forallb].
  rewrite andb_true_r. apply andb_comm.
Qed.

(** Reading a list backwards swaps "before" and "after". *)
Lemma pairwise_reverse R l :
  pairwise (fun a b => R b a) (reverse l) = pairwise R l.
Proof.
  induction l as [|a l IH]; [reflexivity|].
  rewrite reverse_cons, pairwise_snoc, IH, forallb_reverse.
  cbn [pairwise]. apply andb_comm.
Qed.
End Pairwise.

Section Take.
Context {A : Type}.
Local Open Scope nat_scope.
Implicit Types (items : list A) (idx : list nat).

Lemma take_cons idx items i :
  take (i :: idx) items
  = match items !! i with
    | Some x => x :: take idx items
    | None => take idx items
    end.
Proof. reflexivity. Qed.

Lemma take_app idx1 idx2 items :
  take (idx1 ++ idx2) items = (take idx1 items ++ take idx2 items)%list.
Proof. unfold take. apply omap_app. Qed.

Lemma take_reverse idx items : take (reverse idx) items = reverse (take idx items).
Proof.
  induction idx as [|i idx IH]; [reflexivity|].
  rewrite reverse_cons, take_app, IH, (take_cons idx items i), (take_cons [] items i).
  destruct (items !! i); [rewrite reverse_cons|rewrite app_nil_r]; reflexivity.
Qed.

(** The positions a mask selects, used as an index, select what the mask
    selects. *)
Lemma take_masked_seq mask pre items :
  length mask = length items ->
  take (masked mask (seq (length pre) (length items))) (pre ++ items)
  = masked mask items.
Proof.
  revert mask pre. induction items as [|x items IH]; intros mask pre Hlen.
  - destruct mask; reflexivity.
  - destruct mask as [|b mask]; [discriminate|]. simpl in Hlen.
    injection Hlen as Hlen. cbn [length seq masked].
    assert (E : (pre ++ x :: items = (pre ++ [x]) ++ items)%list)
      by (rewrite <- app_assoc; reflexivity).
    assert (El : S (length pre) = length (pre ++ [x]))
      by (rewrite length_app; simpl; lia).
    destruct b.
    + rewrite take_cons.
      rewrite (list_lookup_middle pre items x (length pre) eq_refl).
      rewrite E, El, (IH mask (pre ++ [x])%list Hlen). reflexivity.
    + rewrite E, El, (IH mask (pre ++ [x])%list Hlen). reflexivity.
Qed.

Lemma take_masked mask items :
  length mask = length items ->
  take (masked mask (seq 0 (length items))) items = masked mask items.
Proof. intros H. apply (take_masked_seq mask [] items H). Qed.

Lemma masked_in_range mask k n i : i ∈ masked mask (seq k n) -> k <= i < k + n.
Proof.
  revert mask k. induction n as [|n IH]; intros mask k Hi.
  - destruct mask; simpl in Hi; inversion Hi.
  - destruct mask as [|b mask]; [inversion Hi|]. simpl in Hi.
    destruct b.
    + apply elem_of_cons in Hi as [->|Hi]; [lia|]. apply IH in Hi. lia.
    + apply IH in Hi. lia.
Qed.

Lemma lookup_take idx items j :
  (forall i, i ∈ idx -> i < length items) ->
  take idx items !! j = idx !! j ≫= (fun i => items !! i).
Proof.
  revert j. induction idx as [|i idx IH]; intros j Hr; [reflexivity|].
  rewrite take_cons.
  destruct (lookup_lt_is_Some_2 items i (Hr i (list_elem_of_here _ _))) as [x Hx].
  rewrite Hx. destruct j as [|j]; simpl.
  - rewrite Hx. reflexivity.
  - apply IH. intros i' Hi'. apply Hr. right. exact Hi'.
Qed.

End Take.



Section Nargsort.
Local Open Scope nat_scope.



Lemma length_masked {A B} mask (l1 : list A) (l2 : list B) :
  length l1 = length l2 -> length (masked mask l1) = length (masked mask l2).
Proof.
  revert l1 l2. induction mask as [|b mask IH]; intros l1 l2 Hlen; [reflexivity|].
  destruct l1 as [|x l1], l2 as [|y l2]; try discriminate; [reflexivity|].
  injection Hlen as Hlen. cbn [masked].
  destruct b; cbn [length]; rewrite (IH l1 l2 Hlen); reflexivity.
Qed.



Lemma is_range_permutation_perm idx n :
  is_range_permutation idx n = true -> idx ≡ₚ seq 0 n.
Proof.
  unfold is_range_permutation. intros H. apply andb_prop in H as [Hlen Hall].
  apply Nat.eqb_eq in Hlen. symmetry.
  apply submseteq_length_Permutation.
  - apply NoDup_submseteq; [apply NoDup_seq|].
    intros i Hi. rewrite forallb_forall in Hall.
    apply list_elem_of_In in Hi. specialize (Hall i Hi).
    apply existsb_exists in Hall as (j & Hj & E).
    apply Nat.eqb_eq in E. subst j. apply list_elem_of_In. exact Hj.
  - rewrite length_seq. lia.
Qed.


Lemma nargsort_desc_eq argsort items :
  nargsort_desc argsort items
  = if comparable (reverse (present items))
    then Ok (indexer_of argsort items) else Raise TypeError.
Proof.
  unfold nargsort_desc, np_argsort, indexer_of.
  fold (present items) (present_idx items) (missing_idx items).
  destruct (comparable (reverse (present items))); reflexivity.
Qed.


Lemma length_not_isna items : length (negb <$> (isna <$> items)) = length items.
Proof. rewrite !length_fmap. reflexivity. Qed.


End Nargsort.

(** ** The projected, sorted table *)

Lemma assoc_take_rows idx df k :
  assoc k (cols (take_rows idx df)) = take idx <$> assoc k (cols df).
Proof.
  unfold take_rows. cbn [cols].
  induction (cols df) as [|[k0 v0] l IH]; [reflexivity|].
  rewrite fmap_cons. cbn [assoc fst snd].
  destruct (String.eqb k k0); [reflexivity|exact IH].
Qed.

Lemma getitem_take_rows idx df k v :
  getitem df k = Ok v -> getitem (take_rows idx df) k = Ok (take idx v).
Proof.
  unfold getitem. rewrite assoc_take_rows.
  destruct (assoc k (cols df)); [|discriminate].
  intros H. injection H as ->. reflexivity.
Qed.

Lemma getitem_Ok_assoc df k v : getitem df k = Ok v -> assoc k (cols df) = Some v.
Proof.
  unfold getitem. destruct (assoc k (cols df)); [|discriminate].
  intros H. injection H as ->. reflexivity.
Qed.

(** A column of [ts_columns] that the frame has is kept by the projection. *)
Lemma getitem_projection player_stats k v :
  k ∈ ts_columns -> getitem player_stats k = Ok v ->
  getitem (projection player_stats) k = Ok v.
Proof.
  intros Hk Hv. apply getitem_Ok_assoc in Hv.
  unfold getitem, projection. cbn [cols]. rewrite assoc_labels.
  assert (E : existsb (String.eqb k) (available_columns player_stats) = true).
  { apply existsb_eqb_elem. unfold available_columns.
    apply list_elem_of_filter. split; [|exact Hk].
    apply Is_true_true. rewrite has_column_assoc, Hv. reflexivity. }
  rewrite E, Hv. reflexivity.
Qed.

Lemma date_in_ts_columns : "GAME_DATE" ∈ ts_columns.
Proof. apply existsb_eqb_elem. reflexivity. Qed.

(** [project] on a frame that has its dates: the rows of the projection in
    the order of the indexer, or a [TypeError] when the dates cannot be
    compared. *)
Lemma project_dated argsort player_stats dates :
  getitem player_stats "GAME_DATE" = Ok dates ->
  project argsort player_stats
  = if comparable (reverse (present dates))
    then Ok (take_rows (indexer_of argsort dates) (projection player_stats))
    else Raise TypeError.
Proof.
  intros Hd. rewrite project_eq. unfold sort_values_desc.
  rewrite (getitem_projection _ _ _ date_in_ts_columns Hd).
  cbn [Res.bind]. rewrite nargsort_desc_eq.
  destruct (comparable (reverse (present dates))); reflexivity.
Qed.

Lemma project_column argsort player_stats out dates k v :
  getitem player_stats "GAME_DATE" = Ok dates ->
  project argsort player_stats = Ok out ->
  k ∈ ts_columns -> getitem player_stats k = Ok v ->
  getitem out k = Ok (take (indexer_of argsort dates) v).
Proof.
  intros Hd Hp Hk Hv. rewrite (project_dated _ _ _ Hd) in Hp.
  destruct (comparable (reverse (present dates))); [|discriminate].
  injection Hp as <-. apply getitem_take_rows, getitem_projection; assumption.
Qed.



(** With a stable [argsort] two games of one date stay in the order A, B:
    reversing before and after the sort is what makes a stable ascending
    sort give a stable descending order. *)
Lemma equal_dates_order_kept_when_stable :
  exists out log,
    deriveTimeSeriesTable decimal_literal decimal_literal argsort_stable
      two_games_one_date [] = (Ok out, log) /\
    getitem out "GAME_ID" = Ok [Str "A"; Str "B"].
Proof.
  eexists _, _. split; vm_compute; reflexivity.
Qed.

Lemma take_of_nil {A} idx : take idx (@nil A) = [].
Proof. induction idx as [|i idx IH]; [reflexivity|]. rewrite take_cons. exact IH. Qed.

Lemma take_nil {A} (items : list A) : take [] items = [].
Proof. reflexivity. Qed.

(** X23. An empty game log that still has a [GAME_DATE] column does give an
    empty table: with no date to sort, the indexer is empty whatever
    [argsort] returns. *)
Lemma empty_dated_input_gives_empty_table tn pf argsort (rawRecords : DataFrame) log :
  getitem rawRecords "GAME_DATE" = Ok [] ->
  exists out log',
    deriveTimeSeriesTable tn pf argsort rawRecords log = (Ok out, log') /\
    nrows out = 0%nat /\
    forall k v, getitem out k = Ok v -> v = [].
Proof.
  intros Hd.
  assert (Hidx : indexer_of argsort [] = []).
  { unfold indexer_of. change (reverse (present_idx [])) with (@nil nat).
    rewrite take_of_nil. reflexivity. }
  assert (Hps : forall player_stats,
             getitem player_stats "GAME_DATE" = Ok [] ->
             exists out,
               project argsort player_stats = Ok out /\ nrows out = 0%nat /\
               forall k v, getitem out k = Ok v -> v = []).
  { intros ps Hps. rewrite (project_dated _ _ _ Hps).
    change (comparable (reverse (present []))) with true. cbv iota.
    rewrite Hidx. eexists. split; [reflexivity|]. split; [reflexivity|].
    intros k v Hv. apply getitem_Ok_assoc in Hv.
    rewrite assoc_take_rows in Hv.
    destruct (assoc k (cols (projection ps))); [|discriminate Hv].
    injection Hv as <-. reflexivity. }
  rewrite deriveTimeSeriesTable_eq, calculate_advanced_metrics_eq.
  destruct (derive pf (cleaned tn rawRecords)) as [r|e] eqn:Hr.
  - destruct (Hps r) as (out & -> & Hout).
    + apply derive_inv in Hr
        as (MIN & MP & FGA & FGM & FTA & PTS & OREB & TOV & AST & STL & BLK & PF
            & PM & FTM & DREB & Hrest).
      do 15 (destruct Hrest as (_ & Hrest)). subst r.
      unfold getitem. rewrite assoc_enrich_date, assoc_cleaned.
      rewrite (getitem_Ok_assoc _ _ _ Hd). reflexivity.
    + eauto.
  - destruct (Hps rawRecords Hd) as (out & -> & Hout). eauto.
Qed.

(** ** Enrichment succeeds when the base columns are there *)

Section Totality.
Variable tn pf : string -> option float.

Lemma clean_cell_Num c : clean_cell tn c = Num (clean_float tn c).
Proof.
  unfold clean_float. destruct (clean_cell_is_Num tn c) as [x ->]. reflexivity.
Qed.

Lemma numeric_cleaned df c :
  existsb (String.eqb c) numeric_cols = true ->
  has_column df c = true ->
  exists v, getitem df c = Ok v /\
            numeric (cleaned tn df) c = Ok (clean_float tn <$> v).
Proof.
  intros Hc Hh. rewrite has_column_assoc in Hh.
  destruct (assoc c (cols df)) as [v|] eqn:E; [|discriminate Hh].
  exists v. split; [unfold getitem; rewrite E; reflexivity|].
  unfold numeric, getitem. rewrite assoc_cleaned, Hc, E.
  cbn [fmap option_fmap option_map Res.bind].
  rewrite (list_fmap_ext (clean_cell tn) (fun c => Num (clean_float tn c)) v)
    by (intros; apply clean_cell_Num).
  rewrite (list_fmap_compose (clean_float tn) Num).
  apply mapM_to_float_Num.
Qed.

(** In the cleaned frame a minutes string that is not a numeral is 0. *)
Lemma unparsable_minutes_are_zero df v i s :
  getitem df "MIN" = Ok v -> v !! i = Some (Str s) -> tn s = None ->
  field (cleaned tn df) "MIN" i = Some 0%float.
Proof.
  intros Hv Hi Hs.
  destruct (numeric_cleaned df "MIN" eq_refl) as (v' & Hv' & Hn).
  { rewrite has_column_assoc, (getitem_Ok_assoc _ _ _ Hv). reflexivity. }
  rewrite Hv in Hv'. injection Hv' as <-.
  unfold field. rewrite Hn, list_lookup_fmap, Hi. cbn [fmap option_fmap option_map].
  unfold clean_float. rewrite (clean_cell_unparsable tn s Hs). reflexivity.
Qed.

Lemma fully_enriched_enrich df MP FGA FGM FTA PTS OREB TOV AST STL BLK PF PM FTM DREB :
  fully_enriched
    (enrich df MP FGA FGM FTA PTS OREB TOV AST STL BLK PF PM FTM DREB) = true.
Proof.
  unfold fully_enriched, derived_columns. cbn [forallb].
  rewrite !has_column_assoc. unfold enrich. cbv zeta. unfold setitem. cbn [cols].
  rewrite !assoc_set_lookup. reflexivity.
Qed.

(** With every base column present, whatever its cells hold, the [try]
    block runs to its end and the frame returned has all derived columns. *)
Lemma enrichment_succeeds df log :
  forallb (has_column df) base_columns = true ->
  exists r,
    derive pf (cleaned tn df) = Ok r /\
    calculate_advanced_metrics tn pf df log
    = (Ok r, (log ++ warnings_from tn numeric_cols df)%list) /\
    fully_enriched r = true.
Proof.
  unfold base_columns. cbn [forallb]. intros H.
  repeat (apply andb_prop in H as [?H H]).
  destruct (numeric_cleaned df "MIN" eq_refl) as (vMIN & _ & HMIN); [assumption|].
  destruct (numeric_cleaned df "FGA" eq_refl) as (vFGA & _ & HFGA); [assumption|].
  destruct (numeric_cleaned df "FGM" eq_refl) as (vFGM & _ & HFGM); [assumption|].
  destruct (numeric_cleaned df "FTA" eq_refl) as (vFTA & _ & HFTA); [assumption|].
  destruct (numeric_cleaned df "PTS" eq_refl) as (vPTS & _ & HPTS); [assumption|].
  destruct (numeric_cleaned df "OREB" eq_refl) as (vOREB & _ & HOREB); [assumption|].
  destruct (numeric_cleaned df "TOV" eq_refl) as (vTOV & _ & HTOV); [assumption|].
  destruct (numeric_cleaned df "AST" eq_refl) as (vAST & _ & HAST); [assumption|].
  destruct (numeric_cleaned df "STL" eq_refl) as (vSTL & _ & HSTL); [assumption|].
  destruct (numeric_cleaned df "BLK" eq_refl) as (vBLK & _ & HBLK); [assumption|].
  destruct (numeric_cleaned df "PF" eq_refl) as (vPF & _ & HPF); [assumption|].
  destruct (numeric_cleaned df "PLUS_MINUS" eq_refl) as (vPM & _ & HPM); [assumption|].
  destruct (numeric_cleaned df "FTM" eq_refl) as (vFTM & _ & HFTM); [assumption|].
  destruct (numeric_cleaned df "DREB" eq_refl) as (vDREB & _ & HDREB); [assumption|].
  pose proof (derive_ok pf (cleaned tn df) _ _ _ _ _ _ _ _ _ _ _ _ _ _ _
                (numeric_getitem _ _ _ HMIN) (mapM_minutes_Num pf _)
                HFGA HFGM HFTA HPTS HOREB HTOV HAST HSTL HBLK HPF HPM HFTM HDREB)
    as Hd.
  eexists. split; [exact Hd|]. split.
  - rewrite calculate_advanced_metrics_eq, Hd. reflexivity.
  - apply fully_enriched_enrich.
Qed.
End Totality.

(** ** When the dates are there *)

Lemma present_strings l : forallb is_str l = true -> present l = l.
Proof.
  unfold present. induction l as [|c l IH]; [reflexivity|].
  cbn [forallb]. intros H. apply andb_prop in H as [Hc Hl].
  destruct c as [s|x]; [|discriminate Hc].
  rewrite !fmap_cons. cbn [isna negb masked]. rewrite (IH Hl). reflexivity.
Qed.

Lemma fill_strings l : forallb is_str l = true -> fill_cell <$> l = l.
Proof.
  induction l as [|c l IH]; [reflexivity|].
  cbn [forallb]. intros H. apply andb_prop in H as [Hc Hl].
  destruct c as [s|x]; [|discriminate Hc].
  rewrite fmap_cons, (IH Hl). reflexivity.
Qed.

Lemma comparable_strings l :
  forallb is_str l = true -> comparable (reverse (present l)) = true.
Proof.
  intros H. rewrite (present_strings l H). unfold comparable.
  rewrite forallb_reverse, H. reflexivity.
Qed.

(** The unhandled failures are those of the sort key alone: on a game log
    whose [GAME_DATE] column holds strings, as the stats provider sends it,
    [deriveTimeSeriesTable] returns a table whether or not the enrichment
    went through. *)
Lemma dated_input_gives_a_table tn pf argsort (rawRecords : DataFrame) dates log :
  getitem rawRecords "GAME_DATE" = Ok dates ->
  forallb is_str dates = true ->
  exists out log',
    deriveTimeSeriesTable tn pf argsort rawRecords log = (Ok out, log') /\
    getitem out "GAME_DATE" = Ok (take (indexer_of argsort dates) dates).
Proof.
  intros Hd Hs.
  assert (Hps : forall player_stats,
             getitem player_stats "GAME_DATE" = Ok dates ->
             exists out,
               project argsort player_stats = Ok out /\
               getitem out "GAME_DATE" = Ok (take (indexer_of argsort dates) dates)).
  { intros ps Hps. rewrite (project_dated _ _ _ Hps), (comparable_strings _ Hs).
    eexists. split; [reflexivity|].
    apply getitem_take_rows, getitem_projection; [apply date_in_ts_columns|exact Hps]. }
  rewrite deriveTimeSeriesTable_eq, calculate_advanced_metrics_eq.
  destruct (derive pf (cleaned tn rawRecords)) as [r|e] eqn:Hr.
  - destruct (Hps r) as (out & -> & Hout); [|eauto].
    apply derive_inv in Hr
      as (MIN & MP & FGA & FGM & FTA & PTS & OREB & TOV & AST & STL & BLK & PF
          & PM & FTM & DREB & Hrest).
    do 15 (destruct Hrest as (_ & Hrest)). subst r.
    unfold getitem. rewrite assoc_enrich_date, assoc_cleaned.
    rewrite (getitem_Ok_assoc _ _ _ Hd).
    cbn [existsb String.eqb Ascii.eqb Bool.eqb numeric_cols orb fmap option_fmap option_map].
    rewrite (fill_strings _ Hs). reflexivity.
  - destruct (Hps rawRecords Hd) as (out & -> & Hout). eauto.
Qed.

(** * More properties of the collector *)

(** ** Enrichment: what it logs, what it keeps *)

Lemma nrows_coerce_all tn cs df : nrows (coerce_all tn cs df) = nrows df.
Proof.
  revert df. induction cs as [|c cs IH]; intros df; [reflexivity|].
  cbn [coerce_all]. rewrite IH. unfold coerce1.
  destruct (assoc c (cols df)); reflexivity.
Qed.

Lemma nrows_fillna0 df : nrows (fillna0 df) = nrows df.
Proof. reflexivity. Qed.

Lemma nrows_cleaned tn df : nrows (cleaned tn df) = nrows df.
Proof. unfold cleaned. rewrite nrows_fillna0. apply nrows_coerce_all. Qed.

Lemma nrows_enrich df MP FGA FGM FTA PTS OREB TOV AST STL BLK PF PM FTM DREB :
  nrows (enrich df MP FGA FGM FTA PTS OREB TOV AST STL BLK PF PM FTM DREB) = nrows df.
Proof. reflexivity. Qed.

Lemma has_column_coerce1 tn c df k :
  has_column (coerce1 tn c df) k = has_column df k.
Proof.
  rewrite !has_column_assoc, assoc_coerce1.
  destruct (String.eqb k c), (assoc k (cols df)); reflexivity.
Qed.

(** The loop warns once for each column of its list the frame lacks, in the
    order of the list. *)
Lemma warnings_from_absent tn cs df :
  warnings_from tn cs df
  = not_found <$> List.filter (fun c => negb (has_column df c)) cs.
Proof.
  revert df. induction cs as [|c cs IH]; intros df; [reflexivity|].
  cbn [warnings_from List.filter]. rewrite IH.
  rewrite (List.filter_ext (fun k => negb (has_column (coerce1 tn c df) k))
             (fun k => negb (has_column df k)))
    by (intros k; rewrite has_column_coerce1; reflexivity).
  unfold missing1. rewrite has_column_assoc.
  destruct (assoc c (cols df)); reflexivity.
Qed.

(** X1. With the fourteen columns the formulas read present, whatever their
    cells hold, [calculate_advanced_metrics] does not fall back: it returns
    a frame of as many rows that has the ten derived columns, each row
    holding the metrics of that row of the cleaned input, and it logs only
    the warnings for the columns of [numeric_cols] that are absent. *)
Theorem base_columns_suffice tn pf df log :
  forallb (has_column df) base_columns = true ->
  exists r,
    calculate_advanced_metrics tn pf df log
    = (Ok r, (log ++ (not_found <$> absent_numeric_cols df))%list) /\
    nrows r = nrows df /\
    fully_enriched r = true /\
    forall i b, box_of (cleaned tn df) i = Some b ->
                derived_of r i = Some (metrics b).
Proof.
  intros H. destruct (enrichment_succeeds tn pf df log H) as (r & Hd & Hc & Hf).
  exists r. split; [|split; [|split]].
  - rewrite Hc, warnings_from_absent. reflexivity.
  - pose proof Hd as Hd'.
    apply derive_inv in Hd'
      as (MIN & MP & FGA & FGM & FTA & PTS & OREB & TOV & AST & STL & BLK & PF
          & PM & FTM & DREB & Hrest).
    do 15 (destruct Hrest as (_ & Hrest)). subst r.
    rewrite nrows_enrich. apply nrows_cleaned.
  - exact Hf.
  - intros i b Hb. exact (derive_row pf _ r i b Hd Hb).
Qed.

Lemma base_columns_suffice_witness :
  forallb (has_column three_games) base_columns = true /\
  exists r,
    calculate_advanced_metrics decimal_literal decimal_literal three_games []
    = (Ok r, ([] ++ (not_found <$> absent_numeric_cols three_games))%list) /\
    nrows r = nrows three_games /\
    fully_enriched r = true /\
    forall i b, box_of (cleaned decimal_literal three_games) i = Some b ->
                derived_of r i = Some (metrics b).
Proof.
  split; [reflexivity|].
  apply (base_columns_suffice decimal_literal decimal_literal three_games []).
  reflexivity.
Defined.

(** X2. Whatever the frame, [calculate_advanced_metrics] adds to the log
    one warning for each column of [numeric_cols] the frame lacks, in the
    order of that list, and after them nothing, or the one error record of
    the fallback, in which case it returns the frame it was given. *)
Theorem warnings_name_the_absent_columns tn pf df log :
  exists r tail,
    calculate_advanced_metrics tn pf df log
    = (Ok r, (log ++ (not_found <$> absent_numeric_cols df) ++ tail)%list) /\
    (tail = [] \/
     r = df /\ exists e, tail = [LogError "Error calculating advanced metrics: " e]).
Proof.
  rewrite calculate_advanced_metrics_eq, warnings_from_absent.
  fold (absent_numeric_cols df).
  destruct (derive pf (cleaned tn df)) as [r|e].
  - exists r, []. rewrite app_nil_r. split; [reflexivity|left; reflexivity].
  - eexists df, _. rewrite <- app_assoc. split; [reflexivity|].
    right. split; [reflexivity|]. eexists. reflexivity.
Qed.

(** ** A column the formulas read is absent *)

Section AbsentColumn.
Variable tn pf : string -> option float.

Lemma numeric_cleaned_absent df c :
  has_column df c = false -> numeric (cleaned tn df) c = Raise (KeyError c).
Proof.
  intros H. apply numeric_absent. rewrite assoc_cleaned, (has_column_false _ _ H).
  destruct (existsb (String.eqb c) numeric_cols); reflexivity.
Qed.

(** A column of [numeric_cols] is read from the cleaned frame as numbers,
    or not found there. *)
Lemma numeric_cleaned_cases df c :
  existsb (String.eqb c) numeric_cols = true ->
  (has_column df c = true /\ exists v, numeric (cleaned tn df) c = Ok v) \/
  (has_column df c = false /\ numeric (cleaned tn df) c = Raise (KeyError c)).
Proof.
  intros Hc. destruct (has_column df c) eqn:Hh.
  - left. split; [reflexivity|].
    destruct (numeric_cleaned tn df c Hc Hh) as (v & _ & Hv). eauto.
  - right. split; [reflexivity|]. apply numeric_cleaned_absent. exact Hh.
Qed.

Lemma bind_raise {A B} (m : result A) (k : A -> result B) e :
  m = Raise e -> Res.bind m k = Raise e.
Proof. intros ->. reflexivity. Qed.

Ltac run_reads :=
  repeat (cbv beta zeta;
          repeat rewrite numeric_setitem_ne by reflexivity;
          first [ erewrite bind_eq by eassumption
                | erewrite bind_eq by apply numeric_setitem_eq ]);
  cbv beta zeta; repeat rewrite numeric_setitem_ne by reflexivity.

Ltac next_column df Hfind c :=
  let Hh := fresh "Hh" in
  let v := fresh "v" in
  let Hv := fresh "Hv" in
  destruct (numeric_cleaned_cases df c eq_refl) as [[Hh [v Hv]]|[Hh Hv]];
  rewrite Hh in Hfind; cbn [negb] in Hfind;
  [ | injection Hfind as <-; unfold derive; run_reads;
      apply bind_raise; exact Hv ].

(** The formulas stop at the first column they read that the frame lacks,
    in the order they read them. *)
Lemma derive_first_absent df c :
  List.find (fun c => negb (has_column df c)) base_columns = Some c ->
  derive pf (cleaned tn df) = Raise (KeyError c).
Proof.
  unfold base_columns. cbn [List.find]. intros Hfind.
  destruct (has_column df "MIN") eqn:HMIN; cbn [negb] in Hfind.
  2:{ injection Hfind as <-. unfold derive.
      rewrite (getitem_cleaned_absent tn df "MIN" (has_column_false _ _ HMIN)).
      reflexivity. }
  destruct (numeric_cleaned tn df "MIN" eq_refl HMIN) as (vMIN & _ & HvMIN).
  apply numeric_getitem in HvMIN.
  pose proof (mapM_minutes_Num pf (clean_float tn <$> vMIN)) as HMP.
  next_column df Hfind "FGA". next_column df Hfind "FGM". next_column df Hfind "FTA".
  next_column df Hfind "PTS". next_column df Hfind "OREB". next_column df Hfind "TOV".
  next_column df Hfind "AST". next_column df Hfind "STL". next_column df Hfind "BLK".
  next_column df Hfind "PF". next_column df Hfind "PLUS_MINUS".
  next_column df Hfind "FTM". next_column df Hfind "DREB".
  discriminate Hfind.
Qed.
End AbsentColumn.

(** C3 as the code has it: when the frame has no [PF] column,
    [calculate_advanced_metrics] enriches nothing.  The coercion loop logs
    its warning for the column; the formulas then stop with the [KeyError]
    of the first column they read that is absent, which is [PF] when the
    columns read before it are there; the handler logs that error, and the
    value returned is the argument itself. *)
Theorem missing_PF_returns_original tn pf (game_logs : DataFrame) log :
  has_column game_logs "PF" = false ->
  exists c,
    List.find (fun c => negb (has_column game_logs c)) base_columns = Some c /\
    (forallb (has_column game_logs)
       ["MIN"; "FGA"; "FGM"; "FTA"; "PTS"; "OREB"; "TOV"; "AST"; "STL"; "BLK"] = true ->
     c = "PF") /\
    LogWarning "Column PF not found in game logs"
      ∈ warnings_from tn numeric_cols game_logs /\
    calculate_advanced_metrics tn pf game_logs log
    = (Ok game_logs,
       ((log ++ warnings_from tn numeric_cols game_logs)
          ++ [LogError "Error calculating advanced metrics: " (KeyError c)])%list).
Proof.
  intros HPF.
  destruct (List.find (fun c => negb (has_column game_logs c)) base_columns)
    as [c|] eqn:Hfind.
  - exists c. split; [reflexivity|]. split; [|split].
    + intros Hall. cbn [forallb] in Hall.
      repeat (apply andb_prop in Hall as [?H Hall]).
      unfold base_columns in Hfind. cbn [List.find] in Hfind.
      repeat match goal with
             | H : has_column game_logs _ = _ |- _ => rewrite H in Hfind; clear H
             end.
      cbn [negb] in Hfind. injection Hfind as <-. reflexivity.
    + rewrite warnings_from_absent. apply list_elem_of_fmap.
      exists "PF". split; [reflexivity|]. apply list_elem_of_In, filter_In.
      split; [|rewrite HPF; reflexivity].
      apply list_elem_of_In, existsb_eqb_elem. reflexivity.
    + rewrite calculate_advanced_metrics_eq, (derive_first_absent tn pf _ _ Hfind).
      reflexivity.
  - pose proof (List.find_none _ _ Hfind "PF") as Hnone. cbv beta in Hnone.
    rewrite HPF in Hnone. discriminate Hnone.
    unfold base_columns. cbn [In]. tauto.
Qed.

Lemma missing_PF_returns_original_witness :
  has_column game_no_PF "PF" = false /\
  exists c,
    List.find (fun c => negb (has_column game_no_PF c)) base_columns = Some c /\
    (forallb (has_column game_no_PF)
       ["MIN"; "FGA"; "FGM"; "FTA"; "PTS"; "OREB"; "TOV"; "AST"; "STL"; "BLK"] = true ->
     c = "PF") /\
    LogWarning "Column PF not found in game logs"
      ∈ warnings_from decimal_literal numeric_cols game_no_PF /\
    calculate_advanced_metrics decimal_literal decimal_literal game_no_PF []
    = (Ok game_no_PF,
       (([] ++ warnings_from decimal_literal numeric_cols game_no_PF)
          ++ [LogError "Error calculating advanced metrics: " (KeyError c)])%list).
Proof.
  split; [reflexivity|].
  apply (missing_PF_returns_original decimal_literal decimal_literal game_no_PF []).
  reflexivity.
Defined.

Lemma isna_fill_cell c : isna (fill_cell c) = false.
Proof.
  unfold fill_cell. destruct (isna c) eqn:E; [reflexivity|exact E].
Qed.

Lemma is_number_clean_cell tn c : is_number (clean_cell tn c) = true.
Proof.
  unfold is_number. destruct (clean_cell_is_Num tn c) as [x Hx].
  assert (Hn : isna (clean_cell tn c) = false) by apply isna_fill_cell.
  rewrite Hn, Hx. reflexivity.
Qed.

Lemma derived_columns_ne k :
  existsb (String.eqb k) derived_columns = false ->
  String.eqb k "MINUTES_PLAYED" = false /\ String.eqb k "FG_PCT" = false /\
  String.eqb k "TS_PCT" = false /\ String.eqb k "PTS_PER_MIN" = false /\
  String.eqb k "POSS" = false /\ String.eqb k "OFF_RATING" = false /\
  String.eqb k "DEF_RATING" = false /\ String.eqb k "GAME_SCORE" = false /\
  String.eqb k "USG_RATE" = false /\ String.eqb k "AST_TO_RATIO" = false.
Proof.
  unfold derived_columns. cbn [existsb]. intros H.
  repeat (apply orb_false_elim in H as [?H H]).
  repeat split; assumption.
Qed.

(** [enrich] leaves every column alone that is not a derived one. *)
Lemma assoc_enrich_other df MP FGA FGM FTA PTS OREB TOV AST STL BLK PF PM FTM DREB k :
  existsb (String.eqb k) derived_columns = false ->
  assoc k (cols (enrich df MP FGA FGM FTA PTS OREB TOV AST STL BLK PF PM FTM DREB))
  = assoc k (cols df).
Proof.
  intros H. apply derived_columns_ne in H
    as (H1 & H2 & H3 & H4 & H5 & H6 & H7 & H8 & H9 & H10).
  unfold enrich. cbv zeta. unfold setitem. cbn [cols].
  rewrite !assoc_set_lookup, H1, H2, H3, H4, H5, H6, H7, H8, H9, H10.
  reflexivity.
Qed.

(** X3. After a successful enrichment every column of the input is still
    there under its label, with no missing value left in it: a column of
    [numeric_cols] holds numbers only (each cell coerced, 0 where it was
    missing or not a numeral), any other column has its cells unchanged but
    for the missing ones, which are 0. *)
Theorem enrichment_cleans_input_columns tn pf df log k v :
  forallb (has_column df) base_columns = true ->
  getitem df k = Ok v ->
  existsb (String.eqb k) derived_columns = false ->
  exists r log' v',
    calculate_advanced_metrics tn pf df log = (Ok r, log') /\
    getitem r k = Ok v' /\
    v' = (if existsb (String.eqb k) numeric_cols then clean_cell tn else fill_cell) <$> v /\
    forallb (fun c => negb (isna c)) v' = true /\
    (existsb (String.eqb k) numeric_cols = true -> forallb is_number v' = true).
Proof.
  intros H Hv Hk.
  destruct (enrichment_succeeds tn pf df log H) as (r & Hd & Hc & _).
  exists r. eexists. eexists. split; [exact Hc|].
  apply derive_inv in Hd
    as (MIN & MP & FGA & FGM & FTA & PTS & OREB & TOV & AST & STL & BLK & PF
        & PM & FTM & DREB & Hrest).
  do 15 (destruct Hrest as (_ & Hrest)). subst r.
  split; [|split; [reflexivity|]].
  - unfold getitem. rewrite (assoc_enrich_other _ _ _ _ _ _ _ _ _ _ _ _ _ _ _ _ Hk).
    rewrite assoc_cleaned, (getitem_Ok_assoc _ _ _ Hv).
    destruct (existsb (String.eqb k) numeric_cols); reflexivity.
  - split.
    + apply forallb_forall. intros c Hc'. apply in_map_iff in Hc' as (c0 & <- & _).
      destruct (existsb (String.eqb k) numeric_cols).
      * unfold clean_cell. rewrite isna_fill_cell. reflexivity.
      * rewrite isna_fill_cell. reflexivity.
    + intros ->. apply forallb_forall. intros c Hc'.
      apply in_map_iff in Hc' as (c0 & <- & _). apply is_number_clean_cell.
Qed.

Lemma enrichment_cleans_input_columns_witness :
  forallb (has_column (sample_game (Str "32:30"))) base_columns = true /\
  getitem (sample_game (Str "32:30")) "MIN" = Ok [Str "32:30"] /\
  existsb (String.eqb "MIN") derived_columns = false /\
  exists r log' v',
    calculate_advanced_metrics decimal_literal decimal_literal
      (sample_game (Str "32:30")) [] = (Ok r, log') /\
    getitem r "MIN" = Ok v' /\
    v' = (if existsb (String.eqb "MIN") numeric_cols
          then clean_cell decimal_literal else fill_cell) <$> [Str "32:30"] /\
    forallb (fun c => negb (isna c)) v' = true /\
    (existsb (String.eqb "MIN") numeric_cols = true -> forallb is_number v' = true).
Proof.
  split; [reflexivity|]. split; [reflexivity|]. split; [reflexivity|].
  apply (enrichment_cleans_input_columns decimal_literal decimal_literal
           (sample_game (Str "32:30")) [] "MIN" [Str "32:30"]); reflexivity.
Defined.

(** ** Enrichment: the order of the columns *)

Lemma keys_assoc_set k v l :
  (assoc_set k v l).*1 = add_label k l.*1.
Proof.
  unfold add_label. induction l as [|[k0 v0] l IH]; [reflexivity|].
  cbn [assoc_set]. rewrite !fmap_cons. cbn [fst existsb].
  destruct (String.eqb k k0) eqn:E.
  - apply String.eqb_eq in E. subst k0. reflexivity.
  - rewrite fmap_cons. cbn [fst orb]. rewrite IH.
    destruct (existsb (String.eqb k) l.*1); reflexivity.
Qed.

Lemma columns_setitem df k v : columns (setitem df k v) = add_label k (columns df).
Proof. unfold columns, setitem. cbn [cols]. apply keys_assoc_set. Qed.

Lemma columns_fillna0 df : columns (fillna0 df) = columns df.
Proof.
  unfold columns, fillna0. cbn [cols]. rewrite <- list_fmap_compose.
  apply list_fmap_ext. intros _ [k v] _. reflexivity.
Qed.

Lemma columns_coerce1 tn c df : columns (coerce1 tn c df) = columns df.
Proof.
  unfold coerce1. destruct (assoc c (cols df)) as [v|] eqn:E; [|reflexivity].
  rewrite columns_setitem. unfold add_label.
  fold (has_column df c). rewrite has_column_assoc, E. reflexivity.
Qed.

Lemma columns_cleaned tn df : columns (cleaned tn df) = columns df.
Proof.
  unfold cleaned. rewrite columns_fillna0. generalize numeric_cols. intros cs.
  revert df. induction cs as [|c cs IH]; intros df; [reflexivity|].
  cbn [coerce_all]. rewrite IH. apply columns_coerce1.
Qed.

Lemma columns_enrich df MP FGA FGM FTA PTS OREB TOV AST STL BLK PF PM FTM DREB :
  columns (enrich df MP FGA FGM FTA PTS OREB TOV AST STL BLK PF PM FTM DREB)
  = foldl (fun cs k => add_label k cs) (columns df) derived_columns.
Proof. unfold enrich. cbv zeta. rewrite !columns_setitem. reflexivity. Qed.

Lemma existsb_eqb_app (k : string) l1 l2 :
  existsb (String.eqb k) (l1 ++ l2)%list
  = existsb (String.eqb k) l1 || existsb (String.eqb k) l2.
Proof. apply existsb_app. Qed.

(** Labels added one after the other: those that are new come last, in the
    order they were added. *)
Lemma foldl_add_label ks cs :
  NoDup ks ->
  foldl (fun cs k => add_label k cs) cs ks
  = (cs ++ List.filter (fun k => negb (existsb (String.eqb k) cs)) ks)%list.
Proof.
  intros Hnd. revert cs. induction Hnd as [|k ks Hk Hnd IH]; intros cs.
  - cbn. rewrite app_nil_r. reflexivity.
  - cbn [foldl List.filter]. rewrite IH. unfold add_label.
    destruct (existsb (String.eqb k) cs) eqn:E; cbn [negb]; [reflexivity|].
    rewrite <- app_assoc. cbn [app]. do 2 f_equal.
    apply List.filter_ext_in. intros k' Hk'.
    rewrite existsb_eqb_app. cbn [existsb]. rewrite orb_false_r.
    destruct (String.eqb k' k) eqn:E'; [|rewrite orb_false_r; reflexivity].
    apply String.eqb_eq in E'. subst k'.
    exfalso. apply Hk. apply list_elem_of_In. exact Hk'.
Qed.

Lemma NoDup_derived_columns : NoDup derived_columns.
Proof. apply (bool_decide_unpack (NoDup derived_columns)). vm_compute. exact I. Qed.

(** X4. A successful enrichment neither drops nor moves a column: the frame
    returned has the columns of the input in their order, followed by the
    derived columns the input did not have, in the order MINUTES_PLAYED,
    FG_PCT, TS_PCT, PTS_PER_MIN, POSS, OFF_RATING, DEF_RATING, GAME_SCORE,
    USG_RATE, AST_TO_RATIO; a derived column the input had is overwritten
    where it stood. *)
Theorem enrichment_appends_derived_columns tn pf df log :
  forallb (has_column df) base_columns = true ->
  exists r log',
    calculate_advanced_metrics tn pf df log = (Ok r, log') /\
    columns r
    = (columns df ++ List.filter (fun c => negb (has_column df c)) derived_columns)%list.
Proof.
  intros H. destruct (enrichment_succeeds tn pf df log H) as (r & Hd & Hc & _).
  exists r. eexists. split; [exact Hc|].
  apply derive_inv in Hd
    as (MIN & MP & FGA & FGM & FTA & PTS & OREB & TOV & AST & STL & BLK & PF
        & PM & FTM & DREB & Hrest).
  do 15 (destruct Hrest as (_ & Hrest)). subst r.
  rewrite columns_enrich, columns_cleaned.
  apply (foldl_add_label derived_columns (columns df) NoDup_derived_columns).
Qed.

Lemma enrichment_appends_derived_columns_witness :
  forallb (has_column three_games) base_columns = true /\
  exists r log',
    calculate_advanced_metrics decimal_literal decimal_literal three_games []
    = (Ok r, log') /\
    columns r
    = (columns three_games
         ++ List.filter (fun c => negb (has_column three_games c)) derived_columns)%list.
Proof.
  split; [reflexivity|].
  apply (enrichment_appends_derived_columns decimal_literal decimal_literal
           three_games []).
  reflexivity.
Defined.

(** ** The projected table: its columns *)

Lemma columns_take_rows idx df : columns (take_rows idx df) = columns df.
Proof.
  unfold columns, take_rows. cbn [cols]. rewrite <- list_fmap_compose.
  apply list_fmap_ext. intros _ [k v] _. reflexivity.
Qed.

Lemma columns_projection player_stats :
  columns (projection player_stats) = available_columns player_stats.
Proof.
  unfold columns, projection. cbn [cols]. rewrite <- list_fmap_compose.
  rewrite <- (list_fmap_id (available_columns player_stats)) at 2.
  apply list_fmap_ext. reflexivity.
Qed.

(** The table [project] returns, when it returns one. *)
Lemma project_Ok argsort player_stats out :
  project argsort player_stats = Ok out ->
  exists dates,
    getitem player_stats "GAME_DATE" = Ok dates /\
    out = take_rows (indexer_of argsort dates) (projection player_stats).
Proof.
  intros Hp.
  destruct (has_column player_stats "GAME_DATE") eqn:Hh.
  - rewrite has_column_assoc in Hh.
    destruct (assoc "GAME_DATE" (cols player_stats)) as [dates|] eqn:E;
      [|discriminate Hh].
    assert (Hd : getitem player_stats "GAME_DATE" = Ok dates)
      by (unfold getitem; rewrite E; reflexivity).
    exists dates. split; [exact Hd|].
    rewrite (project_dated _ _ _ Hd) in Hp.
    destruct (comparable (reverse (present dates))); [|discriminate Hp].
    injection Hp as <-. reflexivity.
  - rewrite (project_no_date _ _ Hh) in Hp. discriminate Hp.
Qed.

(** X5. The table [get_player_stats] selects and sorts has the columns of
    [ts_columns] that the enriched frame has, in the order of [ts_columns]
    whatever their order in the frame, and no other column; GAME_DATE is
    one of them. *)
Theorem projected_columns argsort player_stats out :
  project argsort player_stats = Ok out ->
  columns out = available_columns player_stats /\
  sublist (columns out) ts_columns /\
  "GAME_DATE" ∈ columns out /\
  forall c, c ∈ columns out <-> c ∈ ts_columns /\ has_column player_stats c = true.
Proof.
  intros Hp. apply project_Ok in Hp as (dates & Hd & ->).
  rewrite columns_take_rows, columns_projection.
  split; [reflexivity|]. split; [apply sublist_filter|].
  assert (Hall : forall c, c ∈ available_columns player_stats
                           <-> c ∈ ts_columns /\ has_column player_stats c = true).
  { intros c. unfold available_columns. rewrite list_elem_of_filter.
    rewrite Is_true_true. tauto. }
  split; [|exact Hall].
  apply Hall. split; [apply date_in_ts_columns|].
  rewrite has_column_assoc, (getitem_Ok_assoc _ _ _ Hd). reflexivity.
Qed.

Lemma projected_columns_witness :
  exists out,
    project argsort_stable three_games = Ok out /\
    columns out = ["GAME_DATE"; "GAME_ID"; "PLUS_MINUS"] /\
    columns out = available_columns three_games /\
    sublist (columns out) ts_columns /\
    "GAME_DATE" ∈ columns out /\
    forall c, c ∈ columns out <-> c ∈ ts_columns /\ has_column three_games c = true.
Proof.
  eexists. split; [vm_compute; reflexivity|]. split; [vm_compute; reflexivity|].
  apply (projected_columns argsort_stable three_games). vm_compute. reflexivity.
Defined.

(** ** The projected table: a stable sort keeps the order of equal dates *)

Section Stable.
Local Open Scope nat_scope.

Lemma forallb_fmap {A B} (f : A -> B) (p : B -> bool) l :
  forallb p (f <$> l) = forallb (fun x => p (f x)) l.
Proof.
  induction l as [|a l IH]; [reflexivity|].
  rewrite fmap_cons. cbn [forallb]. rewrite IH. reflexivity.
Qed.

Lemma pairwise_fmap {A B} (f : A -> B) (R : B -> B -> bool) l :
  pairwise R (f <$> l) = pairwise (fun x y => R (f x) (f y)) l.
Proof.
  induction l as [|a l IH]; [reflexivity|].
  rewrite fmap_cons. cbn [pairwise]. rewrite IH, forallb_fmap. reflexivity.
Qed.

Lemma pairwise_impl {A} (R R' : A -> A -> bool) l :
  (forall x y, x ∈ l -> y ∈ l -> R x y = true -> R' x y = true) ->
  pairwise R l = true -> pairwise R' l = true.
Proof.
  induction l as [|a l IH]; [reflexivity|].
  intros Himp H. cbn [pairwise] in H. apply andb_prop in H as [Ha Hl].
  cbn [pairwise]. apply andb_true_intro. split.
  - apply forallb_forall. intros y Hy. rewrite forallb_forall in Ha.
    apply Himp; [left|right; apply list_elem_of_In; exact Hy|apply Ha; exact Hy].
  - apply IH; [|exact Hl]. intros x y Hx Hy. apply Himp; right; assumption.
Qed.

Lemma pairwise_lookup {A} (R : A -> A -> bool) l i j x y :
  pairwise R l = true -> l !! i = Some x -> l !! j = Some y -> i < j ->
  R x y = true.
Proof.
  revert i j. induction l as [|a l IH]; intros i j H Hi Hj Hlt; [discriminate Hi|].
  cbn [pairwise] in H. apply andb_prop in H as [Ha Hl].
  destruct i as [|i], j as [|j]; try lia.
  - injection Hi as <-. rewrite forallb_forall in Ha. apply Ha.
    apply list_elem_of_In. exact (list_elem_of_lookup_2 l j y Hj).
  - apply (IH i j Hl Hi Hj). lia.
Qed.

(** The positions a mask selects are listed in increasing order. *)
Lemma increasing_masked_seq mask k n : increasing (masked mask (seq k n)) = true.
Proof.
  unfold increasing. revert mask k. induction n as [|n IH]; intros mask k.
  - destruct mask; reflexivity.
  - destruct mask as [|b mask]; [reflexivity|]. cbn [seq masked].
    destruct b; [|apply IH].
    cbn [pairwise]. rewrite IH, andb_true_r. apply forallb_forall.
    intros i Hi. apply list_elem_of_In, masked_in_range in Hi.
    apply Nat.ltb_lt. lia.
Qed.

Lemma take_fmap_default {A} (d : A) a (l : list A) :
  (forall x, x ∈ a -> x < length l) ->
  take a l = (fun x => default d (l !! x)) <$> a.
Proof.
  induction a as [|x a IH]; intros Hr; [reflexivity|].
  rewrite take_cons, fmap_cons.
  destruct (lookup_lt_is_Some_2 l x (Hr x (list_elem_of_here _ _))) as [v Hv].
  rewrite Hv. cbn [default]. rewrite IH; [reflexivity|].
  intros x' Hx'. apply Hr. right. exact Hx'.
Qed.

(** The dates that are present, read backwards, are the dates at the
    positions of the present ones, read backwards. *)
Lemma reverse_present_take dates :
  reverse (present dates) = take (reverse (present_idx dates)) dates.
Proof.
  rewrite take_reverse. unfold present, present_idx.
  rewrite (take_masked _ dates (length_not_isna dates)). reflexivity.
Qed.

Lemma present_idx_in_range dates p : p ∈ present_idx dates -> p < length dates.
Proof. unfold present_idx. intros H. apply masked_in_range in H. lia. Qed.

Lemma length_present_idx dates : length (present_idx dates) = length (present dates).
Proof.
  unfold present, present_idx. apply length_masked. apply length_seq.
Qed.

(** A stable ascending index of the reversed dates, taken through the
    reversed positions and reversed again, lists the rows by descending
    date and keeps the rows of one date in the order of the input. *)
Lemma stable_descending_indexer dates a :
  argsort_stable_ok (reverse (present dates)) a = true ->
  stable_descending dates (reverse (take a (reverse (present_idx dates)))) = true.
Proof.
  intros Hok. unfold argsort_stable_ok in Hok. apply andb_prop in Hok as [Hperm Hst].
  apply is_range_permutation_perm in Hperm.
  set (RI := reverse (present_idx dates)) in *.
  set (R := reverse (present dates)) in *.
  assert (HlenRI : length RI = length R).
  { unfold RI, R. rewrite !length_reverse. apply length_present_idx. }
  assert (Hkeys : R = take RI dates) by apply reverse_present_take.
  assert (HRI : forall p, p ∈ RI -> p < length dates).
  { intros p Hp. unfold RI in Hp. rewrite elem_of_reverse in Hp.
    apply present_idx_in_range. exact Hp. }
  assert (Ha : forall x, x ∈ a -> x < length RI).
  { intros x Hx. rewrite Hperm in Hx. apply list_elem_of_In, in_seq in Hx. lia. }
  set (f := fun x => default 0 (RI !! x)).
  assert (Hf : forall x, x < length RI -> RI !! x = Some (f x)).
  { intros x Hx. destruct (lookup_lt_is_Some_2 RI x Hx) as [p Hp].
    unfold f. rewrite Hp. reflexivity. }
  assert (Hkey : forall x, x < length RI -> R !! x = dates !! f x).
  { intros x Hx. rewrite Hkeys, (lookup_take RI dates x HRI), (Hf x Hx).
    reflexivity. }
  assert (Hdec : forall x y, x < y -> y < length RI -> f y < f x).
  { intros x y Hxy Hy.
    assert (Hx : x < length RI) by lia.
    pose proof (Hf x Hx) as Ex. pose proof (Hf y Hy) as Ey.
    unfold RI in Ex, Ey, Hx, Hy. rewrite length_reverse in Hx, Hy.
    rewrite reverse_lookup in Ex by exact Hx.
    rewrite reverse_lookup in Ey by exact Hy.
    apply Nat.ltb_lt.
    apply (pairwise_lookup Nat.ltb (present_idx dates)
             (length (present_idx dates) - S y) (length (present_idx dates) - S x)
             (f y) (f x)); [|exact Ey|exact Ex|lia].
    apply increasing_masked_seq. }
  rewrite (take_fmap_default 0 a RI Ha). fold f.
  unfold stable_descending.
  pose proof (pairwise_reverse
                (fun j i => key_ltb dates j i || negb (key_ltb dates i j) && Nat.ltb i j)
                (f <$> a)) as E.
  cbv beta in E. rewrite E. rewrite pairwise_fmap.
  revert Hst. unfold stable_ascending. apply pairwise_impl.
  intros x y Hx Hy Hxy. apply Ha in Hx, Hy.
  assert (Ekl : forall u v, u < length RI -> v < length RI ->
                            key_ltb R u v = key_ltb dates (f u) (f v)).
  { intros u v Hu Hv. unfold key_ltb. rewrite (Hkey u Hu), (Hkey v Hv). reflexivity. }
  rewrite (Ekl x y Hx Hy), (Ekl y x Hy Hx) in Hxy.
  destruct (key_ltb dates (f x) (f y)); [reflexivity|].
  cbn [orb] in Hxy |- *. apply andb_prop in Hxy as [Hn Hlt].
  rewrite Hn. cbn [andb]. apply Nat.ltb_lt. apply Nat.ltb_lt in Hlt.
  apply Hdec; assumption.
Qed.
End Stable.

(** X6. Were the sort stable, the rows of one date would stay in the order
    of the input: if the index [argsort] returns for the reversed dates is
    a permutation in which the keys ascend and equal keys keep their order,
    the table lists the dated rows by descending date, those of one date in
    the order they had in the input, and after them the rows without a date
    in the order they had in the input. *)
Theorem stable_sort_keeps_input_order argsort player_stats out dates :
  getitem player_stats "GAME_DATE" = Ok dates ->
  project argsort player_stats = Ok out ->
  argsort_stable_ok (reverse (present dates)) (argsort (reverse (present dates)))
  = true ->
  exists dated,
    out = take_rows (dated ++ missing_idx dates)%list (projection player_stats) /\
    stable_descending dates dated = true /\
    increasing (missing_idx dates) = true.
Proof.
  intros Hd Hp Hok. rewrite (project_dated _ _ _ Hd) in Hp.
  destruct (comparable (reverse (present dates))); [|discriminate Hp].
  injection Hp as <-.
  exists (reverse (take (argsort (reverse (present dates)))
                     (reverse (present_idx dates)))).
  split; [reflexivity|]. split.
  - apply stable_descending_indexer. exact Hok.
  - apply increasing_masked_seq.
Qed.

Lemma stable_sort_keeps_input_order_witness :
  exists out dates,
    getitem two_games_one_date "GAME_DATE" = Ok dates /\
    project argsort_stable two_games_one_date = Ok out /\
    argsort_stable_ok (reverse (present dates))
      (argsort_stable (reverse (present dates))) = true /\
    getitem out "GAME_ID" = Ok [Str "A"; Str "B"] /\
    exists dated,
      out = take_rows (dated ++ missing_idx dates)%list
              (projection two_games_one_date) /\
      stable_descending dates dated = true /\
      increasing (missing_idx dates) = true.
Proof.
  eexists _, _.
  split; [vm_compute; reflexivity|].
  split; [vm_compute; reflexivity|].
  split; [vm_compute; reflexivity|].
  split; [vm_compute; reflexivity|].
  apply (stable_sort_keeps_input_order argsort_stable two_games_one_date);
    vm_compute; reflexivity.
Defined.

(** ** The projected table: by date, most recent first *)











(** ** Usage rate and offensive rebounds *)






(** ** Running the collector *)

Section ActFacts.
Context {World : Type}.
Implicit Types s : list event * World.

Lemma bind_Return {A B} (m : Act World A) (k : A -> Act World B) s a s' :
  m s = (Return a, s') -> Act.bind m k s = k a s'.
Proof. unfold Act.bind. intros ->. reflexivity. Qed.

Lemma bind_Throw {A B} (m : Act World A) (k : A -> Act World B) s e s' :
  m s = (Throw e, s') -> Act.bind m k s = (Throw e, s').
Proof. unfold Act.bind. intros ->. reflexivity. Qed.

Lemma bind_Return_inv {A B} (m : Act World A) (k : A -> Act World B) s b s2 :
  Act.bind m k s = (Return b, s2) ->
  exists a s1, m s = (Return a, s1) /\ k a s1 = (Return b, s2).
Proof.
  unfold Act.bind. destruct (m s) as [[a|e] s1]; [eauto|discriminate].
Qed.

Lemma try_except_Return {A} (m : Act World A) h s a s' :
  m s = (Return a, s') -> Act.try_except m h s = (Return a, s').
Proof. unfold Act.try_except. intros ->. reflexivity. Qed.

Lemma try_except_Throw {A} (m : Act World A) h s e s' :
  m s = (Throw e, s') -> Act.try_except m h s = h e s'.
Proof. unfold Act.try_except. intros ->. reflexivity. Qed.

Lemma Return_is_not_Throw {A} (a : A) e s s' : (Return a, s) = (Throw e, s') -> False.
Proof. intros H. apply (f_equal fst) in H. discriminate H. Qed.

Lemma Throw_inj {A} e e' s s' : (@Throw A e, s) = (Throw e', s') -> e = e'.
Proof. intros H. apply (f_equal fst) in H. injection H as ->. reflexivity. Qed.

Lemma Return_inj {A} (a a' : A) s s' :
  (Return a, s) = (Return a', s') -> a = a' /\ s = s'.
Proof. intros H. injection H as -> ->. split; reflexivity. Qed.

(** What a loop keeps true of its accumulator from round to round is true
    of what it returns. *)
Lemma for_each_invariant {A S} (I : list A -> S -> Prop)
    (body : A -> S -> Act World S) xs :
  (forall seen x acc s acc' s',
      I seen acc -> body x acc s = (Return acc', s') -> I (seen ++ [x])%list acc') ->
  forall seen acc s r s',
    I seen acc ->
    Act.for_each xs body acc s = (Return r, s') -> I (seen ++ xs)%list r.
Proof.
  intros Hstep. induction xs as [|x xs IH]; intros seen acc s r s' HI Hrun.
  - cbn in Hrun. injection Hrun as <- <-. rewrite app_nil_r. exact HI.
  - cbn [Act.for_each] in Hrun.
    apply bind_Return_inv in Hrun as (acc1 & s1 & Hb & Hrest).
    assert (E : (seen ++ x :: xs = (seen ++ [x]) ++ xs)%list)
      by (rewrite <- app_assoc; reflexivity).
    rewrite E. apply (IH _ acc1 s1 r s'); [|exact Hrest].
    exact (Hstep seen x acc s acc1 s1 HI Hb).
Qed.
End ActFacts.

(** ** [get_player_id] *)

Lemma find_Some_split {A} (f : A -> bool) l x :
  List.find f l = Some x ->
  f x = true /\
  exists before after,
    l = (before ++ x :: after)%list /\ forallb (fun y => negb (f y)) before = true.
Proof.
  induction l as [|a l IH]; [discriminate|]. cbn [List.find].
  destruct (f a) eqn:E.
  - intros H. injection H as <-. split; [exact E|]. exists [], l. split; reflexivity.
  - intros H. destruct (IH H) as (Hx & before & after & -> & Hb).
    split; [exact Hx|]. exists (a :: before), after.
    split; [reflexivity|]. cbn [forallb]. rewrite E, Hb. reflexivity.
Qed.

Lemma find_None_all {A} (f : A -> bool) l :
  List.find f l = None -> forallb (fun y => negb (f y)) l = true.
Proof.
  induction l as [|a l IH]; [reflexivity|]. cbn [List.find forallb].
  destruct (f a); [discriminate|]. intros H. rewrite (IH H). reflexivity.
Qed.

(** [get_player_id] returns, having added to the log at most. *)
Lemma get_player_id_total {World} (env : environment World)
    player_name (s : list event * World) :
  exists r new,
    Collector.get_player_id env player_name s
    = (Return r, ((s.1 ++ new)%list, s.2)).
Proof.
  destruct s as [log w].
  unfold Collector.get_player_id, Act.try_except, Act.bind, Act.lift, Act.ret,
    Act.throw, Act.emit. cbn [fst snd].
  destruct (find_players_by_full_name env player_name) as [[|p names]|e].
  - destruct (last (split env player_name)) as [w0|].
    + destruct (find_players_by_last_name env w0) as [[|q names]|e].
      * eexists None, [_]. reflexivity.
      * destruct (List.find _ (q :: names)) as [player|];
          eexists _, []; rewrite app_nil_r; reflexivity.
      * eexists None, [_]. reflexivity.
    + eexists None, [_]. reflexivity.
  - eexists _, []. rewrite app_nil_r. reflexivity.
  - eexists None, [_]. reflexivity.
Qed.

(** X8. [get_player_id] never raises and reaches nothing outside the
    collector: it returns an id or [None], only adds to the log, and an id
    it returns is the id of an entry one of the two searches of the player
    list returned.  A hit of the search by full name wins, and nothing is
    logged then; a name that [split()] cuts into no word, with no hit by
    full name, gives [None] and logs the [IndexError] of [split()[-1]]. *)
Theorem get_player_id_returns_a_listed_id {World} (env : environment World)
    player_name (s : list event * World) :
  exists r new,
    Collector.get_player_id env player_name s
    = (Return r, ((s.1 ++ new)%list, s.2)) /\
    (forall i, r = Some i ->
       exists p names,
         p_id p = i /\ p ∈ names /\
         (find_players_by_full_name env player_name = Return names \/
          exists w, last (split env player_name) = Some w /\
                    find_players_by_last_name env w = Return names)) /\
    (forall p names, find_players_by_full_name env player_name = Return (p :: names) ->
       r = Some (p_id p) /\ new = []) /\
    (find_players_by_full_name env player_name = Return [] ->
     split env player_name = [] ->
     r = None /\
     new = [Caught ("Error getting player ID for " +:+ player_name +:+ ": ")
              IndexError]).
Proof.
  destruct s as [log w].
  unfold Collector.get_player_id, Act.try_except, Act.bind, Act.lift, Act.ret,
    Act.throw, Act.emit. cbn [fst snd].
  destruct (find_players_by_full_name env player_name) as [[|p names]|e] eqn:Efull.
  - destruct (last (split env player_name)) as [w0|] eqn:Elast.
    + destruct (find_players_by_last_name env w0) as [[|q names]|e] eqn:Elastname.
      * eexists None, [_]. split; [reflexivity|].
        split; [discriminate|]. split; [discriminate|].
        intros _ Hs. rewrite Hs in Elast. discriminate Elast.
      * destruct (List.find _ (q :: names)) as [player|] eqn:Efind.
        -- exists (Some (p_id player)), []. rewrite app_nil_r.
           split; [reflexivity|]. split; [|split; [discriminate|]].
           ++ intros i Hi. injection Hi as <-. exists player, (q :: names).
              split; [reflexivity|]. split.
              ** apply find_Some_split in Efind
                   as (_ & before & after & E & _).
                 rewrite E. apply list_elem_of_In, in_elt.
              ** right. exists w0. split; [reflexivity|exact Elastname].
           ++ intros _ Hs. rewrite Hs in Elast. discriminate Elast.
        -- exists (Some (p_id q)), []. rewrite app_nil_r.
           split; [reflexivity|]. split; [|split; [discriminate|]].
           ++ intros i Hi. injection Hi as <-. exists q, (q :: names).
              split; [reflexivity|]. split; [left|].
              right. exists w0. split; [reflexivity|exact Elastname].
           ++ intros _ Hs. rewrite Hs in Elast. discriminate Elast.
      * eexists None, [_]. split; [reflexivity|].
        split; [discriminate|]. split; [discriminate|].
        intros _ Hs. rewrite Hs in Elast. discriminate Elast.
    + eexists None, [_]. split; [reflexivity|].
      split; [discriminate|]. split; [discriminate|].
      intros _ _. split; reflexivity.
  - exists (Some (p_id p)), []. rewrite app_nil_r. split; [reflexivity|].
    split; [|split].
    + intros i Hi. injection Hi as <-. exists p, (p :: names).
      split; [reflexivity|]. split; [left|]. left. reflexivity.
    + intros p' names' E. injection E as <- <-. split; reflexivity.
    + discriminate.
  - eexists None, [_]. split; [reflexivity|].
    split; [discriminate|]. split; discriminate.
Qed.

(** X9. When the search by full name finds nobody and the search by the
    last word of the name finds somebody, [get_player_id] returns, with
    nothing logged, the id of the first entry found whose full name contains
    the name asked for, case ignored; when no entry does, it returns the id
    of the first entry found, whatever its name. *)
Theorem get_player_id_falls_back_on_last_name {World} (env : environment World)
    player_name w names (s : list event * World) :
  find_players_by_full_name env player_name = Return [] ->
  last (split env player_name) = Some w ->
  find_players_by_last_name env w = Return names ->
  names <> [] ->
  let close p := contains (lower env player_name) (lower env (p_full_name p)) in
  exists p,
    Collector.get_player_id env player_name s = (Return (Some (p_id p)), s) /\
    ((close p = true /\
      exists before after,
        names = (before ++ p :: after)%list /\
        forallb (fun q => negb (close q)) before = true) \/
     (forallb (fun q => negb (close q)) names = true /\ names !! 0%nat = Some p)).
Proof.
  intros Efull Elast Enames Hne close. destruct s as [log w0].
  unfold Collector.get_player_id, Act.try_except, Act.bind, Act.lift, Act.ret,
    Act.throw, Act.emit. cbn [fst snd].
  rewrite Efull, Elast, Enames.
  destruct names as [|q names]; [contradiction|].
  fold close.
  destruct (List.find close (q :: names)) as [player|] eqn:Efind.
  - exists player. split; [reflexivity|]. left.
    apply find_Some_split in Efind as (Hc & before & after & E & Hb).
    split; [exact Hc|]. exists before, after. split; assumption.
  - exists q. split; [reflexivity|]. right.
    split; [apply find_None_all; exact Efind|reflexivity].
Qed.

Lemma get_player_id_falls_back_on_last_name_witness :
  find_players_by_full_name sample_env "Steph Curry" = Return [] /\
  last (split sample_env "Steph Curry") = Some "Curry" /\
  find_players_by_last_name sample_env "Curry"
  = Return [ {| p_id := 203552; p_full_name := "Seth Curry" |};
             {| p_id := 201939; p_full_name := "Stephen Curry" |} ] /\
  Collector.get_player_id sample_env "Steph Curry" ([], [])
  = (Return (Some 203552), ([], [])) /\
  exists p,
    Collector.get_player_id sample_env "Steph Curry" ([], [])
    = (Return (Some (p_id p)), ([], [])) /\
    ((contains (lower sample_env "Steph Curry") (lower sample_env (p_full_name p))
      = true /\
      exists before after,
        [ {| p_id := 203552; p_full_name := "Seth Curry" |};
          {| p_id := 201939; p_full_name := "Stephen Curry" |} ]
        = (before ++ p :: after)%list /\
        forallb (fun q => negb (contains (lower sample_env "Steph Curry")
                                  (lower sample_env (p_full_name q)))) before
        = true) \/
     (forallb (fun q => negb (contains (lower sample_env "Steph Curry")
                                (lower sample_env (p_full_name q))))
        [ {| p_id := 203552; p_full_name := "Seth Curry" |};
          {| p_id := 201939; p_full_name := "Stephen Curry" |} ] = true /\
      [ {| p_id := 203552; p_full_name := "Seth Curry" |};
        {| p_id := 201939; p_full_name := "Stephen Curry" |} ] !! 0%nat = Some p)).
Proof.
  split; [reflexivity|]. split; [reflexivity|]. split; [reflexivity|].
  split; [reflexivity|].
  apply (get_player_id_falls_back_on_last_name sample_env "Steph Curry" "Curry"
           [ {| p_id := 203552; p_full_name := "Seth Curry" |};
             {| p_id := 201939; p_full_name := "Stephen Curry" |} ] ([], []));
    [reflexivity|reflexivity|reflexivity|discriminate].
Defined.

(** ** Season labels *)

Lemma season_of_month year month :
  season_of year month = season_of year (if (month <? 10)%Z then 1 else 10).
Proof. unfold season_of. destruct (month <? 10)%Z; reflexivity. Qed.

Lemma seasons_checked :
  forallb (fun n => season_chain_ok (Z.of_nat n) && season_shape_ok (Z.of_nat n))
    (seq (Z.to_nat 1001) (Z.to_nat 8999)) = true.
Proof. vm_compute. reflexivity. Qed.

(** X10. In every year from 1001 to 9999 (the last year of [datetime]) the
    season label is [YYYY-YY], seven characters: the year the season starts
    in (the year before the current one until September, the current one
    from October) and the last two digits of the year after; and the label
    computed for the previous season is the label the same month of the year
    before would give. *)
Theorem season_labels (year month : Z) :
  1001 <= year <= 9999 ->
  let start := if (month <? 10)%Z then year - 1 else year in
  season_of year month = py_str start +:+ "-" +:+ fmt_02d ((start + 1) mod 100) /\
  String.length (season_of year month) = 7%nat /\
  prev_season_of (season_of year month) = Return (season_of (year - 1) month).
Proof.
  intros Hy start.
  pose proof seasons_checked as H. rewrite forallb_forall in H.
  specialize (H (Z.to_nat year)).
  rewrite Z2Nat.id in H by lia.
  assert (Hin : In (Z.to_nat year) (seq (Z.to_nat 1001) (Z.to_nat 8999)))
    by (apply in_seq; lia).
  apply H in Hin. apply andb_prop in Hin as [Hchain Hshape].
  unfold season_chain_ok in Hchain. unfold season_shape_ok in Hshape.
  cbn [forallb] in Hchain, Hshape.
  apply andb_prop in Hchain as [Hc1 Hc2]. apply andb_prop in Hc2 as [Hc10 _].
  apply andb_prop in Hshape as [Hs1 Hs2]. apply andb_prop in Hs2 as [Hs10 _].
  apply andb_prop in Hs1 as [Hs1 Hl1]. apply andb_prop in Hs10 as [Hs10 Hl10].
  apply String.eqb_eq in Hs1, Hs10. apply Nat.eqb_eq in Hl1, Hl10.
  rewrite (season_of_month year month), (season_of_month (year - 1) month).
  unfold start. destruct (month <? 10)%Z.
  - change (1 <? 10)%Z with true in Hs1. cbv iota in Hs1.
    split; [exact Hs1|]. split; [exact Hl1|].
    destruct (prev_season_of (season_of year 1)); [|discriminate Hc1].
    apply String.eqb_eq in Hc1. rewrite Hc1. reflexivity.
  - change (10 <? 10)%Z with false in Hs10. cbv iota in Hs10.
    split; [exact Hs10|]. split; [exact Hl10|].
    destruct (prev_season_of (season_of year 10)); [|discriminate Hc10].
    apply String.eqb_eq in Hc10. rewrite Hc10. reflexivity.
Qed.

Lemma season_labels_witness :
  1001 <= 2024 <= 9999 /\
  season_of 2024 11 = "2024-25" /\
  season_of 2024 11 = py_str 2024 +:+ "-" +:+ fmt_02d ((2024 + 1) mod 100) /\
  String.length (season_of 2024 11) = 7%nat /\
  prev_season_of (season_of 2024 11) = Return (season_of (2024 - 1) 11).
Proof.
  split; [lia|]. split; [reflexivity|].
  apply (season_labels 2024 11). lia.
Defined.

(** ** [head] and [pd.concat] *)

Lemma nrows_head_le n df : 0 <= n -> Z.of_nat (nrows (head n df)) <= n.
Proof.
  intros Hn. unfold head. cbn [nrows].
  destruct (0 <=? n)%Z eqn:E; [|apply Z.leb_gt in E; lia].
  pose proof (Nat.le_min_l (Z.to_nat n) (nrows df)). lia.
Qed.

Lemma nrows_head_0 df : nrows (head 0 df) = 0%nat.
Proof. reflexivity. Qed.

Lemma assoc_head n df c :
  0 <= n ->
  assoc c (cols (head n df)) = firstn (Z.to_nat n) <$> assoc c (cols df).
Proof.
  intros Hn. unfold head. cbn [cols].
  destruct (0 <=? n)%Z eqn:E; [|apply Z.leb_gt in E; lia].
  induction (cols df) as [|[k0 v0] l IH]; [reflexivity|].
  rewrite fmap_cons. cbn [assoc fst snd].
  destruct (String.eqb c k0); [reflexivity|exact IH].
Qed.

Lemma getitem_head n df c v :
  0 <= n -> getitem df c = Ok v ->
  getitem (head n df) c = Ok (firstn (Z.to_nat n) v).
Proof.
  intros Hn Hv. unfold getitem. rewrite (assoc_head n df c Hn).
  rewrite (getitem_Ok_assoc _ _ _ Hv). reflexivity.
Qed.

Lemma getitem_concat a b c va vb :
  getitem a c = Ok va -> getitem b c = Ok vb ->
  getitem (concat a b) c = Ok (va ++ vb)%list.
Proof.
  intros Ha Hb. apply getitem_Ok_assoc in Ha, Hb.
  unfold getitem, concat. cbn [cols]. rewrite assoc_labels.
  rewrite existsb_app. fold (has_column a c).
  rewrite has_column_assoc, Ha. cbn [orb].
  unfold column_or_nan. rewrite Ha, Hb. reflexivity.
Qed.

(** ** [get_recent_game_logs] *)

Ltac fetch_leaf :=
  let H := fresh "H" in
  let E := fresh "E" in
  intros H;
  match type of H with
  | context [Nat.eqb (nrows (head ?n ?f)) 0] =>
      destruct (Nat.eqb (nrows (head n f)) 0) eqn:E
  end;
  [ injection H as <- _; split; [discriminate|reflexivity]
  | injection H as <- _; apply Nat.eqb_neq in E; split;
    [ let df0 := fresh "df0" in
      let Hdf := fresh "Hdf" in
      intros df0 Hdf; injection Hdf as <-; split; [exact E|apply nrows_head_le]
    | intros ->; rewrite nrows_head_0 in E; contradiction ] ].

(** A frame [fetch_game_logs] returns has a row, and no more rows than
    were asked for. *)
Lemma fetch_game_logs_Return {World} (env : environment World)
    player_name num_games player_id (s s' : list event * World) r :
  Collector.fetch_game_logs env player_name num_games player_id s = (Return r, s') ->
  (forall df, r = Some df ->
     nrows df <> 0%nat /\ (0 <= num_games -> Z.of_nat (nrows df) <= num_games)) /\
  (num_games = 0 -> r = None).
Proof.
  destruct s as [log w].
  unfold Collector.fetch_game_logs, Act.bind, Act.call, Act.lift, Act.ret, Act.emit.
  cbn [fst snd]. cbv zeta.
  set (year := (now env w).1.1). set (w1 := (now env w).2).
  set (month := (now env w1).1.2). set (w2 := (now env w1).2).
  destruct (PlayerGameLog env player_id (season_of year month) w2)
    as [[df|e] w3]; cbn [fst snd]; [|discriminate].
  destruct (Z.of_nat (nrows df) <? num_games)%Z.
  - destruct (prev_season_of (season_of year month)) as [prev|e];
      cbn [fst snd]; [|discriminate].
    destruct (PlayerGameLog env player_id prev w3) as [[prev_df|e] w4];
      cbn [fst snd]; [|discriminate].
    fetch_leaf.
  - fetch_leaf.
Qed.

(** [get_recent_game_logs] returns: its handler does. *)
Lemma get_recent_game_logs_total {World} (env : environment World)
    player_name num_games (s : list event * World) :
  exists r s',
    Collector.get_recent_game_logs env player_name num_games s = (Return r, s').
Proof.
  unfold Collector.get_recent_game_logs, Act.try_except.
  match goal with |- context [match ?m with _ => _ end] => destruct m as [[r|e] s'] end.
  - eexists _, _. reflexivity.
  - eexists _, _. reflexivity.
Qed.

(** X11. [get_recent_game_logs] never raises, whatever the player search
    and the stats provider do: it returns [None] or a frame, a frame it
    returns has at least one row, and no more than [num_games] rows when
    [num_games] is not negative; asked for no game it returns [None]. *)
Theorem get_recent_game_logs_returns_some_rows {World} (env : environment World)
    player_name num_games (s : list event * World) :
  exists r s',
    Collector.get_recent_game_logs env player_name num_games s = (Return r, s') /\
    (forall df, r = Some df ->
       nrows df <> 0%nat /\ (0 <= num_games -> Z.of_nat (nrows df) <= num_games)) /\
    (num_games = 0 -> r = None).
Proof.
  unfold Collector.get_recent_game_logs, Act.try_except.
  destruct (get_player_id_total env player_name s) as (pid & new & Hid).
  rewrite (bind_Return _ _ _ _ _ Hid).
  assert (Hfetch : forall id,
             exists r s',
               match Collector.fetch_game_logs env player_name num_games id
                       ((s.1 ++ new)%list, s.2) with
               | (Return a, s') => (Return a, s')
               | (Throw e, s') =>
                   Act.bind
                     (Act.emit (Caught ("Error retrieving game logs for "
                                          +:+ player_name +:+ ": ") e))
                     (fun _ => Act.ret None) s'
               end = (Return r, s') /\
               (forall df : DataFrame, r = Some df ->
                  nrows df <> 0%nat
                  /\ (0 <= num_games -> Z.of_nat (nrows df) <= num_games)) /\
               (num_games = 0 -> r = None)).
  { intros id.
    destruct (Collector.fetch_game_logs env player_name num_games id
                ((s.1 ++ new)%list, s.2)) as [[r|e] s'] eqn:E.
    - exists r, s'. split; [reflexivity|].
      exact (fetch_game_logs_Return env player_name num_games id _ _ r E).
    - eexists None, _. split; [reflexivity|].
      split; [discriminate|reflexivity]. }
  destruct pid as [[|p|p]|].
  - eexists None, _. split; [reflexivity|]. split; [discriminate|reflexivity].
  - apply Hfetch.
  - apply Hfetch.
  - eexists None, _. split; [reflexivity|]. split; [discriminate|reflexivity].
Qed.

Lemma nrows_head_ge n df :
  0 <= n <= Z.of_nat (nrows df) -> nrows (head n df) = Z.to_nat n.
Proof.
  intros Hn. unfold head. cbn [nrows].
  destruct (0 <=? n)%Z eqn:E; [|apply Z.leb_gt in E; lia].
  apply Nat.min_l. lia.
Qed.

(** X12. Once the player is found and the provider has answered for the
    season under way, [get_recent_game_logs] asks for the previous season
    exactly when that answer has fewer than [num_games] rows.  With enough
    rows it returns the first [num_games] of them and the provider is left
    as that one request left it; with too few, the rows of the previous
    season come after those of the season under way, and the first
    [num_games] of the whole are returned. *)
Theorem previous_season_asked_for_when_short {World} (env : environment World)
    player_name num_games pid (s : list event * World) new df w3 :
  Collector.get_player_id env player_name s
  = (Return (Some pid), ((s.1 ++ new)%list, s.2)) ->
  pid <> 0 ->
  let year := (now env s.2).1.1 in
  let w1 := (now env s.2).2 in
  let month := (now env w1).1.2 in
  let w2 := (now env w1).2 in
  PlayerGameLog env pid (season_of year month) w2 = (Return df, w3) ->
  (0 < num_games <= Z.of_nat (nrows df) ->
   Collector.get_recent_game_logs env player_name num_games s
   = (Return (Some (head num_games df)), ((s.1 ++ new)%list, w3)) /\
   forall c v, getitem df c = Ok v ->
               getitem (head num_games df) c = Ok (firstn (Z.to_nat num_games) v)) /\
  (Z.of_nat (nrows df) < num_games ->
   forall prev prev_df w4,
     prev_season_of (season_of year month) = Return prev ->
     PlayerGameLog env pid prev w3 = (Return prev_df, w4) ->
     (nrows df + nrows prev_df)%nat <> 0%nat ->
     Collector.get_recent_game_logs env player_name num_games s
     = (Return (Some (head num_games (concat df prev_df))), ((s.1 ++ new)%list, w4)) /\
     forall c v v', getitem df c = Ok v -> getitem prev_df c = Ok v' ->
                    getitem (head num_games (concat df prev_df)) c
                    = Ok (firstn (Z.to_nat num_games) (v ++ v')%list)).
Proof.
  intros Hid Hpid year w1 month w2 Hreq.
  assert (Hrun : Collector.get_recent_game_logs env player_name num_games s
                 = match Collector.fetch_game_logs env player_name num_games pid
                           ((s.1 ++ new)%list, s.2) with
                   | (Return a, s') => (Return a, s')
                   | (Throw e, s') =>
                       Act.bind
                         (Act.emit (Caught ("Error retrieving game logs for "
                                              +:+ player_name +:+ ": ") e))
                         (fun _ => Act.ret None) s'
                   end).
  { unfold Collector.get_recent_game_logs, Act.try_except.
    rewrite (bind_Return _ _ _ _ _ Hid).
    destruct pid as [|p|p]; [contradiction|reflexivity|reflexivity]. }
  assert (Hfetch : Collector.fetch_game_logs env player_name num_games pid
                     ((s.1 ++ new)%list, s.2)
                   = Act.bind
                       (if (Z.of_nat (nrows df) <? num_games)%Z
                        then
                          Act.bind (Act.lift (prev_season_of (season_of year month)))
                            (fun prev_season =>
                               Act.bind (Act.call (PlayerGameLog env pid prev_season))
                                 (fun prev_df => Act.ret (concat df prev_df)))
                        else Act.ret df)
                       (fun df =>
                          if Nat.eqb (nrows (head num_games df)) 0
                          then
                            Act.bind
                              (Act.emit (Logged (LogWarning
                                 ("No game logs found for player: " +:+ player_name))))
                              (fun _ => Act.ret None)
                          else Act.ret (Some (head num_games df)))
                       ((s.1 ++ new)%list, w3)).
  { unfold Collector.fetch_game_logs.
    unfold Act.bind at 1, Act.call at 1. cbn [fst snd].
    unfold Act.bind at 1, Act.call at 1. cbn [fst snd].
    fold year w1. fold month w2. cbv zeta.
    unfold Act.bind at 1, Act.call at 1. cbn [fst snd].
    rewrite Hreq. reflexivity. }
  rewrite Hrun, Hfetch. split.
  - intros Hn.
    assert (E : (Z.of_nat (nrows df) <? num_games)%Z = false)
      by (apply Z.ltb_ge; lia).
    rewrite E. unfold Act.bind, Act.ret.
    assert (E0 : Nat.eqb (nrows (head num_games df)) 0 = false).
    { apply Nat.eqb_neq. rewrite nrows_head_ge by lia. lia. }
    rewrite E0. split; [reflexivity|].
    intros c v Hv. apply getitem_head; [lia|exact Hv].
  - intros Hn prev prev_df w4 Hprev Hreq2 Hrows.
    assert (E : (Z.of_nat (nrows df) <? num_games)%Z = true)
      by (apply Z.ltb_lt; lia).
    rewrite E. unfold Act.bind, Act.ret, Act.lift, Act.call. cbn [fst snd].
    rewrite Hprev, Hreq2. cbn [fst snd].
    assert (E0 : Nat.eqb (nrows (head num_games (concat df prev_df))) 0 = false).
    { apply Nat.eqb_neq. unfold head, concat. cbn [nrows].
      destruct (0 <=? num_games)%Z eqn:E1; [|apply Z.leb_gt in E1; lia].
      lia. }
    rewrite E0. split; [reflexivity|].
    intros c v v' Hv Hv'. apply getitem_head; [lia|].
    apply getitem_concat; assumption.
Qed.

Lemma previous_season_asked_for_when_short_witness :
  Collector.get_player_id sample_env "LeBron James" ([], [])
  = (Return (Some 2544), ([], [])) /\
  PlayerGameLog sample_env 2544 "2024-25" [] = (Return three_games, ["2024-25"]) /\
  Collector.get_recent_game_logs sample_env "LeBron James" 2 ([], [])
  = (Return (Some (head 2 three_games)), ([], ["2024-25"])) /\
  Collector.get_recent_game_logs sample_env "LeBron James" 4 ([], [])
  = (Return (Some (head 4 (concat three_games two_games_one_date))),
     ([], ["2024-25"; "2023-24"])) /\
  getitem (head 4 (concat three_games two_games_one_date)) "GAME_ID"
  = Ok [Str "A"; Str "B"; Str "C"; Str "A"].
Proof.
  split; [reflexivity|]. split; [reflexivity|].
  destruct (previous_season_asked_for_when_short sample_env "LeBron James" 2 2544
              ([], []) [] three_games ["2024-25"]) as [H2 _];
    [reflexivity|discriminate|reflexivity|].
  destruct (previous_season_asked_for_when_short sample_env "LeBron James" 4 2544
              ([], []) [] three_games ["2024-25"]) as [_ H4];
    [reflexivity|discriminate|reflexivity|].
  split; [apply H2; cbn; lia|].
  destruct (H4 ltac:(cbn; lia) "2023-24" two_games_one_date ["2024-25"; "2023-24"])
    as [H4a H4b]; [reflexivity|reflexivity|discriminate|].
  split; [exact H4a|].
  apply (H4b "GAME_ID" [Str "A"; Str "B"; Str "C"] [Str "A"; Str "B"]); reflexivity.
Defined.

(** ** [get_player_stats] *)

Lemma project_raises argsort player_stats e :
  project argsort player_stats = Raise e ->
  e = KeyError "GAME_DATE" \/ e = TypeError.
Proof.
  intros Hp. destruct (has_column player_stats "GAME_DATE") eqn:Hh.
  - rewrite has_column_assoc in Hh.
    destruct (assoc "GAME_DATE" (cols player_stats)) as [dates|] eqn:E;
      [|discriminate Hh].
    assert (Hd : getitem player_stats "GAME_DATE" = Ok dates)
      by (unfold getitem; rewrite E; reflexivity).
    rewrite (project_dated _ _ _ Hd) in Hp.
    destruct (comparable (reverse (present dates))); [discriminate Hp|].
    injection Hp as <-. right. reflexivity.
  - rewrite (project_no_date _ _ Hh) in Hp. injection Hp as <-. left. reflexivity.
Qed.

(** [get_player_stats] in one equation, given what [get_recent_game_logs]
    returns: [None] with a warning, or what [deriveTimeSeriesTable] makes of
    the game logs, its records added to the log. *)
Lemma get_player_stats_run {World} (env : environment World)
    player_name num_games (s s1 : list event * World) r :
  Collector.get_recent_game_logs env player_name num_games
    ((s.1 ++ [Logged (LogInfo ("Retrieving stats for player: " +:+ player_name))])%list,
     s.2) = (Return r, s1) ->
  Collector.get_player_stats env player_name num_games s
  = match r with
    | None =>
        (Return None,
         ((s1.1 ++ [Logged (LogWarning
                      ("No game logs found for player: " +:+ player_name))])%list,
          s1.2))
    | Some game_logs =>
        match deriveTimeSeriesTable (to_numeric_str env) (py_float env)
                (argsort env) game_logs [] with
        | (Ok filtered_stats, records) =>
            (Return (Some filtered_stats),
             (((s1.1 ++ (Logged <$> records))
                 ++ [Logged (LogInfo ("Successfully retrieved stats for player: "
                                        +:+ player_name))])%list, s1.2))
        | (Raise e, records) =>
            (Throw (Py e), ((s1.1 ++ (Logged <$> records))%list, s1.2))
        end
    end.
Proof.
  intros Hlogs. unfold Collector.get_player_stats.
  unfold Act.bind at 1, Act.emit at 1.
  rewrite (bind_Return _ _ _ _ _ Hlogs).
  destruct r as [game_logs|]; [|reflexivity].
  rewrite deriveTimeSeriesTable_eq.
  unfold Act.bind, Act.pipeline, Act.emit, Act.ret, Log.lift. cbn [fst snd].
  rewrite calculate_advanced_metrics_eq.
  destruct (derive (py_float env) (cleaned (to_numeric_str env) game_logs))
    as [ps|e]; cbn [fst snd].
  - destruct (project (argsort env) ps) as [out|e'];
      cbn [fst snd fmap list_fmap]; rewrite app_nil_r; reflexivity.
  - destruct (project (argsort env) game_logs) as [out|e'];
      cbn [fst snd fmap list_fmap]; rewrite app_nil_r; reflexivity.
Qed.

(** The exceptions that leave [get_player_stats] are those of [project]. *)
Lemma get_player_stats_Throw {World} (env : environment World)
    player_name num_games (s s' : list event * World) e :
  Collector.get_player_stats env player_name num_games s = (Throw e, s') ->
  e = Py (KeyError "GAME_DATE") \/ e = Py TypeError.
Proof.
  destruct (get_recent_game_logs_total env player_name num_games
              ((s.1 ++ [Logged (LogInfo ("Retrieving stats for player: "
                                           +:+ player_name))])%list, s.2))
    as (r & s1 & Hlogs).
  rewrite (get_player_stats_run env player_name num_games s s1 r Hlogs).
  clear Hlogs. revert e s'.
  destruct r as [game_logs|];
    [|intros e s' H; exact (False_ind _ (Return_is_not_Throw _ _ _ _ H))].
  rewrite deriveTimeSeriesTable_eq, calculate_advanced_metrics_eq.
  destruct (derive (py_float env) (cleaned (to_numeric_str env) game_logs))
    as [ps|e0].
  - destruct (project (argsort env) ps) as [out|e'] eqn:Ep;
      intros e s' H; [exact (False_ind _ (Return_is_not_Throw _ _ _ _ H))|].
    apply Throw_inj in H. subst e.
    destruct (project_raises _ _ _ Ep) as [-> | ->]; [left|right]; reflexivity.
  - destruct (project (argsort env) game_logs) as [out|e'] eqn:Ep;
      intros e s' H; [exact (False_ind _ (Return_is_not_Throw _ _ _ _ H))|].
    apply Throw_inj in H. subst e.
    destruct (project_raises _ _ _ Ep) as [-> | ->]; [left|right]; reflexivity.
Qed.

(** X13. [get_player_stats] is [deriveTimeSeriesTable] applied to what
    [get_recent_game_logs] returns: [None] with one more warning when there
    are no game logs, else the table and the records of the enrichment.
    The only exceptions that leave it are those of the sort by date: the
    [KeyError] of a missing GAME_DATE column and the [TypeError] of dates
    that cannot be compared. *)
Theorem get_player_stats_raises_only_for_dates {World} (env : environment World)
    player_name num_games (s : list event * World) :
  exists r s1,
    Collector.get_recent_game_logs env player_name num_games
      ((s.1 ++ [Logged (LogInfo ("Retrieving stats for player: "
                                   +:+ player_name))])%list, s.2)
    = (Return r, s1) /\
    Collector.get_player_stats env player_name num_games s
    = match r with
      | None =>
          (Return None,
           ((s1.1 ++ [Logged (LogWarning
                        ("No game logs found for player: " +:+ player_name))])%list,
            s1.2))
      | Some game_logs =>
          match deriveTimeSeriesTable (to_numeric_str env) (py_float env)
                  (argsort env) game_logs [] with
          | (Ok filtered_stats, records) =>
              (Return (Some filtered_stats),
               (((s1.1 ++ (Logged <$> records))
                   ++ [Logged (LogInfo ("Successfully retrieved stats for player: "
                                          +:+ player_name))])%list, s1.2))
          | (Raise e, records) =>
              (Throw (Py e), ((s1.1 ++ (Logged <$> records))%list, s1.2))
          end
      end /\
    forall e s', Collector.get_player_stats env player_name num_games s = (Throw e, s') ->
                 e = Py (KeyError "GAME_DATE") \/ e = Py TypeError.
Proof.
  destruct (get_recent_game_logs_total env player_name num_games
              ((s.1 ++ [Logged (LogInfo ("Retrieving stats for player: "
                                           +:+ player_name))])%list, s.2))
    as (r & s1 & Hlogs).
  exists r, s1. split; [exact Hlogs|].
  split; [exact (get_player_stats_run env player_name num_games s s1 r Hlogs)|].
  intros e s' H. exact (get_player_stats_Throw env player_name num_games s s' e H).
Qed.

(** X14. When the game logs the provider sent have a GAME_DATE column of
    strings, [get_player_stats] returns a table, whether or not the
    enrichment went through: the dates of the table are those of the game
    logs in the order of the sort, and the last record logged says the
    stats were retrieved. *)
Theorem get_player_stats_returns_a_table_for_dated_logs {World}
    (env : environment World) player_name num_games (s s1 : list event * World)
    game_logs dates :
  Collector.get_recent_game_logs env player_name num_games
    ((s.1 ++ [Logged (LogInfo ("Retrieving stats for player: " +:+ player_name))])%list,
     s.2) = (Return (Some game_logs), s1) ->
  getitem game_logs "GAME_DATE" = Ok dates ->
  forallb is_str dates = true ->
  exists out log',
    Collector.get_player_stats env player_name num_games s
    = (Return (Some out),
       ((log' ++ [Logged (LogInfo ("Successfully retrieved stats for player: "
                                     +:+ player_name))])%list, s1.2)) /\
    getitem out "GAME_DATE" = Ok (take (indexer_of (argsort env) dates) dates).
Proof.
  intros Hlogs Hd Hs.
  rewrite (get_player_stats_run env player_name num_games s s1 _ Hlogs).
  destruct (dated_input_gives_a_table (to_numeric_str env) (py_float env)
              (argsort env) game_logs dates [] Hd Hs) as (out & records & -> & Hout).
  exists out. eexists. split; [reflexivity|exact Hout].
Qed.

Lemma get_player_stats_returns_a_table_for_dated_logs_witness :
  Collector.get_recent_game_logs sample_env "LeBron James" 2
    ([Logged (LogInfo "Retrieving stats for player: LeBron James")], [])
  = (Return (Some (head 2 three_games)),
     ([Logged (LogInfo "Retrieving stats for player: LeBron James")], ["2024-25"])) /\
  getitem (head 2 three_games) "GAME_DATE" = Ok [Str "2024-01-01"; Str "2024-01-05"] /\
  forallb is_str [Str "2024-01-01"; Str "2024-01-05"] = true /\
  exists out log',
    Collector.get_player_stats sample_env "LeBron James" 2 ([], [])
    = (Return (Some out),
       ((log' ++ [Logged (LogInfo
                    "Successfully retrieved stats for player: LeBron James")])%list,
        ["2024-25"])) /\
    getitem out "GAME_DATE"
    = Ok (take (indexer_of argsort_stable [Str "2024-01-01"; Str "2024-01-05"])
            [Str "2024-01-01"; Str "2024-01-05"]).
Proof.
  split; [vm_compute; reflexivity|].
  split; [vm_compute; reflexivity|].
  split; [reflexivity|].
  apply (get_player_stats_returns_a_table_for_dated_logs sample_env
           "LeBron James" 2 ([], [])
           ([Logged (LogInfo "Retrieving stats for player: LeBron James")],
            ["2024-25"])
           (head 2 three_games) [Str "2024-01-01"; Str "2024-01-05"]);
    vm_compute; reflexivity.
Defined.

(** ** No game records *)






(** ** [get_team_players_stats] *)

Lemma keys_dict_set {V} k (v : V) d :
  (dict_set String.eqb k v d).*1 = add_label k d.*1.
Proof.
  unfold add_label. induction d as [|[k0 v0] d IH]; [reflexivity|].
  cbn [dict_set]. rewrite !fmap_cons. cbn [fst existsb].
  destruct (String.eqb k k0) eqn:E; [reflexivity|].
  rewrite fmap_cons. cbn [fst orb]. rewrite IH.
  destruct (existsb (String.eqb k) d.*1); reflexivity.
Qed.

Lemma NoDup_add_label k cs : NoDup cs -> NoDup (add_label k cs).
Proof.
  intros Hnd. unfold add_label.
  destruct (existsb (String.eqb k) cs) eqn:E; [exact Hnd|].
  apply NoDup_app. split; [exact Hnd|]. split; [|apply NoDup_singleton].
  intros x Hx Hk. apply list_elem_of_singleton in Hk. subst x.
  apply existsb_eqb_elem in Hx. congruence.
Qed.

Lemma length_add_label k cs : (length (add_label k cs) <= S (length cs))%nat.
Proof.
  unfold add_label. destruct (existsb (String.eqb k) cs); [lia|].
  rewrite length_app. cbn. lia.
Qed.

Lemma elem_of_dict_set {V} k (v : V) d k' v' :
  (k', v') ∈ dict_set String.eqb k v d -> (k' = k /\ v' = v) \/ (k', v') ∈ d.
Proof.
  induction d as [|[k0 v0] d IH]; cbn [dict_set].
  - intros H. apply list_elem_of_singleton in H. injection H as -> ->. left. tauto.
  - destruct (String.eqb k k0) eqn:E.
    + apply String.eqb_eq in E. subst k0. intros H.
      apply elem_of_cons in H as [H|H].
      * injection H as -> ->. left. tauto.
      * right. right. exact H.
    + intros H. apply elem_of_cons in H as [H|H].
      * right. rewrite H. left.
      * destruct (IH H) as [?|?]; [left; assumption|right; right; assumption].
Qed.

(** One round of the loop leaves the accumulator as it is, or stores the
    table that is not empty of a player who is asked for. *)
Lemma team_player_Return {World} (env : environment World) player acc
    (s s' : list event * World) acc' :
  Collector.team_player env player acc s = (Return acc', s') ->
  acc' = acc \/
  exists name table,
    get player "name" = Some name /\ asked_for player = true /\
    empty table = false /\ acc' = dict_set String.eqb name table acc.
Proof.
  unfold Collector.team_player, asked_for.
  destruct (get player "name") as [[|a name]|] eqn:En;
    try (intros H; apply Return_inj in H as [<- _]; left; reflexivity).
  cbn [truthy andb].
  destruct (truthy (get player "status")
            && negb (bool_decide (get player "status" = Some "active"))) eqn:Ec.
  - intros H. apply bind_Return_inv in H as (u & s1 & _ & H).
    apply Return_inj in H as [<- _]. left. reflexivity.
  - intros H. apply bind_Return_inv in H as (stats & s1 & _ & H).
    destruct stats as [table|]; [|apply Return_inj in H as [<- _]; left; reflexivity].
    destruct (empty table) eqn:Ee; cbn [negb] in H.
    + apply Return_inj in H as [<- _]. left. reflexivity.
    + apply Return_inj in H as [<- _]. right. exists (String a name), table.
      repeat split; reflexivity || assumption.
Qed.

(** What the loop of [get_team_players_stats] has stored when it ends. *)
Lemma team_loop_spec {World} (env : environment World) lineup
    (s s1 : list event * World) r :
  Act.for_each lineup (Collector.team_player env) [] s = (Return r, s1) ->
  NoDup r.*1 /\
  (length r <= length lineup)%nat /\
  forall name table,
    (name, table) ∈ r ->
    empty table = false /\
    exists player,
      player ∈ lineup /\ get player "name" = Some name /\ asked_for player = true.
Proof.
  intros Hloop.
  set (I := fun (seen : list dict) (acc : list (string * DataFrame)) =>
              NoDup acc.*1 /\ (length acc <= length seen)%nat /\
              forall name table,
                (name, table) ∈ acc ->
                empty table = false /\
                exists player,
                  player ∈ seen /\ get player "name" = Some name
                  /\ asked_for player = true).
  change (I lineup r).
  apply (for_each_invariant I (Collector.team_player env) lineup) with
    (seen := []) (acc := []) (s := s) (s' := s1); [| |exact Hloop].
  - intros seen x acc st acc' st' (Hnd & Hlen & Hall) Hstep.
    apply team_player_Return in Hstep
      as [-> | (name & table & Hname & Hasked & Hempty & ->)].
    + split; [exact Hnd|]. split; [rewrite length_app; cbn; lia|].
      intros name table Hin. destruct (Hall name table Hin) as (He & p & Hp & Hrest).
      split; [exact He|]. exists p. split; [|exact Hrest].
      apply elem_of_app. left. exact Hp.
    + split; [rewrite keys_dict_set; apply NoDup_add_label; exact Hnd|]. split.
      * rewrite length_app. cbn [length].
        rewrite <- (length_fmap fst (dict_set String.eqb name table acc)).
        rewrite keys_dict_set.
        pose proof (length_add_label name acc.*1) as Hl.
        rewrite length_fmap in Hl. lia.
      * intros name' table' Hin. apply elem_of_dict_set in Hin as [[-> ->]|Hin].
        -- split; [exact Hempty|]. exists x. split; [|split; assumption].
           apply elem_of_app. right. left.
        -- destruct (Hall name' table' Hin) as (He & p & Hp & Hrest).
           split; [exact He|]. exists p. split; [|exact Hrest].
           apply elem_of_app. left. exact Hp.
  - split; [constructor|]. split; [cbn; lia|].
    intros name table Hin. inversion Hin.
Qed.

(** [get_team_players_stats] returns what its loop stored. *)
Lemma get_team_players_stats_Return {World} (env : environment World)
    team_name lineup (s s' : list event * World) team_stats :
  Collector.get_team_players_stats env team_name lineup s = (Return team_stats, s') ->
  exists s1,
    Act.for_each lineup (Collector.team_player env) [] s = (Return team_stats, s1).
Proof.
  intros Hrun. unfold Collector.get_team_players_stats in Hrun.
  apply bind_Return_inv in Hrun as (r & s1 & Hloop & Hrest).
  apply bind_Return_inv in Hrest as (u & s2 & _ & Hret).
  apply Return_inj in Hret as [<- _]. exists s1. exact Hloop.
Qed.

(** X15. The [dict] [get_team_players_stats] returns has at most one entry
    for each player of the lineup; each key is the name of a player of the
    lineup who is asked for (a name that is not empty, a status that is
    missing, empty or exactly ['active']), and no table in it is empty: a
    player without a name, a player with any other status and a player
    without game logs are left out. *)
Theorem team_stats_hold_the_players_asked_for {World} (env : environment World)
    team_name lineup (s s' : list event * World) team_stats :
  Collector.get_team_players_stats env team_name lineup s = (Return team_stats, s') ->
  NoDup team_stats.*1 /\
  (length team_stats <= length lineup)%nat /\
  forall name table,
    (name, table) ∈ team_stats ->
    empty table = false /\
    exists player,
      player ∈ lineup /\ get player "name" = Some name /\ asked_for player = true.
Proof.
  intros Hrun. apply get_team_players_stats_Return in Hrun as (s1 & Hloop).
  exact (team_loop_spec env lineup s s1 team_stats Hloop).
Qed.

Lemma team_stats_hold_the_players_asked_for_witness :
  exists team_stats s',
    Collector.get_team_players_stats sample_env (Some "Warriors") sample_lineup
      ([], []) = (Return team_stats, s') /\
    team_stats.*1 = ["LeBron James"; "Seth Curry"] /\
    NoDup team_stats.*1 /\
    (length team_stats <= length sample_lineup)%nat /\
    forall name table,
      (name, table) ∈ team_stats ->
      empty table = false /\
      exists player,
        player ∈ sample_lineup /\ get player "name" = Some name
        /\ asked_for player = true.
Proof.
  eexists _, _. split; [vm_compute; reflexivity|].
  split; [vm_compute; reflexivity|].
  eapply (team_stats_hold_the_players_asked_for sample_env (Some "Warriors")
            sample_lineup ([], [])).
  vm_compute. reflexivity.
Defined.

(** X16. A lineup in which nobody is asked for costs no request: the
    [dict] returned is empty and what lies outside the collector is as it
    was; only the log has grown. *)
Theorem nobody_asked_for_costs_no_request {World} (env : environment World)
    team_name lineup (s : list event * World) :
  forallb (fun player => negb (asked_for player)) lineup = true ->
  exists new,
    Collector.get_team_players_stats env team_name lineup s
    = (Return [], ((s.1 ++ new)%list, s.2)).
Proof.
  intros Hall.
  assert (Hloop : forall acc (st : list event * World),
             exists new,
               Act.for_each lineup (Collector.team_player env) acc st
               = (Return acc, ((st.1 ++ new)%list, st.2))).
  { induction lineup as [|player lineup IH]; intros acc st.
    - exists []. rewrite app_nil_r. destruct st. reflexivity.
    - cbn [forallb] in Hall. apply andb_prop in Hall as [Hp Hrest].
      cbn [Act.for_each].
      assert (Hstep : exists new,
                 Collector.team_player env player acc st
                 = (Return acc, ((st.1 ++ new)%list, st.2))).
      { unfold Collector.team_player. unfold asked_for in Hp.
        destruct (get player "name") as [[|a name]|];
          try (exists []; rewrite app_nil_r; destruct st; reflexivity).
        cbn [truthy andb] in Hp. apply negb_true_iff, negb_false_iff in Hp.
        rewrite Hp. eexists [_]. reflexivity. }
      destruct Hstep as (new1 & Hstep).
      rewrite (bind_Return _ _ _ _ _ Hstep).
      destruct (IH Hrest acc ((st.1 ++ new1)%list, st.2)) as (new2 & ->).
      exists (new1 ++ new2)%list. cbn [fst snd]. rewrite app_assoc. reflexivity. }
  unfold Collector.get_team_players_stats.
  destruct (Hloop [] s) as (new & Hrun).
  rewrite (bind_Return _ _ _ _ _ Hrun).
  eexists (new ++ [_])%list. unfold Act.bind, Act.emit, Act.ret. cbn [fst snd].
  rewrite app_assoc. reflexivity.
Qed.

Lemma nobody_asked_for_costs_no_request_witness :
  forallb (fun player => negb (asked_for player))
    [ [("name", Some "Stephen Curry"); ("status", Some "injured")];
      [("team", Some "Warriors")]; [("name", Some "")] ] = true /\
  exists new,
    Collector.get_team_players_stats sample_env (Some "Warriors")
      [ [("name", Some "Stephen Curry"); ("status", Some "injured")];
        [("team", Some "Warriors")]; [("name", Some "")] ] ([], [])
    = (Return [], (([] ++ new)%list, [])).
Proof.
  split; [reflexivity|].
  apply (nobody_asked_for_costs_no_request sample_env (Some "Warriors")
           [ [("name", Some "Stephen Curry"); ("status", Some "injured")];
             [("team", Some "Warriors")]; [("name", Some "")] ] ([], [])).
  reflexivity.
Defined.

(** ** [get_game_players_stats] and [collect_stats_for_todays_games] *)

Ltac run_step H :=
  let a := fresh "a" in
  let st := fresh "st" in
  apply bind_Return_inv in H as (a & st & _ & H); cbv beta in H.

Lemma lift_Return {World A} (o : outcome A) (s s' : list event * World) a :
  Act.lift o s = (Return a, s') -> o = Return a.
Proof. unfold Act.lift. intros H. apply (f_equal fst) in H. exact H. Qed.

Lemma attribute_Return {World A} name (method : option A)
    (s s' : list event * World) f :
  Act.attribute name method s = (Return f, s') -> method = Some f /\ s' = s.
Proof.
  unfold Act.attribute. destruct method as [g|].
  - intros H. apply Return_inj in H as [-> ->]. split; reflexivity.
  - intros H. exact (False_ind _ (Return_is_not_Throw _ _ _ _ (eq_sym H))).
Qed.

Lemma call_Return {World A} (f : World -> outcome A * World)
    (s s' : list event * World) a :
  Act.call f s = (Return a, s') -> f s.2 = (Return a, s'.2).
Proof.
  unfold Act.call. intros H. destruct (f s.2) as [o w]. cbn [fst snd] in H.
  injection H as -> <-. reflexivity.
Qed.

(** X17. [get_game_players_stats] never raises, whatever the database and
    the provider do, and it returns all or nothing: the empty [dict], or,
    for the game the database found, a [dict] with the entry of its home
    team first and that of its away team after it (one entry when the two
    names are one).  Without a database it returns the empty [dict] and
    logs one error. *)
Theorem game_stats_are_all_or_nothing {World} (env : environment World)
    (db : option (database World)) game_id (s : list event * World) :
  exists r s',
    Collector.get_game_players_stats env db game_id s = (Return r, s') /\
    (r = [] \/
     exists d find_game game w home away home_stats away_stats,
       db = Some d /\ get_game d = Some find_game /\
       find_game game_id s.2 = (Return (Some game), w) /\
       item game "home_team" = Return home /\
       item game "away_team" = Return away /\
       r = dict_set (fun a b : value => bool_decide (a = b)) away away_stats
             [(home, home_stats)]) /\
    (db = None ->
     r = [] /\
     s' = ((s.1 ++ [Reported "Database connection not available"])%list, s.2)).
Proof.
  unfold Collector.get_game_players_stats. destruct db as [d|].
  - unfold Act.try_except.
    match goal with
    | |- context [match ?m s with _ => _ end] => destruct (m s) as [[r|e] s'] eqn:E
    end.
    + exists r, s'. split; [reflexivity|]. split; [|discriminate].
      apply bind_Return_inv in E as (find_game & s1 & Hattr & E). cbv beta in E.
      apply attribute_Return in Hattr as [Hattr ->].
      apply bind_Return_inv in E as (found & s2 & Hfound & E). cbv beta in E.
      apply call_Return in Hfound.
      destruct found as [[|kv game]|].
      * run_step E. apply Return_inj in E as [<- _]. left. reflexivity.
      * do 4 run_step E.
        apply bind_Return_inv in E as (home & s7 & Hh & E). cbv beta in E.
        run_step E.
        apply bind_Return_inv in E as (away & s9 & Ha & E). cbv beta in E.
        run_step E. apply Return_inj in E as [<- _].
        apply lift_Return in Hh, Ha.
        right. exists d, find_game, (kv :: game), s2.2, home, away.
        eexists _, _. repeat split; try reflexivity; assumption.
      * run_step E. apply Return_inj in E as [<- _]. left. reflexivity.
    + eexists [], _. split; [reflexivity|]. split; [left; reflexivity|discriminate].
  - eexists [], _. split; [reflexivity|]. split; [left; reflexivity|].
    intros _. split; reflexivity.
Qed.

(** X18. With the [Database] of the repository behind [self.db] nothing is
    ever collected: that class has no method [get_players_for_game] and no
    method [get_todays_games], so [get_game_players_stats] returns the empty
    [dict] for every game, whatever [get_game] finds, and
    [collect_stats_for_todays_games] returns 0 after logging the
    [AttributeError], without reading the database. *)
Theorem repository_database_collects_nothing {World} (env : environment World)
    (find_game : value -> World -> outcome (option dict) * World)
    game_id (s : list event * World) :
  (exists new,
     Collector.get_game_players_stats env (Some (Database find_game)) game_id s
     = (Return [], ((s.1 ++ new)%list, (find_game game_id s.2).2))) /\
  Collector.collect_stats_for_todays_games env (Some (Database find_game)) s
  = (Return 0,
     ((s.1 ++ [Caught "Error collecting stats for today's games: "
                 (AttributeError "get_todays_games")])%list, s.2)).
Proof.
  split; [|reflexivity].
  unfold Collector.get_game_players_stats, Database.
  cbn [get_game get_players_for_game].
  unfold Act.try_except, Act.bind, Act.attribute, Act.ret, Act.throw, Act.call,
    Act.emit. cbn [fst snd].
  destruct (find_game game_id s.2) as [[[[|kv game]|]|e] w]; cbn [fst snd];
    eexists [_]; reflexivity.
Qed.

(** The loop of [collect_stats_for_todays_games] returns: the count it
    started from plus the number of rounds that went through, having
    stopped at the first round that raised. *)
Lemma collect_loop_spec {World} (env : environment World) dbo (d : database World)
    games c (s : list event * World) :
  exists n s',
    Collector.collect_loop env dbo d games c s = (Return n, s') /\
    c <= n <= c + Z.of_nat (length games) /\
    (n < c + Z.of_nat (length games) ->
     exists log e,
       s'.1 = (log ++ [Caught "Error collecting stats for today's games: " e])%list).
Proof.
  revert c s. induction games as [|game games IH]; intros c s.
  - exists c, s. split; [reflexivity|]. cbn [length]. split; [lia|lia].
  - cbn [Collector.collect_loop].
    destruct (Collector.todays_game env dbo d game s) as [[gid|e] s1].
    + unfold Act.bind at 1, Act.emit at 1.
      destruct (IH (c + 1)
                  ((s1.1 ++ [Logged (LogInfo ("Processed stats for game: "
                                                +:+ show gid))])%list, s1.2))
        as (n & s' & Hrun & Hn & Hlast).
      exists n, s'. split; [exact Hrun|]. cbn [length].
      split; [lia|]. intros Hlt. apply Hlast. lia.
    + exists c. eexists. split; [reflexivity|]. cbn [length fst]. split; [lia|].
      intros _. eexists _, _. reflexivity.
Qed.

(** X19. [collect_stats_for_todays_games] never raises and returns a count
    that is not negative: 0 without a database, and else at most the number
    of games the database lists for today; it is less only when a round of
    the loop, or the listing itself, raised, and then the last record of the
    log is that error: the games after the one that failed are not
    processed. *)
Theorem collect_counts_the_games_before_a_failure {World} (env : environment World)
    (db : option (database World)) (s : list event * World) :
  exists n s',
    Collector.collect_stats_for_todays_games env db s = (Return n, s') /\
    0 <= n /\
    (db = None -> n = 0) /\
    (forall d todays_games games w,
       db = Some d -> get_todays_games d = Some todays_games ->
       todays_games s.2 = (Return games, w) ->
       n <= Z.of_nat (length games) /\
       (n < Z.of_nat (length games) ->
        exists log e,
          s'.1 = (log ++ [Caught "Error collecting stats for today's games: " e])%list)).
Proof.
  unfold Collector.collect_stats_for_todays_games. destruct db as [d|].
  - unfold Act.bind, Act.attribute.
    destruct (get_todays_games d) as [f|] eqn:Ef.
    + unfold Act.ret, Act.call. cbn [fst snd].
      destruct (f s.2) as [[games|e] w] eqn:Egames; cbn [fst snd].
      * destruct (collect_loop_spec env (Some d) d games 0 (s.1, w))
          as (n & s' & Hrun & Hn & Hlast).
        exists n, s'. split; [exact Hrun|]. split; [lia|]. split; [discriminate|].
        intros d' f' games' w' Hd Hf Hg. injection Hd as <-.
        rewrite Ef in Hf. injection Hf as <-. rewrite Egames in Hg.
        injection Hg as <- <-. split; [lia|]. intros Hlt. apply Hlast. lia.
      * exists 0. eexists. split; [reflexivity|]. split; [lia|].
        split; [discriminate|].
        intros d' f' games' w' Hd Hf Hg. injection Hd as <-.
        rewrite Ef in Hf. injection Hf as <-. rewrite Egames in Hg.
        discriminate Hg.
    + exists 0. eexists. split; [reflexivity|]. split; [lia|].
      split; [discriminate|].
      intros d' f' games' w' Hd Hf Hg. injection Hd as <-.
      rewrite Ef in Hf. discriminate Hf.
  - exists 0. eexists. split; [reflexivity|]. split; [lia|].
    split; [reflexivity|]. intros d f games w Hd. discriminate Hd.
Qed.

(** ** Enriching twice *)

Lemma fill_cell_idem c : fill_cell (fill_cell c) = fill_cell c.
Proof. unfold fill_cell at 1. rewrite isna_fill_cell. reflexivity. Qed.

Lemma clean_cell_idem tn c : clean_cell tn (clean_cell tn c) = clean_cell tn c.
Proof.
  assert (Hn : isna (clean_cell tn c) = false) by apply isna_fill_cell.
  destruct (clean_cell_is_Num tn c) as [x Hx]. rewrite Hx in Hn |- *.
  unfold clean_cell, fill_cell. rewrite Hn. reflexivity.
Qed.

Lemma assoc_absent k (l : list (string * list cell)) :
  k ∉ l.*1 -> assoc k l = None.
Proof.
  induction l as [|[k0 v0] l IH]; [reflexivity|].
  rewrite fmap_cons. cbn [fst assoc]. intros Hk.
  destruct (String.eqb k k0) eqn:E.
  - apply String.eqb_eq in E. subst k0. exfalso. apply Hk. left.
  - apply IH. intros Hin. apply Hk. right. exact Hin.
Qed.

(** Two lists of columns with the same labels, all distinct, and the same
    cells under each label are one list. *)
Lemma assoc_ext (l1 l2 : list (string * list cell)) :
  l1.*1 = l2.*1 -> NoDup l1.*1 ->
  (forall k, assoc k l1 = assoc k l2) -> l1 = l2.
Proof.
  revert l2. induction l1 as [|[k v1] l1 IH]; intros l2 Hk Hnd Hall.
  - destruct l2; [reflexivity|discriminate Hk].
  - destruct l2 as [|[k2 v2] l2]; [discriminate Hk|].
    rewrite !fmap_cons in Hk. cbn [fst] in Hk. injection Hk as <- Hk.
    rewrite fmap_cons in Hnd. cbn [fst] in Hnd.
    apply NoDup_cons in Hnd as [Hnot Hnd].
    pose proof (Hall k) as Hk0. cbn [assoc] in Hk0.
    rewrite String.eqb_refl in Hk0. injection Hk0 as <-.
    f_equal. apply IH; [exact Hk|exact Hnd|].
    intros k'. destruct (String.eqb k' k) eqn:E.
    + apply String.eqb_eq in E. subst k'.
      rewrite (assoc_absent k l1 Hnot). rewrite Hk in Hnot.
      rewrite (assoc_absent k l2 Hnot). reflexivity.
    + pose proof (Hall k') as Hk'. cbn [assoc] in Hk'. rewrite E in Hk'. exact Hk'.
Qed.

Lemma frame_ext (a b : DataFrame) :
  nrows a = nrows b -> columns a = columns b -> NoDup (columns a) ->
  (forall k, assoc k (cols a) = assoc k (cols b)) -> a = b.
Proof.
  destruct a as [na ca], b as [nb cb]. unfold columns. cbn [nrows cols].
  intros -> Hk Hnd Hall. f_equal. apply assoc_ext; assumption.
Qed.

Lemma NoDup_foldl_add_label ks cs :
  NoDup cs -> NoDup (foldl (fun cs k => add_label k cs) cs ks).
Proof.
  revert cs. induction ks as [|k ks IH]; intros cs Hnd; [exact Hnd|].
  cbn [foldl]. apply IH, NoDup_add_label, Hnd.
Qed.

Lemma add_label_present k cs : existsb (String.eqb k) cs = true -> add_label k cs = cs.
Proof. unfold add_label. intros ->. reflexivity. Qed.

Lemma existsb_add_label k k' cs :
  existsb (String.eqb k) (add_label k' cs)
  = existsb (String.eqb k) cs || String.eqb k k'.
Proof.
  unfold add_label. destruct (existsb (String.eqb k') cs) eqn:E.
  - destruct (String.eqb k k') eqn:E'; [|rewrite orb_false_r; reflexivity].
    apply String.eqb_eq in E'. subst k'. rewrite E. reflexivity.
  - rewrite existsb_app. cbn [existsb]. rewrite orb_false_r. reflexivity.
Qed.

(** Adding again labels that were added changes nothing. *)
Lemma foldl_add_label_again ks cs :
  (forall k, k ∈ ks -> existsb (String.eqb k) cs = true) ->
  foldl (fun cs k => add_label k cs) cs ks = cs.
Proof.
  induction ks as [|k ks IH]; intros Hall; [reflexivity|].
  cbn [foldl]. rewrite add_label_present by (apply Hall; left).
  apply IH. intros k' Hk'. apply Hall. right. exact Hk'.
Qed.

Lemma existsb_foldl_add_label ks cs k :
  existsb (String.eqb k) (foldl (fun cs k => add_label k cs) cs ks)
  = existsb (String.eqb k) cs || existsb (String.eqb k) ks.
Proof.
  revert cs. induction ks as [|k0 ks IH]; intros cs.
  - cbn. rewrite orb_false_r. reflexivity.
  - cbn [foldl existsb]. rewrite IH, existsb_add_label, orb_assoc. reflexivity.
Qed.

(** A derived column of the enriched frame does not depend on the frame the
    columns were added to. *)
Lemma assoc_enrich_derived a b MP FGA FGM FTA PTS OREB TOV AST STL BLK PF PM FTM DREB k :
  existsb (String.eqb k) derived_columns = true ->
  assoc k (cols (enrich a MP FGA FGM FTA PTS OREB TOV AST STL BLK PF PM FTM DREB))
  = assoc k (cols (enrich b MP FGA FGM FTA PTS OREB TOV AST STL BLK PF PM FTM DREB)).
Proof.
  unfold derived_columns. cbn [existsb].
  unfold enrich. cbv zeta. unfold setitem. cbn [cols].
  rewrite !assoc_set_lookup.
  destruct (String.eqb k "AST_TO_RATIO"); [reflexivity|].
  destruct (String.eqb k "USG_RATE"); [reflexivity|].
  destruct (String.eqb k "GAME_SCORE"); [reflexivity|].
  destruct (String.eqb k "DEF_RATING"); [reflexivity|].
  destruct (String.eqb k "OFF_RATING"); [reflexivity|].
  destruct (String.eqb k "POSS"); [reflexivity|].
  destruct (String.eqb k "PTS_PER_MIN"); [reflexivity|].
  destruct (String.eqb k "TS_PCT"); [reflexivity|].
  destruct (String.eqb k "FG_PCT"); [reflexivity|].
  destruct (String.eqb k "MINUTES_PLAYED"); [reflexivity|].
  intros H. discriminate H.
Qed.

(** Cleaning an enriched frame again leaves the columns that are not
    derived as the first cleaning left them. *)
Lemma assoc_cleaned_enrich tn df MP FGA FGM FTA PTS OREB TOV AST STL BLK PF PM FTM DREB k :
  existsb (String.eqb k) derived_columns = false ->
  assoc k (cols (cleaned tn
                   (enrich (cleaned tn df)
                      MP FGA FGM FTA PTS OREB TOV AST STL BLK PF PM FTM DREB)))
  = assoc k (cols (cleaned tn df)).
Proof.
  intros Hk. rewrite assoc_cleaned, (assoc_enrich_other _ _ _ _ _ _ _ _ _ _ _ _ _ _ _ _ Hk).
  rewrite assoc_cleaned.
  destruct (existsb (String.eqb k) numeric_cols);
    destruct (assoc k (cols df)) as [v|]; try reflexivity;
    cbn [fmap option_fmap option_map]; f_equal;
    rewrite <- list_fmap_compose; apply list_fmap_ext; intros i c _; cbn.
  - apply clean_cell_idem.
  - apply fill_cell_idem.
Qed.

Lemma numeric_ext a b k :
  assoc k (cols a) = assoc k (cols b) -> numeric a k = numeric b k.
Proof. unfold numeric, getitem. intros ->. reflexivity. Qed.

Lemma getitem_ext a b k :
  assoc k (cols a) = assoc k (cols b) -> getitem a k = getitem b k.
Proof. unfold getitem. intros ->. reflexivity. Qed.

Lemma Ok_inj {A} (a a' : A) (l l' : list log_record) :
  (Ok a, l) = (Ok a', l') -> a = a' /\ l = l'.
Proof. intros H. injection H as -> ->. split; reflexivity. Qed.

(** Enriching a frame [derive] returned gives that frame again. *)
Lemma derive_again tn pf df r :
  NoDup (columns df) ->
  derive pf (cleaned tn df) = Ok r ->
  derive pf (cleaned tn r) = Ok r.
Proof.
  intros Hnd Hd.
  apply derive_inv in Hd
    as (MIN & MP & FGA & FGM & FTA & PTS & OREB & TOV & AST & STL & BLK & PF
        & PM & FTM & DREB & HMIN & HMP & HFGA & HFGM & HFTA & HPTS & HOREB
        & HTOV & HAST & HSTL & HBLK & HPF & HPM & HFTM & HDREB & ->).
  set (d := cleaned tn df) in *.
  set (r := enrich d MP FGA FGM FTA PTS OREB TOV AST STL BLK PF PM FTM DREB).
  assert (Hbase : forall k, existsb (String.eqb k) derived_columns = false ->
                            assoc k (cols (cleaned tn r)) = assoc k (cols d))
    by (intros k Hk; apply assoc_cleaned_enrich; exact Hk).
  assert (Hnum : forall k v, existsb (String.eqb k) derived_columns = false ->
                             numeric d k = Ok v -> numeric (cleaned tn r) k = Ok v).
  { intros k v Hk Hv. rewrite (numeric_ext _ d k (Hbase k Hk)). exact Hv. }
  assert (Hmin : getitem (cleaned tn r) "MIN" = Ok MIN).
  { rewrite (getitem_ext _ d "MIN" (Hbase "MIN" eq_refl)). exact HMIN. }
  rewrite (derive_ok pf (cleaned tn r) MIN MP FGA FGM FTA PTS OREB TOV AST STL BLK
             PF PM FTM DREB Hmin HMP
             (Hnum "FGA" _ eq_refl HFGA) (Hnum "FGM" _ eq_refl HFGM)
             (Hnum "FTA" _ eq_refl HFTA) (Hnum "PTS" _ eq_refl HPTS)
             (Hnum "OREB" _ eq_refl HOREB) (Hnum "TOV" _ eq_refl HTOV)
             (Hnum "AST" _ eq_refl HAST) (Hnum "STL" _ eq_refl HSTL)
             (Hnum "BLK" _ eq_refl HBLK) (Hnum "PF" _ eq_refl HPF)
             (Hnum "PLUS_MINUS" _ eq_refl HPM) (Hnum "FTM" _ eq_refl HFTM)
             (Hnum "DREB" _ eq_refl HDREB)).
  f_equal.
  assert (Hcols : columns r = foldl (fun cs k => add_label k cs) (columns df)
                                derived_columns).
  { unfold r. rewrite columns_enrich. unfold d. rewrite columns_cleaned. reflexivity. }
  apply frame_ext.
  - rewrite !nrows_enrich. rewrite nrows_cleaned. unfold r.
    rewrite nrows_enrich. reflexivity.
  - rewrite columns_enrich, columns_cleaned, Hcols.
    apply foldl_add_label_again.
    intros k Hk. rewrite existsb_foldl_add_label.
    apply existsb_eqb_elem in Hk. rewrite Hk. apply orb_true_r.
  - rewrite columns_enrich, columns_cleaned, Hcols.
    apply NoDup_foldl_add_label, NoDup_foldl_add_label. exact Hnd.
  - intros k. destruct (existsb (String.eqb k) derived_columns) eqn:Hk.
    + unfold r. apply assoc_enrich_derived. exact Hk.
    + rewrite (assoc_enrich_other _ _ _ _ _ _ _ _ _ _ _ _ _ _ _ _ Hk).
      rewrite (Hbase k Hk). unfold r.
      rewrite (assoc_enrich_other _ _ _ _ _ _ _ _ _ _ _ _ _ _ _ _ Hk). reflexivity.
Qed.

(** X20. Enriching twice is enriching once: given a frame it returned, on
    labels that are distinct, [calculate_advanced_metrics] returns that
    frame again, cell for cell and column for column, whether the first
    call enriched its input or fell back on it. *)
Theorem enrichment_is_idempotent tn pf df log r log' :
  NoDup (columns df) ->
  calculate_advanced_metrics tn pf df log = (Ok r, log') ->
  exists log'', calculate_advanced_metrics tn pf r log' = (Ok r, log'').
Proof.
  intros Hnd Hrun.
  pose proof (calculate_advanced_metrics_eq tn pf df log) as E.
  rewrite Hrun in E.
  destruct (derive pf (cleaned tn df)) as [r1|e] eqn:Hd.
  - apply Ok_inj in E as [-> _].
    rewrite calculate_advanced_metrics_eq, (derive_again tn pf df r1 Hnd Hd).
    eexists. reflexivity.
  - apply Ok_inj in E as [-> _].
    rewrite calculate_advanced_metrics_eq, Hd. eexists. reflexivity.
Qed.

Lemma enrichment_is_idempotent_witness :
  NoDup (columns three_games) /\
  exists r log',
    calculate_advanced_metrics decimal_literal decimal_literal three_games []
    = (Ok r, log') /\
    fully_enriched r = true /\
    exists log'',
      calculate_advanced_metrics decimal_literal decimal_literal r log' = (Ok r, log'').
Proof.
  assert (Hnd : NoDup (columns three_games)).
  { apply (bool_decide_unpack (NoDup (columns three_games))). vm_compute. exact I. }
  split; [exact Hnd|].
  destruct (enrichment_succeeds decimal_literal decimal_literal three_games []
              eq_refl) as (r & _ & Hrun & Hf).
  exists r. eexists. split; [exact Hrun|]. split; [exact Hf|].
  exact (enrichment_is_idempotent decimal_literal decimal_literal three_games [] r _
           Hnd Hrun).
Defined.

(** ** Minutes, for every input *)

(** X21. MINUTES_PLAYED is the MIN column as coerced and zero-filled, in
    every row of every frame that has the base columns: the minutes lambda
    only ever sees numbers and returns them as they are.  A MIN cell that
    is a string [pd.to_numeric] does not read as a number, such as a time
    [MM:SS], comes out as 0 minutes. *)
Theorem minutes_played_is_the_coerced_minutes tn pf df log v :
  forallb (has_column df) base_columns = true ->
  getitem df "MIN" = Ok v ->
  exists r log',
    calculate_advanced_metrics tn pf df log = (Ok r, log') /\
    getitem r "MINUTES_PLAYED" = Ok (clean_cell tn <$> v) /\
    forall i s, v !! i = Some (Str s) -> tn s = None ->
                field r "MINUTES_PLAYED" i = Some 0%float.
Proof.
  intros H Hv.
  destruct (enrichment_succeeds tn pf df log H) as (r & Hd & Hc & _).
  exists r. eexists. split; [exact Hc|].
  apply derive_inv in Hd
    as (MIN & MP & FGA & FGM & FTA & PTS & OREB & TOV & AST & STL & BLK & PF
        & PM & FTM & DREB & HMIN & HMP & Hrest).
  do 13 (destruct Hrest as (_ & Hrest)). subst r.
  destruct (numeric_cleaned tn df "MIN" eq_refl) as (v' & Hv' & Hn).
  { rewrite has_column_assoc, (getitem_Ok_assoc _ _ _ Hv). reflexivity. }
  rewrite Hv in Hv'. injection Hv' as <-.
  apply numeric_getitem in Hn. rewrite Hn in HMIN. injection HMIN as <-.
  rewrite mapM_minutes_Num in HMP. injection HMP as <-.
  assert (Hcol : getitem (enrich (cleaned tn df) (clean_float tn <$> v) FGA FGM FTA
                            PTS OREB TOV AST STL BLK PF PM FTM DREB) "MINUTES_PLAYED"
                 = Ok (Num <$> (clean_float tn <$> v))).
  { unfold getitem, enrich. cbv zeta. unfold setitem. cbn [cols].
    rewrite !assoc_set_lookup. reflexivity. }
  split.
  - rewrite Hcol. f_equal. rewrite <- list_fmap_compose.
    apply list_fmap_ext. intros i c _. cbn. symmetry. apply clean_cell_Num.
  - intros i s Hi Hs. unfold field, numeric. rewrite Hcol. cbn [Res.bind].
    rewrite mapM_to_float_Num, list_lookup_fmap, Hi.
    cbn [fmap option_fmap option_map]. unfold clean_float.
    rewrite (clean_cell_unparsable tn s Hs). reflexivity.
Qed.

Lemma minutes_played_is_the_coerced_minutes_witness :
  forallb (has_column (sample_game (Str "32:30"))) base_columns = true /\
  getitem (sample_game (Str "32:30")) "MIN" = Ok [Str "32:30"] /\
  decimal_literal "32:30" = None /\
  exists r log',
    calculate_advanced_metrics decimal_literal decimal_literal
      (sample_game (Str "32:30")) [] = (Ok r, log') /\
    getitem r "MINUTES_PLAYED" = Ok (clean_cell decimal_literal <$> [Str "32:30"]) /\
    forall i s, [Str "32:30"] !! i = Some (Str s) -> decimal_literal s = None ->
                field r "MINUTES_PLAYED" i = Some 0%float.
Proof.
  split; [reflexivity|]. split; [reflexivity|]. split; [reflexivity|].
  apply (minutes_played_is_the_coerced_minutes decimal_literal decimal_literal
           (sample_game (Str "32:30")) [] [Str "32:30"]); reflexivity.
Defined.

(** ** An empty game log *)

Lemma empty_dated_input_gives_empty_table_witness :
  getitem no_games "GAME_DATE" = Ok [] /\
  exists out log',
    deriveTimeSeriesTable decimal_literal decimal_literal argsort_stable no_games []
    = (Ok out, log') /\
    nrows out = 0%nat /\
    forall k v, getitem out k = Ok v -> v = [].
Proof.
  split; [reflexivity|].
  apply (empty_dated_input_gives_empty_table decimal_literal decimal_literal
           argsort_stable no_games []).
  reflexivity.
Defined.

(** ** Players under their team *)

Lemma comprehension_Return {World A} (xs : list A) (cond : A -> outcome bool)
    (s s' : list event * World) r :
  Act.comprehension xs cond s = (Return r, s') ->
  forall x, x ∈ r -> x ∈ xs /\ cond x = Return true.
Proof.
  revert r s s'. induction xs as [|x0 xs IH]; intros r s s' H x Hx.
  - cbn in H. apply Return_inj in H as [<- _]. inversion Hx.
  - cbn [Act.comprehension] in H.
    apply bind_Return_inv in H as (b & s1 & Hb & H).
    apply bind_Return_inv in H as (rest & s2 & Hrest & H).
    apply Return_inj in H as [<- _].
    unfold Act.lift in Hb. apply (f_equal fst) in Hb. cbn [fst] in Hb.
    destruct b.
    + apply elem_of_cons in Hx as [->|Hx].
      * split; [left|exact Hb].
      * destruct (IH rest s1 s2 Hrest x Hx) as [Hin Hc]. split; [right; exact Hin|exact Hc].
    + destruct (IH rest s1 s2 Hrest x Hx) as [Hin Hc]. split; [right; exact Hin|exact Hc].
Qed.

Lemma team_condition (p game : dict) key team :
  match item p "team", item game key with
  | Return t, Return h => Return (bool_decide (t = h))
  | Throw e, _ | Return _, Throw e => Throw e
  end = Return true ->
  item game key = Return team -> item p "team" = Return team.
Proof.
  destruct (item p "team") as [t|e]; [|discriminate].
  destruct (item game key) as [h|e]; [|discriminate].
  intros H Hk. injection H as H. injection Hk as <-.
  apply bool_decide_eq_true in H. rewrite H. reflexivity.
Qed.

(** X22. In the [dict] [get_game_players_stats] returns every table stands
    under the team of its player: a key of the entry of a team is the name
    of one of the players the database listed for the game, a player who is
    asked for and whose ['team'] is that team, and the team is the home
    team or the away team of the game the database found. *)
Theorem game_stats_group_players_by_team {World} (env : environment World)
    (db : option (database World)) game_id (s s' : list event * World) r :
  Collector.get_game_players_stats env db game_id s = (Return r, s') ->
  forall team stats name table,
    (team, stats) ∈ r -> (name, table) ∈ stats ->
    exists d find_game game w list_players players w' player,
      db = Some d /\
      get_game d = Some find_game /\
      find_game game_id s.2 = (Return (Some game), w) /\
      get_players_for_game d = Some list_players /\
      list_players game_id w = (Return players, w') /\
      (item game "home_team" = Return team \/ item game "away_team" = Return team) /\
      player ∈ players /\
      get player "name" = Some name /\ asked_for player = true /\
      item player "team" = Return team.
Proof.
  unfold Collector.get_game_players_stats. destruct db as [d|].
  - unfold Act.try_except.
    match goal with
    | |- context [match ?m s with _ => _ end] => destruct (m s) as [[r0|e] s0] eqn:E
    end.
    + intros H. apply Return_inj in H as [<- _].
      apply bind_Return_inv in E as (find_game & s1 & Hattr & E). cbv beta in E.
      apply attribute_Return in Hattr as [Hattr ->].
      apply bind_Return_inv in E as (found & s2 & Hfound & E). cbv beta in E.
      apply call_Return in Hfound.
      destruct found as [[|kv game]|].
      * run_step E. apply Return_inj in E as [<- _].
        intros team stats name table Hin. inversion Hin.
      * apply bind_Return_inv in E as (list_players & s3 & Hattr' & E). cbv beta in E.
        apply attribute_Return in Hattr' as [Hattr' ->].
        apply bind_Return_inv in E as (players & s4 & Hplayers & E). cbv beta in E.
        apply call_Return in Hplayers.
        apply bind_Return_inv in E as (home_players & s5 & Hhome & E). cbv beta in E.
        apply bind_Return_inv in E as (away_players & s6 & Haway & E). cbv beta in E.
        apply bind_Return_inv in E as (home & s7 & Hh & E). cbv beta in E.
        apply bind_Return_inv in E as (home_stats & s8 & Hhs & E). cbv beta in E.
        apply bind_Return_inv in E as (away & s9 & Ha & E). cbv beta in E.
        apply bind_Return_inv in E as (away_stats & s10 & Has & E). cbv beta in E.
        apply Return_inj in E as [<- _].
        apply lift_Return in Hh, Ha.
        apply get_team_players_stats_Return in Hhs as (t1 & Hhs).
        apply get_team_players_stats_Return in Has as (t2 & Has).
        apply team_loop_spec in Hhs as (_ & _ & Hhs).
        apply team_loop_spec in Has as (_ & _ & Has).
        assert (Hhome' : forall name table,
                   (name, table) ∈ home_stats ->
                   exists player,
                     player ∈ players /\
                     get player "name" = Some name /\ asked_for player = true /\
                     item player "team" = Return home).
        { intros name table Hin.
          destruct (Hhs name table Hin) as (_ & p & Hp & Hn & Hq).
          destruct (comprehension_Return _ _ _ _ _ Hhome p Hp) as [Hin' Hc].
          exists p. split; [exact Hin'|]. split; [exact Hn|]. split; [exact Hq|].
          exact (team_condition p (kv :: game) "home_team" home Hc Hh). }
        assert (Haway' : forall name table,
                   (name, table) ∈ away_stats ->
                   exists player,
                     player ∈ players /\
                     get player "name" = Some name /\ asked_for player = true /\
                     item player "team" = Return away).
        { intros name table Hin.
          destruct (Has name table Hin) as (_ & p & Hp & Hn & Hq).
          destruct (comprehension_Return _ _ _ _ _ Haway p Hp) as [Hin' Hc].
          exists p. split; [exact Hin'|]. split; [exact Hn|]. split; [exact Hq|].
          exact (team_condition p (kv :: game) "away_team" away Hc Ha). }
        assert (Hfile : forall team stats name table,
                   (team = home /\ stats = home_stats)
                   \/ (team = away /\ stats = away_stats) ->
                   (name, table) ∈ stats ->
                   exists d0 find_game0 game0 w list_players0 players0 w' player,
                     Some d = Some d0 /\
                     get_game d0 = Some find_game0 /\
                     find_game0 game_id s.2 = (Return (Some game0), w) /\
                     get_players_for_game d0 = Some list_players0 /\
                     list_players0 game_id w = (Return players0, w') /\
                     (item game0 "home_team" = Return team
                      \/ item game0 "away_team" = Return team) /\
                     player ∈ players0 /\
                     get player "name" = Some name /\ asked_for player = true /\
                     item player "team" = Return team).
        { intros team stats name table Hcase Hin.
          assert (Hp : exists player,
                     player ∈ players /\
                     get player "name" = Some name /\ asked_for player = true /\
                     item player "team" = Return team).
          { destruct Hcase as [[-> ->]|[-> ->]];
              [exact (Hhome' name table Hin)|exact (Haway' name table Hin)]. }
          destruct Hp as (p & Hp1 & Hp2 & Hp3 & Hp4).
          exists d, find_game, (kv :: game), s2.2, list_players, players, s4.2, p.
          split; [reflexivity|]. split; [exact Hattr|]. split; [exact Hfound|].
          split; [exact Hattr'|]. split; [exact Hplayers|].
          split; [destruct Hcase as [[-> _]|[-> _]]; [left; exact Hh|right; exact Ha]|].
          repeat split; assumption. }
        intros team stats name table Hin Hin'. cbn [dict_set] in Hin.
        destruct (bool_decide (away = home)) eqn:Eq.
        -- apply list_elem_of_singleton in Hin. injection Hin as -> ->.
           apply bool_decide_eq_true in Eq.
           apply (Hfile home away_stats name table); [|exact Hin'].
           right. split; [symmetry; exact Eq|reflexivity].
        -- apply elem_of_cons in Hin as [Hin|Hin].
           ++ injection Hin as -> ->.
              apply (Hfile home home_stats name table); [|exact Hin'].
              left. split; reflexivity.
           ++ apply list_elem_of_singleton in Hin. injection Hin as -> ->.
              apply (Hfile away away_stats name table); [|exact Hin'].
              right. split; reflexivity.
      * run_step E. apply Return_inj in E as [<- _].
        intros team stats name table Hin. inversion Hin.
    + intros H. apply bind_Return_inv in H as (u & s1 & _ & H).
      apply Return_inj in H as [<- _].
      intros team stats name table Hin. inversion Hin.
  - intros H. apply bind_Return_inv in H as (u & s1 & _ & H).
    apply Return_inj in H as [<- _].
    intros team stats name table Hin. inversion Hin.
Qed.

Lemma game_stats_group_players_by_team_witness :
  exists r s',
    Collector.get_game_players_stats sample_env (Some sample_db) (Some "G1") ([], [])
    = (Return r, s') /\
    (fun entry : value * list (string * DataFrame) => (entry.1, entry.2.*1)) <$> r
    = [(Some "Lakers", ["LeBron James"]); (Some "Warriors", ["Seth Curry"])] /\
    forall team stats name table,
      (team, stats) ∈ r -> (name, table) ∈ stats ->
      exists d find_game game w list_players players w' player,
        Some sample_db = Some d /\
        get_game d = Some find_game /\
        find_game (Some "G1") [] = (Return (Some game), w) /\
        get_players_for_game d = Some list_players /\
        list_players (Some "G1") w = (Return players, w') /\
        (item game "home_team" = Return team \/ item game "away_team" = Return team) /\
        player ∈ players /\
        get player "name" = Some name /\ asked_for player = true /\
        item player "team" = Return team.
Proof.
  eexists _, _. split; [vm_compute; reflexivity|].
  split; [vm_compute; reflexivity|].
  eapply (game_stats_group_players_by_team sample_env (Some sample_db) (Some "G1")
            ([], [])).
  vm_compute. reflexivity.
Defined.

(** ** What leaves [get_team_players_stats] *)

Lemma bind_Throw_inv {World A B} (m : Act World A) (k : A -> Act World B)
    (s s' : list event * World) e :
  Act.bind m k s = (Throw e, s') ->
  m s = (Throw e, s') \/ exists a s1, m s = (Return a, s1) /\ k a s1 = (Throw e, s').
Proof.
  unfold Act.bind. destruct (m s) as [[a|e0] s1]; [right; eauto|].
  intros H. left. injection H as -> ->. reflexivity.
Qed.

Lemma for_each_Throw {World A S} (P : error -> Prop)
    (body : A -> S -> Act World S) xs :
  (forall x acc s e s', body x acc s = (Throw e, s') -> P e) ->
  forall acc s e s', Act.for_each xs body acc s = (Throw e, s') -> P e.
Proof.
  intros Hbody. induction xs as [|x xs IH]; intros acc s e s' H.
  - exact (False_ind _ (Return_is_not_Throw _ _ _ _ H)).
  - cbn [Act.for_each] in H. apply bind_Throw_inv in H as [H|(a & s1 & _ & H)].
    + exact (Hbody x acc s e s' H).
    + exact (IH a s1 e s' H).
Qed.

Lemma team_player_Throw {World} (env : environment World) player acc
    (s s' : list event * World) e :
  Collector.team_player env player acc s = (Throw e, s') ->
  e = Py (KeyError "GAME_DATE") \/ e = Py TypeError.
Proof.
  unfold Collector.team_player.
  destruct (get player "name") as [[|a name]|];
    try (intros H; exact (False_ind _ (Return_is_not_Throw _ _ _ _ H))).
  destruct (truthy (get player "status")
            && negb (bool_decide (get player "status" = Some "active"))).
  - intros H. exact (False_ind _ (Return_is_not_Throw _ _ _ _ H)).
  - intros H. apply bind_Throw_inv in H as [H|(stats & s1 & _ & H)].
    + exact (get_player_stats_Throw env _ _ _ _ _ H).
    + destruct stats as [table|];
        [destruct (negb (empty table))|];
        exact (False_ind _ (Return_is_not_Throw _ _ _ _ H)).
Qed.

(** X24. [get_team_players_stats] has no handler of its own: the exceptions
    that leave it are those that leave [get_player_stats] for one of its
    players, the [KeyError] of a missing GAME_DATE column and the
    [TypeError] of dates that cannot be compared, and the tables already
    collected for the other players are lost with it. *)
Theorem team_stats_raise_only_for_dates {World} (env : environment World)
    team_name lineup (s s' : list event * World) e :
  Collector.get_team_players_stats env team_name lineup s = (Throw e, s') ->
  e = Py (KeyError "GAME_DATE") \/ e = Py TypeError.
Proof.
  unfold Collector.get_team_players_stats. intros H.
  apply bind_Throw_inv in H as [H|(r & s1 & _ & H)].
  - apply (for_each_Throw
             (fun e => e = Py (KeyError "GAME_DATE") \/ e = Py TypeError)
             (Collector.team_player env) lineup) with (acc := []) (s := s) (s' := s');
      [|exact H].
    intros x acc st e0 st' Hx. exact (team_player_Throw env x acc st st' e0 Hx).
  - apply bind_Throw_inv in H as [H|(u & s2 & _ & H)];
      exact (False_ind _ (Return_is_not_Throw _ _ _ _ H)).
Qed.

Lemma team_stats_raise_only_for_dates_witness :
  exists s',
    Collector.get_team_players_stats undated_env (Some "Warriors") sample_lineup
      ([], []) = (Throw (Py (KeyError "GAME_DATE")), s') /\
    (Py (KeyError "GAME_DATE") = Py (KeyError "GAME_DATE")
     \/ Py (KeyError "GAME_DATE") = Py TypeError).
Proof.
  eexists. split; [vm_compute; reflexivity|].
  eapply (team_stats_raise_only_for_dates undated_env (Some "Warriors") sample_lineup
            ([], [])).
  vm_compute. reflexivity.
Defined.

(** ** Games that count as processed *)

(** Without [get_players_for_game] nothing is collected for any game. *)
Lemma no_players_no_stats {World} (env : environment World) (d : database World)
    game_id (s : list event * World) :
  get_players_for_game d = None ->
  exists s', Collector.get_game_players_stats env (Some d) game_id s = (Return [], s').
Proof.
  intros Hp. unfold Collector.get_game_players_stats. rewrite Hp.
  unfold Act.try_except, Act.bind, Act.attribute, Act.ret, Act.throw, Act.call,
    Act.emit.
  destruct (get_game d) as [g|]; [|eexists; reflexivity].
  cbn [fst snd].
  destruct (g game_id s.2) as [[[[|kv game]|]|e] w]; cbn [fst snd];
    eexists; reflexivity.
Qed.

(** X25. A game counts as processed whether or not anything was collected
    for it: when the database lists today's games, each with its
    ['game_id'], but has no method [get_players_for_game], nothing is
    collected or stored for any game and
    [collect_stats_for_todays_games] still returns the number of games
    listed. *)
Theorem games_count_as_processed_when_nothing_is_collected {World}
    (env : environment World) (d : database World) todays_games games w
    (s : list event * World) :
  get_todays_games d = Some todays_games ->
  todays_games s.2 = (Return games, w) ->
  get_players_for_game d = None ->
  forallb (fun game => bool_decide (is_Some (dict_lookup "game_id" game))) games
  = true ->
  exists s',
    Collector.collect_stats_for_todays_games env (Some d) s
    = (Return (Z.of_nat (length games)), s').
Proof.
  intros Hlist Hgames Hplayers Hids.
  assert (Hloop : forall c (st : list event * World),
             exists s',
               Collector.collect_loop env (Some d) d games c st
               = (Return (c + Z.of_nat (length games)), s')).
  { clear Hgames. induction games as [|game games IH]; intros c st.
    - exists st. cbn [Collector.collect_loop length]. unfold Act.ret.
      rewrite Z.add_0_r. reflexivity.
    - cbn [forallb] in Hids. apply andb_prop in Hids as [Hid Hrest].
      apply bool_decide_eq_true in Hid. destruct Hid as [gid Hgid].
      cbn [Collector.collect_loop].
      assert (Hround : exists s1,
                 Collector.todays_game env (Some d) d game st = (Return gid, s1)).
      { unfold Collector.todays_game, item. rewrite Hgid.
        unfold Act.bind at 1, Act.lift at 1.
        destruct (no_players_no_stats env d gid st Hplayers) as (s1 & Hs1).
        rewrite (bind_Return _ _ _ _ _ Hs1). exists s1. reflexivity. }
      destruct Hround as (s1 & ->).
      unfold Act.bind at 1, Act.emit at 1.
      destruct (IH Hrest (c + 1)
                  ((s1.1 ++ [Logged (LogInfo ("Processed stats for game: "
                                                +:+ show gid))])%list, s1.2))
        as (s' & Hrun).
      exists s'. rewrite Hrun. cbn [length]. f_equal. f_equal. lia. }
  unfold Collector.collect_stats_for_todays_games.
  unfold Act.bind, Act.attribute. rewrite Hlist.
  unfold Act.ret, Act.call. cbn [fst snd]. rewrite Hgames. cbn [fst snd].
  destruct (Hloop 0 (s.1, w)) as (s' & Hrun). exists s'. rewrite Hrun.
  reflexivity.
Qed.

Lemma games_count_as_processed_when_nothing_is_collected_witness :
  get_players_for_game listing_db = None /\
  exists s',
    Collector.collect_stats_for_todays_games sample_env (Some listing_db) ([], [])
    = (Return (Z.of_nat (length [sample_game_row; sample_game_row])), s').
Proof.
  split; [reflexivity|].
  apply (games_count_as_processed_when_nothing_is_collected sample_env listing_db
           (fun w => (Return [sample_game_row; sample_game_row], w))
           [sample_game_row; sample_game_row] []); reflexivity.
Defined.
